(** * Reconciliation of a service-mesh control plane

    A shallow embedding of the control-plane reconciler of the operator
    (package [controlplane]): the component walk of [Reconcile], the
    manifest processing of [processManifests] / [processObject] with its
    deletion pass, the readiness hooks of [hooks.go] and the error
    classification of [handleError].

    The Go code is a method set over a mutable [ControlPlaneReconciler]
    that talks to the cluster through [r.Client].  It is embedded as a
    state monad over a record of the same name.  Objects behind
    [*v1.StatusType] pointers live in an explicit heap, because the prior
    and the new component status share them.  The cluster is an abstract
    world; the calls issued against it are additionally recorded, with
    their outcome, in a history that the source does not have and that
    only serves to state what the code asked of the cluster. *)

From Stdlib Require Import ZArith String DecimalString.
From stdpp Require Import base option list gmap sets strings.

Set Warnings "-register-all".

Local Open Scope string_scope.
Local Open Scope list_scope.

(** ** Go's [strings] and [strconv] helpers *)

Definition HasPrefix (s prefix : string) : bool := String.prefix prefix s.

Definition HasSuffix (s suffix : string) : bool :=
  String.prefix (String.rev suffix) (String.rev s).

Definition FormatInt (i : Z) : string := NilZero.string_of_int (Z.to_int i).

(** ** Errors

    Go's [error] interface restricted to the dynamic types that the
    reconciler tells apart: its own [ComponentNotReadyError], the API
    machinery's status errors (recognised by [errors.IsNotFound] and
    [errors.IsGone]), [fmt.Errorf] values and [utilerrors.Aggregate].
    A nil [error] is [None]. *)

Inductive StatusReason :=
| StatusReasonNotFound
| StatusReasonGone
| StatusReasonOther (reason : string).

Inductive error :=
| ComponentNotReadyError (msg : string)
| StatusError (reason : StatusReason) (msg : string)
| errorString (msg : string)
| aggregate (errs : list error).

Definition joinStrings (sep : string) (l : list string) : string :=
  match l with
  | [] => ""
  | x :: xs => fold_left (fun acc y => acc +:+ sep +:+ y) xs x
  end.

Fixpoint Error (e : error) : string :=
  match e with
  | ComponentNotReadyError msg => msg
  | StatusError _ msg => msg
  | errorString msg => msg
  | aggregate errs =>
      match errs with
      | [e1] => Error e1
      | _ => "[" +:+ joinStrings ", " (map Error errs) +:+ "]"
      end
  end.

Definition IsNotFound (err : option error) : bool :=
  match err with
  | Some (StatusError StatusReasonNotFound _) => true
  | _ => false
  end.

Definition IsGone (err : option error) : bool :=
  match err with
  | Some (StatusError StatusReasonGone _) => true
  | _ => false
  end.

(** The type assertion [err.(ComponentNotReadyError)]. *)
Definition isComponentNotReadyError (err : error) : bool :=
  match err with
  | ComponentNotReadyError _ => true
  | _ => false
  end.

(** [utilerrors.NewAggregate]: nil for an empty list. *)
Definition NewAggregate (errlist : list error) : option error :=
  match errlist with
  | [] => None
  | _ => Some (aggregate errlist)
  end.

(** [allErrors = append(allErrors, err)] guarded by [err != nil]. *)
Definition appendErr (allErrors : list error) (err : option error) : list error :=
  match err with
  | Some e => allErrors ++ [e]
  | None => allErrors
  end.

(** ** Status model (package [v1]) *)

Inductive ConditionType := ConditionTypeInstalled | ConditionTypeReconciled.

Inductive ConditionStatus :=
| ConditionStatusTrue
| ConditionStatusFalse
| ConditionStatusUnknown.

#[global] Instance ConditionType_eq_dec : EqDecision ConditionType.
Proof. solve_decision. Defined.

#[global] Instance ConditionStatus_eq_dec : EqDecision ConditionStatus.
Proof. solve_decision. Defined.

Record Condition := {
  cond_Type : ConditionType;
  cond_Status : ConditionStatus;
  cond_Reason : string;
  cond_Message : string;
  cond_LastTransitionTime : Z
}.

Record StatusType := {
  st_Resource : string;
  st_ObservedGeneration : Z;
  st_Conditions : list Condition
}.

(** [v1.ResourceKey] is a string type; [v1.ResourceKey(status.Resource)] is
    the identity. *)
Abbreviation ResourceKey := string (only parsing).

(** Pointers [*v1.StatusType] are indices into the reconciler's heap. *)
Abbreviation ptr := nat (only parsing).

Record ComponentStatus := {
  cs_StatusType : StatusType;
  cs_Resources : list ptr
}.

Record ControlPlaneStatus := {
  cps_StatusType : StatusType;
  cps_ComponentStatus : list ComponentStatus
}.

(** Modelled from the spec: the accessors of the status model (package
    [v1], not among the sources).  A status carries at most one condition
    per type; a condition that is not recorded reads as Unknown. *)
Definition NewStatus : StatusType :=
  {| st_Resource := ""; st_ObservedGeneration := 0; st_Conditions := [] |}.

Definition NewComponentStatus : ComponentStatus :=
  {| cs_StatusType := NewStatus; cs_Resources := [] |}.

Definition GetCondition (s : StatusType) (t : ConditionType) : Condition :=
  match List.find (fun c => bool_decide (cond_Type c = t)) (st_Conditions s) with
  | Some c => c
  | None => {| cond_Type := t; cond_Status := ConditionStatusUnknown;
               cond_Reason := ""; cond_Message := "";
               cond_LastTransitionTime := 0 |}
  end.

Definition RemoveCondition (s : StatusType) (t : ConditionType) : StatusType :=
  {| st_Resource := st_Resource s;
     st_ObservedGeneration := st_ObservedGeneration s;
     st_Conditions :=
       List.filter (fun c => negb (bool_decide (cond_Type c = t))) (st_Conditions s) |}.

Definition setResource (s : StatusType) (r : string) : StatusType :=
  {| st_Resource := r;
     st_ObservedGeneration := st_ObservedGeneration s;
     st_Conditions := st_Conditions s |}.

Definition setObservedGeneration (s : StatusType) (g : Z) : StatusType :=
  {| st_Resource := st_Resource s;
     st_ObservedGeneration := g;
     st_Conditions := st_Conditions s |}.

Definition cs_setStatusType (c : ComponentStatus) (s : StatusType) : ComponentStatus :=
  {| cs_StatusType := s; cs_Resources := cs_Resources c |}.

Definition cs_appendResource (c : ComponentStatus) (p : ptr) : ComponentStatus :=
  {| cs_StatusType := cs_StatusType c; cs_Resources := cs_Resources c ++ [p] |}.

Definition cps_setStatusType (c : ControlPlaneStatus) (s : StatusType) : ControlPlaneStatus :=
  {| cps_StatusType := s; cps_ComponentStatus := cps_ComponentStatus c |}.

Definition cps_appendComponent (c : ControlPlaneStatus) (s : ComponentStatus)
  : ControlPlaneStatus :=
  {| cps_StatusType := cps_StatusType c;
     cps_ComponentStatus := cps_ComponentStatus c ++ [s] |}.

(** Index of the first component status named [name]; the index plays the
    role of the pointer that [FindComponentByName] returns. *)
Fixpoint findComponentIndex (l : list ComponentStatus) (name : string) (i : nat)
  : option nat :=
  match l with
  | [] => None
  | c :: l' =>
      if String.eqb (st_Resource (cs_StatusType c)) name then Some i
      else findComponentIndex l' name (S i)
  end.

Definition FindComponentByName (s : ControlPlaneStatus) (name : string) : option nat :=
  findComponentIndex (cps_ComponentStatus s) name 0.

(** ** Cluster objects *)

Record OwnerReference := {
  or_APIVersion : string;
  or_Kind : string;
  or_Name : string;
  or_UID : string
}.

(** [unstructured.Unstructured], restricted to the fields the reconciler
    reads or writes: identity, metadata, the items of a List with the
    error [ToList] may raise, [status.readyReplicas] and, per entry of
    [webhooks], [clientConfig.caBundle]. *)
Inductive Unstructured := mkUnstructured {
  u_APIVersion : string;
  u_Kind : string;
  u_Namespace : string;
  u_Name : string;
  u_OwnerReferences : list OwnerReference;
  u_Labels : gmap string string;
  u_Annotations : gmap string string;
  u_Items : list Unstructured;
  u_ToListErr : option error;
  u_readyReplicas : option Z;
  u_webhooks : option (list (option string))
}.

Definition SetOwnerReferences (o : Unstructured) (refs : list OwnerReference) :=
  mkUnstructured (u_APIVersion o) (u_Kind o) (u_Namespace o) (u_Name o)
    refs (u_Labels o) (u_Annotations o) (u_Items o) (u_ToListErr o)
    (u_readyReplicas o) (u_webhooks o).

(** [common.SetLabel] and [common.SetAnnotation]. *)
Definition SetLabel (o : Unstructured) (k v : string) :=
  mkUnstructured (u_APIVersion o) (u_Kind o) (u_Namespace o) (u_Name o)
    (u_OwnerReferences o) (<[k := v]> (u_Labels o)) (u_Annotations o)
    (u_Items o) (u_ToListErr o) (u_readyReplicas o) (u_webhooks o).

Definition SetAnnotation (o : Unstructured) (k v : string) :=
  mkUnstructured (u_APIVersion o) (u_Kind o) (u_Namespace o) (u_Name o)
    (u_OwnerReferences o) (u_Labels o) (<[k := v]> (u_Annotations o))
    (u_Items o) (u_ToListErr o) (u_readyReplicas o) (u_webhooks o).

Definition ToList (o : Unstructured) : list Unstructured * option error :=
  match u_ToListErr o with
  | Some e => ([], Some e)
  | None => (u_Items o, None)
  end.

Record ObjectKey := { ok_Namespace : string; ok_Name : string }.

(** [client.ObjectKeyFromObject]: cannot fail on an [Unstructured]. *)
Definition ObjectKeyFromObject (o : Unstructured) : ObjectKey * option error :=
  ({| ok_Namespace := u_Namespace o; ok_Name := u_Name o |}, None).

Record Namespace := { ns_Name : string; ns_Labels : gmap string string }.

Record Manifest := { m_Name : string; m_Content : string }.

Inductive HelmValue := HelmBool (b : bool) | HelmOther.

Record ControlPlaneSpec := {
  spec_Istio : gmap string HelmValue;
  spec_ThreeScale : gmap string HelmValue
}.

Record ServiceMeshControlPlane := {
  smcp_Namespace : string;
  smcp_Name : string;
  smcp_Generation : Z;
  smcp_Spec : ControlPlaneSpec;
  smcp_Status : ControlPlaneStatus
}.

Definition smcp_setStatus (i : ServiceMeshControlPlane) (s : ControlPlaneStatus) :=
  {| smcp_Namespace := smcp_Namespace i; smcp_Name := smcp_Name i;
     smcp_Generation := smcp_Generation i; smcp_Spec := smcp_Spec i;
     smcp_Status := s |}.

(** [reconcile.Result]; [RequeueAfter] in nanoseconds. *)
Record Result := { Requeue : bool; RequeueAfter : Z }.

Definition emptyResult : Result := {| Requeue := false; RequeueAfter := 0 |}.

Definition Second : Z := 1000000000.

(** ** Logging

    [r.Log] is a logger carrying key/value context; every record written
    through it is kept. *)

Inductive LogLevel := LogInfo | LogV2 | LogError (err : option error).

Record LogEntry := {
  le_Level : LogLevel;
  le_Values : list (string * string);
  le_Message : string;
  le_Args : list string
}.

Abbreviation Logger := (list (string * string)) (only parsing).

Definition WithValues (l : Logger) (k v : string) : Logger := l ++ [(k, v)].

(** ** API calls and their outcome, as recorded in the history *)

Inductive Call :=
| CallGet (key : ObjectKey) (receiver : Unstructured)
| CallCreate (obj : Unstructured)
| CallDelete (obj : Unstructured)
| CallPatch (receiver obj : Unstructured)
| CallGetNamespace (name : string)
| CallUpdateNamespace (ns : Namespace)
| CallUpdateStatus (instance : ServiceMeshControlPlane).

Definition Request : Type := Call * option error.

(** A value handed to [unstructured.SetNestedField]: the reconciler writes
    strings and booleans. *)
Inductive FieldValue := FieldString (s : string) | FieldBool (b : bool).

(** The settings that [patchKialiConfig] arrives at. *)
Record KialiSettings := {
  jaegerURL : string;
  jaegerEnabled : bool;
  grafanaURL : string;
  grafanaEnabled : bool
}.

(** ** The reconciler's environment

    What the reconciler uses without defining it in the sources at hand:
    the API client, the chart renderer, the YAML/JSON decoders, the patch
    factory, the resource-key codec and the helpers of the package that
    update conditions.  The development is parametric in all of them. *)

Record Env := {
  (** the cluster as seen through [r.Client] *)
  World : Type;
  (** constants of package [common] *)
  OwnerKey : string;
  MeshGenerationKey : string;
  MemberOfKey : string;
  ChartPath : string;
  (** [common.RenderHelmChart chartPath namespace values] *)
  RenderHelmChart :
    string -> string -> gmap string HelmValue ->
    gmap string (list Manifest) * option error;
  (** the order in which [range] visits the keys of the renderings map:
      any order, every key once *)
  rangeKeys : gmap string (list Manifest) -> list string;
  rangeKeys_keys : forall m, rangeKeys m ≡ₚ (map_to_list m).*1;
  (** [releaseutil.SplitManifests], in the order its result is ranged over *)
  SplitManifests : string -> list string;
  YAMLToJSON : string -> string * option error;
  Decode : string -> Unstructured * option error;
  (** [v1.NewResourceKey], [ResourceKey.ToUnstructured] and the kind
      recorded in a key *)
  NewResourceKey : Unstructured -> ResourceKey;
  ToUnstructured : ResourceKey -> Unstructured;
  KeyKind : ResourceKey -> string;
  (** condition bookkeeping of package [controlplane] *)
  updateReconcileStatus : StatusType -> option error -> StatusType;
  updateDeleteStatus : StatusType -> option error -> StatusType;
  (** the function fields [NewOwnerRef] and [UpdateStatus] of the reconciler *)
  NewOwnerRef : ServiceMeshControlPlane -> OwnerReference;
  UpdateStatus :
    ServiceMeshControlPlane -> list StatusType -> World -> option error * World;
  (** [r.Client] *)
  clientGet : ObjectKey -> Unstructured -> World -> (Unstructured * option error) * World;
  clientCreate : Unstructured -> World -> option error * World;
  clientDelete : Unstructured -> World -> option error * World;
  clientGetNamespace : string -> Namespace -> World -> (Namespace * option error) * World;
  clientUpdateNamespace : Namespace -> World -> option error * World;
  clientStatusUpdate :
    ServiceMeshControlPlane -> list StatusType -> World -> option error * World;
  (** [r.PatchFactory.CreatePatch] and [patch.Apply] *)
  Patch : Type;
  CreatePatch : Unstructured -> Unstructured -> option Patch * option error;
  patchApply : Patch -> World -> option error * World;
  (** [kubectl.CreateApplyAnnotation] *)
  CreateApplyAnnotation : Unstructured -> Unstructured * option error;
  (** [unstructured.NestedString obj fields...], [unstructured.NestedBool]
      and [unstructured.SetNestedField obj value fields...], which changes
      the object in place: here the changed object is returned *)
  NestedString : Unstructured -> list string -> string * bool * option error;
  NestedBool : Unstructured -> list string -> bool * bool * option error;
  SetNestedField :
    Unstructured -> FieldValue -> list string -> Unstructured * option error;
  (** the object patchers behind [preprocessObject] that are not among the
      sources *)
  patchGrafanaConfig : Unstructured -> World -> (Unstructured * option error) * World;
  patchPrometheusHtpasswd : Unstructured -> World -> (Unstructured * option error) * World;
  (** [r.prune generation] *)
  prune :
    Z -> ServiceMeshControlPlane -> list StatusType -> World -> option error * World
}.

Section Reconciler.

Variable E : Env.

(** ** The reconciler state *)

Record ControlPlaneReconciler := {
  Client : World E;
  history : list Request;
  Log : Logger;
  logged : list LogEntry;
  heap : list StatusType;
  Instance : ServiceMeshControlPlane;
  Status : ControlPlaneStatus;
  ownerRefs : list OwnerReference;
  meshGeneration : string;
  renderings : gmap string (list Manifest)
}.

Definition setClient (w : World E) (r : ControlPlaneReconciler) :=
  {| Client := w; history := history r; Log := Log r; logged := logged r;
     heap := heap r; Instance := Instance r; Status := Status r;
     ownerRefs := ownerRefs r; meshGeneration := meshGeneration r;
     renderings := renderings r |}.

Definition setHistory (h : list Request) (r : ControlPlaneReconciler) :=
  {| Client := Client r; history := h; Log := Log r; logged := logged r;
     heap := heap r; Instance := Instance r; Status := Status r;
     ownerRefs := ownerRefs r; meshGeneration := meshGeneration r;
     renderings := renderings r |}.

Definition setLog (l : Logger) (r : ControlPlaneReconciler) :=
  {| Client := Client r; history := history r; Log := l; logged := logged r;
     heap := heap r; Instance := Instance r; Status := Status r;
     ownerRefs := ownerRefs r; meshGeneration := meshGeneration r;
     renderings := renderings r |}.

Definition setLogged (l : list LogEntry) (r : ControlPlaneReconciler) :=
  {| Client := Client r; history := history r; Log := Log r; logged := l;
     heap := heap r; Instance := Instance r; Status := Status r;
     ownerRefs := ownerRefs r; meshGeneration := meshGeneration r;
     renderings := renderings r |}.

Definition setHeap (h : list StatusType) (r : ControlPlaneReconciler) :=
  {| Client := Client r; history := history r; Log := Log r; logged := logged r;
     heap := h; Instance := Instance r; Status := Status r;
     ownerRefs := ownerRefs r; meshGeneration := meshGeneration r;
     renderings := renderings r |}.

Definition setInstance (i : ServiceMeshControlPlane) (r : ControlPlaneReconciler) :=
  {| Client := Client r; history := history r; Log := Log r; logged := logged r;
     heap := heap r; Instance := i; Status := Status r;
     ownerRefs := ownerRefs r; meshGeneration := meshGeneration r;
     renderings := renderings r |}.

Definition setStatus (s : ControlPlaneStatus) (r : ControlPlaneReconciler) :=
  {| Client := Client r; history := history r; Log := Log r; logged := logged r;
     heap := heap r; Instance := Instance r; Status := s;
     ownerRefs := ownerRefs r; meshGeneration := meshGeneration r;
     renderings := renderings r |}.

Definition setOwnerRefs (o : list OwnerReference) (r : ControlPlaneReconciler) :=
  {| Client := Client r; history := history r; Log := Log r; logged := logged r;
     heap := heap r; Instance := Instance r; Status := Status r;
     ownerRefs := o; meshGeneration := meshGeneration r;
     renderings := renderings r |}.

Definition setMeshGeneration (g : string) (r : ControlPlaneReconciler) :=
  {| Client := Client r; history := history r; Log := Log r; logged := logged r;
     heap := heap r; Instance := Instance r; Status := Status r;
     ownerRefs := ownerRefs r; meshGeneration := g;
     renderings := renderings r |}.

Definition setRenderings (m : gmap string (list Manifest)) (r : ControlPlaneReconciler) :=
  {| Client := Client r; history := history r; Log := Log r; logged := logged r;
     heap := heap r; Instance := Instance r; Status := Status r;
     ownerRefs := ownerRefs r; meshGeneration := meshGeneration r;
     renderings := m |}.

(** ** The state monad of the methods of [*ControlPlaneReconciler] *)

Definition M (A : Type) : Type := ControlPlaneReconciler -> A * ControlPlaneReconciler.

Definition ret {A} (a : A) : M A := fun r => (a, r).

Definition bind {A B} (m : M A) (k : A -> M B) : M B :=
  fun r => let (a, r') := m r in k a r'.

Definition gets {A} (f : ControlPlaneReconciler -> A) : M A := fun r => (f r, r).

Definition modify (f : ControlPlaneReconciler -> ControlPlaneReconciler) : M unit :=
  fun r => (tt, f r).

Notation "'let*' x ':=' c1 'in' c2" := (bind c1 (fun x => c2))
  (at level 10, x pattern, c1 at level 100, c2 at level 200).
Notation "c1 ;; c2" := (bind c1 (fun _ => c2))
  (at level 100, right associativity).

(** A [for ... range] loop that threads the variables it assigns. *)
Definition foldM {A S} (body : S -> A -> M S) : list A -> S -> M S :=
  fix loop (l : list A) (acc : S) : M S :=
    match l with
    | [] => ret acc
    | x :: l' => let* acc' := body acc x in loop l' acc'
    end.

(** A [for ... range] loop left by [return err] at the first error. *)
Definition forUntilError {A S} (body : S -> A -> M (S * option error))
  : list A -> S -> M (S * option error) :=
  fix loop (l : list A) (acc : S) : M (S * option error) :=
    match l with
    | [] => ret (acc, None)
    | x :: l' =>
        let* (acc', err) := body acc x in
        match err with
        | Some e => ret (acc', Some e)
        | None => loop l' acc'
        end
    end.

(** *** Logging through [r.Log] *)

Definition logWith (lvl : LogLevel) (msg : string) (args : list string) : M unit :=
  modify (fun r =>
    setLogged (logged r ++ [{| le_Level := lvl; le_Values := Log r;
                               le_Message := msg; le_Args := args |}]) r).

Definition logInfo (msg : string) (args : list string) : M unit :=
  logWith LogInfo msg args.
Definition logV2 (msg : string) (args : list string) : M unit :=
  logWith LogV2 msg args.
Definition logError (err : option error) (msg : string) (args : list string) : M unit :=
  logWith (LogError err) msg args.

(** *** The heap of [*v1.StatusType] *)

Definition deref (h : list StatusType) (p : ptr) : StatusType :=
  default NewStatus (h !! p).

Definition readStatus (p : ptr) : M StatusType := gets (fun r => deref (heap r) p).

Definition updateStatusAt (p : ptr) (f : StatusType -> StatusType) : M unit :=
  modify (fun r => setHeap (<[p := f (deref (heap r) p)]> (heap r)) r).

Definition allocStatus (s : StatusType) : M ptr :=
  fun r => (length (heap r), setHeap (heap r ++ [s]) r).

(** *** Calls through [r.Client], recorded with their outcome *)

Definition record (c : Call) (err : option error) : M unit :=
  modify (fun r => setHistory (history r ++ [(c, err)]) r).

Definition liftWorld {A} (f : World E -> A * World E) : M A :=
  fun r => let (a, w) := f (Client r) in (a, setClient w r).

Definition Get (key : ObjectKey) (receiver : Unstructured) : M (Unstructured * option error) :=
  let* (obj, err) := liftWorld (clientGet E key receiver) in
  record (CallGet key receiver) err ;;
  ret (obj, err).

Definition Create (obj : Unstructured) : M (option error) :=
  let* err := liftWorld (clientCreate E obj) in
  record (CallCreate obj) err ;;
  ret err.

Definition Delete (obj : Unstructured) : M (option error) :=
  let* err := liftWorld (clientDelete E obj) in
  record (CallDelete obj) err ;;
  ret err.

Definition Apply (patch : Patch E) (receiver obj : Unstructured) : M (option error) :=
  let* err := liftWorld (patchApply E patch) in
  record (CallPatch receiver obj) err ;;
  ret err.

Definition GetNamespace (name : string) (receiver : Namespace) : M (Namespace * option error) :=
  let* (ns, err) := liftWorld (clientGetNamespace E name receiver) in
  record (CallGetNamespace name) err ;;
  ret (ns, err).

Definition UpdateNamespace (ns : Namespace) : M (option error) :=
  let* err := liftWorld (clientUpdateNamespace E ns) in
  record (CallUpdateNamespace ns) err ;;
  ret err.

(** [r.UpdateStatus()] and [r.Client.Status().Update(ctx, r.Instance)] *)
Definition callUpdateStatus : M (option error) :=
  let* r := gets id in
  let* err := liftWorld (UpdateStatus E (Instance r) (heap r)) in
  record (CallUpdateStatus (Instance r)) err ;;
  ret err.

Definition StatusUpdate : M (option error) :=
  let* r := gets id in
  let* err := liftWorld (clientStatusUpdate E (Instance r) (heap r)) in
  record (CallUpdateStatus (Instance r)) err ;;
  ret err.

(** ** Lookups in a component status (package [v1])

    Modelled from the spec: [FindResourceByKey] and [FindResourcesOfKind]
    are not among the sources; they walk [Resources] in order and compare
    the recorded key, respectively the kind recorded in it. *)

Definition FindResourceByKey (h : list StatusType) (s : ComponentStatus)
    (key : ResourceKey) : option ptr :=
  List.find (fun p => String.eqb (st_Resource (deref h p)) key) (cs_Resources s).

Definition FindResourcesOfKind (h : list StatusType) (s : ComponentStatus)
    (kind : string) : list ptr :=
  List.filter (fun p => String.eqb (KeyKind E (st_Resource (deref h p))) kind)
    (cs_Resources s).

Definition installedTrue (st : StatusType) : bool :=
  bool_decide (cond_Status (GetCondition st ConditionTypeInstalled) = ConditionStatusTrue).

Definition installedFalse (st : StatusType) : bool :=
  bool_decide (cond_Status (GetCondition st ConditionTypeInstalled) = ConditionStatusFalse).

(** [err == nil] *)
Definition isNil (err : option error) : bool :=
  match err with
  | None => true
  | Some _ => false
  end.

(** ** hooks.go *)

Definition waitForDeployment (object : Unstructured) : M (option error) :=
  let name := u_Name object in
  let kind := u_Kind object in
  logInfo "checking if deployment is ready" [kind; name] ;;
  let* (object, err) :=
    Get {| ok_Namespace := u_Namespace object; ok_Name := name |} object in
  match err with
  | Some e =>
      logError err "unexpected error occurred when checking if deployment is ready"
        [kind; name] ;;
      ret (Some (errorString
                   ("error getting " +:+ kind +:+ " " +:+ name +:+ ": " +:+ Error e)))
  | None =>
      if IsNotFound err then
        logError None "attempting to wait on unknown deployment" [kind; name] ;;
        ret (Some (errorString (kind +:+ " " +:+ name +:+ " not found")))
      else
        let readyReplicas := default 0%Z (u_readyReplicas object) in
        if (0 <? readyReplicas)%Z then ret None
        else ret (Some (ComponentNotReadyError "no replica is ready"))
  end.

Definition caBundleMissing (webhook : option string) : bool :=
  match webhook with
  | Some caBundle => Nat.eqb (String.length caBundle) 0
  | None => true
  end.

Definition waitForWebhookCABundleInitialization (object : Unstructured)
  : M (option error) :=
  let name := u_Name object in
  let kind := u_Kind object in
  logInfo "waiting for webhook CABundle initialization" [kind; name] ;;
  let* (object, err) := Get {| ok_Namespace := ""; ok_Name := name |} object in
  match err with
  | Some e =>
      logError err
        "unexpected error occurred waiting for webhook CABundle to become initialized"
        [kind; name] ;;
      ret (Some (errorString
                   ("error getting " +:+ kind +:+ " " +:+ name +:+ ": " +:+ Error e)))
  | None =>
      if IsNotFound err then
        logError None "attempting to wait on unknown webhook" [kind; name] ;;
        ret (Some (errorString (kind +:+ " " +:+ name +:+ " not found")))
      else
        match u_webhooks object with
        | None => ret None
        | Some webhooks =>
            if existsb caBundleMissing webhooks then
              ret (Some (ComponentNotReadyError
                           ("caBundle in " +:+ kind +:+ " " +:+ name +:+ " not set")))
            else ret None
        end
  end.

(** The loop shared by the hooks:
    [for _, status := range statuses { if Installed is True { err := wait(key.ToUnstructured()); if err != nil { return err } } }]. *)
Definition forInstalled (statuses : list ptr)
    (wait : Unstructured -> M (option error)) : M (option error) :=
  let* (_, err) :=
    forUntilError (fun (_ : unit) status =>
      let* st := readStatus status in
      if installedTrue st then
        let* err := wait (ToUnstructured E (st_Resource st)) in
        ret (tt, err)
      else ret (tt, None)) statuses tt in
  ret err.

Definition waitForDeployments (status : ComponentStatus) : M (option error) :=
  let* statefulSets := gets (fun r => FindResourcesOfKind (heap r) status "StatefulSet") in
  let* err := forInstalled statefulSets waitForDeployment in
  match err with
  | Some e => ret (Some e)
  | None =>
      let* deployments :=
        gets (fun r => FindResourcesOfKind (heap r) status "Deployment") in
      let* err := forInstalled deployments waitForDeployment in
      match err with
      | Some e => ret (Some e)
      | None =>
          let* deploymentConfigs :=
            gets (fun r => FindResourcesOfKind (heap r) status "DeploymentConfig") in
          let* err := forInstalled deploymentConfigs waitForDeployment in
          match err with
          | Some e => ret (Some e)
          | None => ret None
          end
      end
  end.

Definition postProcessNewComponent (name : string) (status : ComponentStatus)
  : M (option error) :=
  if String.eqb name "istio/charts/galley" then
    let* err := waitForDeployments status in
    match err with
    | Some e => ret (Some e)
    | None =>
        if String.eqb name "istio/charts/galley" then
          let* webhooks :=
            gets (fun r =>
                    FindResourcesOfKind (heap r) status "ValidatingWebhookConfiguration") in
          forInstalled webhooks waitForWebhookCABundleInitialization
        else ret None
    end
  else if String.eqb name "istio/charts/sidecarInjectorWebhook" then
    let* webhooks :=
      gets (fun r =>
              FindResourcesOfKind (heap r) status "MutatingWebhookConfiguration") in
    let* err := forInstalled webhooks waitForWebhookCABundleInitialization in
    match err with
    | Some e => ret (Some e)
    | None =>
        let* err := waitForDeployments status in
        match err with
        | Some e => ret (Some e)
        | None => ret None
        end
    end
  else
    let* err := waitForDeployments status in
    match err with
    | Some e => ret (Some e)
    | None => ret None
    end.

Definition processDeletedComponent (name : string) (status : ComponentStatus)
  : M (option error) := ret None.

(** *** [patchKialiConfig]

    The content of the Kiali object is read and written through the
    accessors of package [unstructured]. *)

(** [fmt.Sprintf] of a bool *)
Definition formatBool (b : bool) : string := if b then "true" else "false".

(** [url, found, err := NestedString(...); if !found || err != nil { url = "" }] *)
Definition configuredURL (object : Unstructured) (service : string) : string :=
  let '(url, found, err) :=
    NestedString E object ["spec"; "external_services"; service; "url"] in
  if negb found || negb (isNil err) then "" else url.

(** [enabled, found, err := NestedBool(...); if !found || err != nil { enabled = true }] *)
Definition configuredEnabled (object : Unstructured) (service : string) : bool :=
  let '(enabled, found, err) :=
    NestedBool E object ["spec"; "external_services"; service; "enabled"] in
  if negb found || negb (isNil err) then true else enabled.

(** The receiver of the lookup of a route (lines 98-100 and 136-138). *)
Definition routeReceiver : Unstructured :=
  mkUnstructured "route.openshift.io/v1" "Route" "" "" [] ∅ ∅ [] None None None.

(** The block that the source has twice, for jaeger (lines 95-121) and for
    grafana (lines 133-158): if the user has not configured the URL and
    the service is enabled, the URL is taken from the route named
    [routeName] in the namespace of the object.  The variables that the
    block assigns, the URL and the enabled flag, are returned. *)
Definition autoDetect (routeName : string) (object : Unstructured)
    (url : string) (enabled : bool) : M (string * bool) :=
  if Nat.eqb (String.length url) 0 && enabled then
    logInfo ("attempting to auto-detect " +:+ routeName +:+ " for kiali") [] ;;
    let* (route, err) :=
      Get {| ok_Namespace := u_Namespace object; ok_Name := routeName |}
        routeReceiver in
    match err with
    | Some _ =>
        (if negb (IsNotFound err) then
           logError err
             ("error retrieving " +:+ routeName +:+ " route - will disable it in Kiali") []
           (* we aren't going to return here *)
         else ret tt) ;;
        ret (url, false)
    | None =>
        let '(url, _, _) := NestedString E route ["spec"; "host"] in
        let scheme :=
          let '(termination, ok, _) := NestedString E route ["spec"; "tls"; "termination"] in
          if ok && Nat.ltb 0 (String.length termination) then "https" else "http" in
        if Nat.ltb 0 (String.length url)
        then ret (scheme +:+ "://" +:+ url, enabled)
        else ret (url, false) (* there is no host on this route *)
    end
  else ret (url, enabled).

(** Lines 83-161 of [patchKialiConfig]. *)
Definition kialiSettings (object : Unstructured) : M KialiSettings :=
  logInfo "patching kiali CR" [u_Kind object; u_Name object] ;;
  (* get jaeger URL and enabled flags from Kiali CR *)
  let jaegerURL := configuredURL object "tracing" in
  let jaegerEnabled := configuredEnabled object "tracing" in
  let* (jaegerURL, jaegerEnabled) := autoDetect "jaeger" object jaegerURL jaegerEnabled in
  (* get grafana URL and enabled flags from Kiali CR *)
  let grafanaURL := configuredURL object "grafana" in
  let grafanaEnabled := configuredEnabled object "grafana" in
  let* (grafanaURL, grafanaEnabled) :=
    autoDetect "grafana" object grafanaURL grafanaEnabled in
  logInfo "new kiali jaeger settings" [jaegerURL; formatBool jaegerEnabled] ;;
  logInfo "new kiali grafana setting" [grafanaURL; formatBool grafanaEnabled] ;;
  ret {| jaegerURL := jaegerURL; jaegerEnabled := jaegerEnabled;
           grafanaURL := grafanaURL; grafanaEnabled := grafanaEnabled |}.

(** [err = SetNestedField(...); if err != nil { return fmt.Errorf(msg, err) }] *)
Definition setOrFail (object : Unstructured) (value : FieldValue)
    (service field what : string) : Unstructured * option error :=
  let (object, err) :=
    SetNestedField E object value ["spec"; "external_services"; service; field] in
  match err with
  | Some e =>
      (object, Some (errorString ("could not set " +:+ what +:+ " in kiali CR: " +:+ Error e)))
  | None => (object, None)
  end.

(** Lines 163-183 of [patchKialiConfig]. *)
Definition writeKialiSettings (object : Unstructured) (s : KialiSettings)
  : Unstructured * option error :=
  let (object, err) :=
    setOrFail object (FieldString (jaegerURL s)) "tracing" "url" "jaeger url" in
  match err with
  | Some _ => (object, err)
  | None =>
      let (object, err) :=
        setOrFail object (FieldBool (jaegerEnabled s)) "tracing" "enabled"
          "jaeger enabled flag" in
      match err with
      | Some _ => (object, err)
      | None =>
          let (object, err) :=
            setOrFail object (FieldString (grafanaURL s)) "grafana" "url" "grafana url" in
          match err with
          | Some _ => (object, err)
          | None =>
              setOrFail object (FieldBool (grafanaEnabled s)) "grafana" "enabled"
                "grafana enabled flag"
          end
      end
  end.

(** [patchKialiConfig]: the settings, then the four writes. *)
Definition patchKialiConfig (object : Unstructured) : M (Unstructured * option error) :=
  let* settings := kialiSettings object in
  ret (writeKialiSettings object settings).

Definition preprocessObject (object : Unstructured) : M (Unstructured * option error) :=
  if String.eqb (u_Kind object) "Kiali" then
    patchKialiConfig object
  else if String.eqb (u_Kind object) "ConfigMap" then
    if String.eqb (u_Name object) "istio-grafana" then
      liftWorld (patchGrafanaConfig E object)
    else ret (object, None)
  else if String.eqb (u_Kind object) "Secret" then
    if String.eqb (u_Name object) "prometheus-htpasswd" then
      liftWorld (patchPrometheusHtpasswd E object)
    else ret (object, None)
  else ret (object, None).

Definition processNewObject (object : Unstructured) : M (option error) := ret None.

Definition processDeletedObject (object : Unstructured) : M (option error) := ret None.

(** ** manifestprocessing.go *)

(** [if err != nil { r.Log.Error(err, msg) }] *)
Definition logIfError (err : option error) (msg : string) : M unit :=
  match err with
  | Some _ => logError err msg []
  | None => ret tt
  end.

(** [processObject].  The map [resourcesProcessed] and the status behind
    [newStatus] are updated in place by the source; here their new values
    are returned.  [obj.ToList()] fails with [u_ToListErr obj] and
    otherwise yields the items [u_Items obj]. *)
Fixpoint processObject (obj : Unstructured) (resourcesProcessed : gset ResourceKey)
    (oldStatus newStatus : ComponentStatus) {struct obj}
  : M (gset ResourceKey * ComponentStatus * option error) :=
  let* origLogger := gets Log in
  let key := NewResourceKey E obj in
  modify (setLog (WithValues origLogger "Resource" key)) ;;
  if String.eqb (u_Kind obj) "List" then
    match u_ToListErr obj with
    | Some err =>
        logError (Some err) "error converting List object" [] ;;
        modify (setLog origLogger) ;;
        ret (resourcesProcessed, newStatus, Some err)
    | None =>
        let* (resourcesProcessed, newStatus, allErrors) :=
          foldM (fun '(resourcesProcessed, newStatus, allErrors) item =>
                   let* (resourcesProcessed, newStatus, err) :=
                     processObject item resourcesProcessed oldStatus newStatus in
                   ret (resourcesProcessed, newStatus, appendErr allErrors err))
                (u_Items obj) (resourcesProcessed, newStatus, []) in
        modify (setLog origLogger) ;;
        ret (resourcesProcessed, newStatus, NewAggregate allErrors)
    end
  else
    (* Add owner ref *)
    let* r := gets id in
    let obj :=
      if String.eqb (u_Namespace obj) (smcp_Namespace (Instance r))
      then SetOwnerReferences obj (ownerRefs r)
      else obj in
    (* add owner label *)
    let obj := SetLabel obj (OwnerKey E) (smcp_Namespace (Instance r)) in
    (* add generation annotation *)
    let obj := SetAnnotation obj (MeshGenerationKey E) (meshGeneration r) in
    logV2 "beginning reconciliation of resource" ["ResourceKey"; key] ;;
    let resourcesProcessed := {[key]} ∪ resourcesProcessed in
    let* found := gets (fun r => FindResourceByKey (heap r) oldStatus key) in
    let* status :=
      match found with
      | Some status => ret status
      | None => allocStatus (setResource NewStatus key)
      end in
    let newStatus := cs_appendResource newStatus status in
    let* (obj, err) := preprocessObject obj in
    match err with
    | Some e =>
        logError err "error preprocessing object" [] ;;
        updateStatusAt status (fun st => updateReconcileStatus E st err) ;;
        modify (setLog origLogger) ;;
        ret (resourcesProcessed, newStatus, Some e)
    | None =>
        let (obj, err) := CreateApplyAnnotation E obj in
        logIfError err "unexpected error adding apply annotation to object" ;;
        let receiver := ToUnstructured E key in
        let (objectKey, err) := ObjectKeyFromObject receiver in
        match err with
        | Some e =>
            logError err "client.ObjectKeyFromObject() failed for resource" [] ;;
            updateStatusAt status (fun st => updateReconcileStatus E st err) ;;
            modify (setLog origLogger) ;;
            ret (resourcesProcessed, newStatus, Some e)
        | None =>
            let* (receiver, err) := Get objectKey receiver in
            let* err :=
              match err with
              | Some _ =>
                  if IsNotFound err then
                    logInfo "creating resource" [] ;;
                    let* err := Create obj in
                    match err with
                    | None =>
                        updateStatusAt status (fun st => setObservedGeneration st 1) ;;
                        (* special handling *)
                        let* herr := processNewObject obj in
                        logIfError herr
                          "unexpected error occurred during postprocessing of new resource" ;;
                        ret err
                    | Some _ =>
                        logError err
                          "unexpected error occurred during creation of new resource" [] ;;
                        ret err
                    end
                  else ret err
              | None =>
                  let (patch, err) := CreatePatch E receiver obj in
                  match err, patch with
                  | None, Some patch =>
                      logInfo "updating existing resource" [] ;;
                      updateStatusAt status
                        (fun st => RemoveCondition st ConditionTypeReconciled) ;;
                      Apply patch receiver obj
                  | _, _ => ret err
                  end
              end in
            logV2 "resource reconciliation complete" [] ;;
            updateStatusAt status (fun st => updateReconcileStatus E st err) ;;
            logIfError err "error occurred reconciling resource" ;;
            modify (setLog origLogger) ;;
            ret (resourcesProcessed, newStatus, err)
        end
    end.

(** The variables that the loops of [processManifests] assign. *)
Definition Progress : Type := gset ResourceKey * ComponentStatus * list error.

(** Body of the loop over the raw objects of one manifest (lines 76-94). *)
Definition processRaw (oldStatus : ComponentStatus) (acc : Progress) (raw : string)
  : M Progress :=
  let '(resourcesProcessed, newStatus, allErrors) := acc in
  let (rawJSON, err) := YAMLToJSON E raw in
  match err with
  | Some e =>
      logError err "unable to convert raw data to JSON" [] ;;
      ret (resourcesProcessed, newStatus, allErrors ++ [e])
  | None =>
      let (obj, err) := Decode E rawJSON in
      match err with
      | Some e =>
          logError err "unable to decode object into Unstructured" [] ;;
          ret (resourcesProcessed, newStatus, allErrors ++ [e])
      | None =>
          let* (resourcesProcessed, newStatus, err) :=
            processObject obj resourcesProcessed oldStatus newStatus in
          ret (resourcesProcessed, newStatus, appendErr allErrors err)
      end
  end.

(** Body of the loop over the manifests (lines 67-95). *)
Definition processManifest (origLogger : Logger) (oldStatus : ComponentStatus)
    (acc : Progress) (manifest : Manifest) : M Progress :=
  modify (setLog (WithValues origLogger "manifest" (m_Name manifest))) ;;
  if negb (HasSuffix (m_Name manifest) ".yaml") then
    logV2 "Skipping rendering of manifest" [] ;;
    ret acc
  else
    logV2 "Processing resources from manifest" [] ;;
    (* split the manifest into individual objects *)
    let objects := SplitManifests E (m_Content manifest) in
    foldM (processRaw oldStatus) objects acc.

(** Body of the deletion loop (lines 99-122), for the status at one index. *)
Definition deleteUnprocessed (origLogger : Logger)
    (resourcesProcessed : gset ResourceKey)
    (acc : ComponentStatus * list error) (status : ptr)
  : M (ComponentStatus * list error) :=
  let '(newStatus, allErrors) := acc in
  let* st := readStatus status in
  let resourceKey := st_Resource st in
  if bool_decide (resourceKey ∈ resourcesProcessed) then ret (newStatus, allErrors)
  else
    modify (setLog (WithValues origLogger "Resource" resourceKey)) ;;
    if negb (installedFalse st) then
      logInfo "deleting resource" [] ;;
      let unstructured := ToUnstructured E resourceKey in
      let* err := Delete unstructured in
      updateStatusAt status (fun st => updateDeleteStatus E st err) ;;
      let newStatus := cs_appendResource newStatus status in
      if isNil err || IsNotFound err || IsGone err then
        updateStatusAt status (fun st => setObservedGeneration st 0) ;;
        (* special handling *)
        let* herr := processDeletedObject unstructured in
        logIfError herr "unexpected error occurred during cleanup of deleted resource" ;;
        ret (newStatus, allErrors)
      else
        logError err "error deleting resource" [] ;;
        ret (newStatus, appendErr allErrors err)
    else ret (newStatus, allErrors).

Definition processManifests (manifests : list Manifest) (oldStatus : ComponentStatus)
  : M (ComponentStatus * option error) :=
  let allErrors : list error := [] in
  let resourcesProcessed : gset ResourceKey := ∅ in
  let newStatus := NewComponentStatus in
  let newStatus := cs_setStatusType newStatus (cs_StatusType oldStatus) in
  let newStatus :=
    cs_setStatusType newStatus
      (setResource (cs_StatusType newStatus) (st_Resource (cs_StatusType oldStatus))) in
  let* origLogger := gets Log in
  let* (resourcesProcessed, newStatus, allErrors) :=
    foldM (processManifest origLogger oldStatus) manifests
      (resourcesProcessed, newStatus, allErrors) in
  (* handle deletions *)
  let* (newStatus, allErrors) :=
    foldM (deleteUnprocessed origLogger resourcesProcessed)
      (rev (cs_Resources oldStatus)) (newStatus, allErrors) in
  let err := NewAggregate allErrors in
  let newStatus :=
    if Nat.ltb 0 (length manifests)
    then cs_setStatusType newStatus (updateReconcileStatus E (cs_StatusType newStatus) err)
    else cs_setStatusType newStatus (updateDeleteStatus E (cs_StatusType newStatus) err) in
  modify (setLog origLogger) ;;
  ret (newStatus, err).

(** The component status at the index that [FindComponentByName] returned. *)
Definition componentAt (s : ControlPlaneStatus) (i : nat) : ComponentStatus :=
  default NewComponentStatus (cps_ComponentStatus s !! i).

(** [status.RemoveCondition(...)] through that pointer: the entry of
    [r.Instance.Status] is updated in place. *)
Definition removeComponentCondition (i : nat) (t : ConditionType)
    (r : ControlPlaneReconciler) : ControlPlaneReconciler :=
  let s := smcp_Status (Instance r) in
  setInstance
    (smcp_setStatus (Instance r)
       {| cps_StatusType := cps_StatusType s;
          cps_ComponentStatus :=
            alter (fun c => cs_setStatusType c (RemoveCondition (cs_StatusType c) t))
              i (cps_ComponentStatus s) |}) r.

Definition processComponentManifests (componentName : string) : M (option error) :=
  let* origLogger := gets Log in
  modify (setLog (WithValues origLogger "Component" componentName)) ;;
  let* hasRenderings := gets (fun r => renderings r !! componentName) in
  match hasRenderings with
  | None =>
      logInfo "no renderings for component" [] ;;
      modify (setLog origLogger) ;;
      ret None
  | Some renderings =>
      logInfo "reconciling component resources" [] ;;
      let* found :=
        gets (fun r => FindComponentByName (smcp_Status (Instance r)) componentName) in
      let* status :=
        match found with
        | None =>
            let status := NewComponentStatus in
            ret (cs_setStatusType status
                   (setResource (cs_StatusType status) componentName))
        | Some i =>
            modify (removeComponentCondition i ConditionTypeReconciled) ;;
            gets (fun r => componentAt (smcp_Status (Instance r)) i)
        end in
      let* (status, err) := processManifests renderings status in
      let* generation := gets (fun r => smcp_Generation (Instance r)) in
      let status :=
        cs_setStatusType status
          (setObservedGeneration (cs_StatusType status) generation) in
      let* herr := postProcessNewComponent componentName status in
      match herr with
      | Some e =>
          logError herr
            "unexpected error occurred during postprocessing of new component" [] ;;
          modify (setLog origLogger) ;;
          ret (Some e)
      | None =>
          modify (fun r => setStatus (cps_appendComponent (Status r) status) r) ;;
          logInfo "component reconciliation complete" [] ;;
          modify (setLog origLogger) ;;
          ret err
      end
  end.

(** ** The reconciler proper: [Reconcile], [handleError], [renderCharts] *)

Definition isEnabled (spec : gmap string HelmValue) : bool :=
  match spec !! "enabled" with
  | Some (HelmBool enabled) => enabled
  | _ => false
  end.

Definition pathJoin (dir name : string) : string := dir +:+ "/" +:+ name.

Definition renderCharts : M (option error) :=
  let allErrors : list error := [] in
  logV2 "rendering Istio charts" [] ;;
  let* instance := gets Instance in
  let (istioRenderings, err) :=
    RenderHelmChart E (pathJoin (ChartPath E) "istio") (smcp_Namespace instance)
      (spec_Istio (smcp_Spec instance)) in
  let allErrors := appendErr allErrors err in
  let* (threeScaleRenderings, allErrors) :=
    if isEnabled (spec_ThreeScale (smcp_Spec instance)) then
      logV2 "rendering 3scale charts" [] ;;
      let (threeScaleRenderings, err) :=
        RenderHelmChart E (pathJoin (ChartPath E) "maistra-threescale")
          (smcp_Namespace instance) (spec_ThreeScale (smcp_Spec instance)) in
      ret (threeScaleRenderings, appendErr allErrors err)
    else ret (∅, allErrors) in
  if Nat.ltb 0 (length allErrors) then ret (NewAggregate allErrors)
  else
    (* merge the renderings: the 3scale entries are written last *)
    modify (setRenderings (threeScaleRenderings ∪ istioRenderings)) ;;
    ret None.

(** [r.Status.ObservedGeneration = r.Instance.GetGeneration()] *)
Definition stampObservedGeneration (r : ControlPlaneReconciler) : ControlPlaneReconciler :=
  setStatus
    (cps_setStatusType (Status r)
       (setObservedGeneration (cps_StatusType (Status r))
          (smcp_Generation (Instance r)))) r.

(** [updateReconcileStatus(&r.Status.StatusType, err)] *)
Definition updateReconcileStatusOfStatus (err : option error)
    (r : ControlPlaneReconciler) : ControlPlaneReconciler :=
  setStatus
    (cps_setStatusType (Status r)
       (updateReconcileStatus E (cps_StatusType (Status r)) err)) r.

(** [r.Instance.Status = *r.Status] *)
Definition publishStatus (r : ControlPlaneReconciler) : ControlPlaneReconciler :=
  setInstance (smcp_setStatus (Instance r) (Status r)) r.

Definition isComponentNotReady (err : option error) : bool :=
  match err with
  | Some e => isComponentNotReadyError e
  | None => false
  end.

Definition handleError (err : option error) : M (Result * option error) :=
  modify stampObservedGeneration ;;
  modify (updateReconcileStatusOfStatus err) ;;
  modify publishStatus ;;
  let* updateErr := callUpdateStatus in
  logIfError updateErr "error updating ServiceMeshControlPlane status" ;;
  if isComponentNotReady err then
    ret ({| Requeue := true; RequeueAfter := 5 * Second |}, None)
  else ret (emptyResult, err).

(** these components have to be installed in the specified order *)
Definition orderedComponents : list string :=
  [ "istio";
    "istio/charts/istio_cni";
    "istio/charts/security";
    "istio/charts/prometheus";
    "istio/charts/tracing";
    "istio/charts/galley";
    "istio/charts/mixer";
    "istio/charts/pilot";
    "istio/charts/gateways";
    "istio/charts/sidecarInjectorWebhook";
    "istio/charts/grafana";
    "istio/charts/kiali" ].

(** Body of the loop over [orderedComponents] (lines 113-120). *)
Definition installOrdered (componentsProcessed : gset string) (componentName : string)
  : M (gset string * option error) :=
  logInfo "=====================================================================" [] ;;
  let componentsProcessed := {[componentName]} ∪ componentsProcessed in
  let* err := processComponentManifests componentName in
  ret (componentsProcessed, err).

(** Body of the loop over the keys of [r.renderings] (lines 123-136). *)
Definition installOther (componentsProcessed : gset string) (key : string)
  : M (gset string * option error) :=
  if negb (HasPrefix key "istio/") then ret (componentsProcessed, None)
  else if bool_decide (key ∈ componentsProcessed) then
    (* already processed this component *)
    ret (componentsProcessed, None)
  else
    let componentsProcessed := {[key]} ∪ componentsProcessed in
    let* err := processComponentManifests key in
    ret (componentsProcessed, err).

Definition callPrune (generation : Z) : M (option error) :=
  let* r := gets id in
  liftWorld (prune E generation (Instance r) (heap r)).

(** Lines 145-166 of [Reconcile]: pruning and the end of a pass in which
    every component was processed without error. *)
Definition finishReconcile : M (Result * option error) :=
  (* delete unseen components *)
  let* generation := gets (fun r => smcp_Generation (Instance r)) in
  let* err := callPrune generation in
  match err with
  | Some _ => handleError err
  | None =>
      modify stampObservedGeneration ;;
      modify (updateReconcileStatusOfStatus err) ;;
      modify publishStatus ;;
      let* updateErr := callUpdateStatus in
      let done :=
        logInfo "reconciliation complete" [] ;;
        ret (emptyResult, err) in
      match updateErr with
      | Some _ =>
          logError err "error updating ServiceMeshControlPlane status" [] ;;
          if isNil err then
            (* XXX: is this the right thing to do? *)
            ret (emptyResult, updateErr)
          else done
      | None => done
      end
  end.

(** Lines 90-143 of [Reconcile]: the walk over the components, followed by
    [finishReconcile]. *)
Definition reconcileComponents : M (Result * option error) :=
  (* initialize common data *)
  let* instance := gets Instance in
  let owner := NewOwnerRef E instance in
  modify (setOwnerRefs [owner]) ;;
  modify (setMeshGeneration (FormatInt (smcp_Generation instance))) ;;
  (* create components *)
  let componentsProcessed : gset string := ∅ in
  let* (componentsProcessed, err) :=
    forUntilError installOrdered orderedComponents componentsProcessed in
  match err with
  | Some _ => handleError err
  | None =>
      (* other components *)
      let* keys := gets (fun r => rangeKeys E (renderings r)) in
      let* (componentsProcessed, err) :=
        forUntilError installOther keys componentsProcessed in
      match err with
      | Some _ => handleError err
      | None =>
          (* install 3scale *)
          let componentsProcessed := {["maistra-threescale"]} ∪ componentsProcessed in
          let* err := processComponentManifests "maistra-threescale" in
          match err with
          | Some _ => handleError err
          | None => finishReconcile
          end
      end
  end.

(** The two blocks [if label, ok := namespace.Labels[key]; !ok || label != value { ... }]
    of [Reconcile] (lines 72-82). *)
Definition ensureLabel (namespace : Namespace) (updateLabels : bool)
    (key value : string) (msg : string) : M (Namespace * bool) :=
  if bool_decide (ns_Labels namespace !! key = Some value) then
    ret (namespace, updateLabels)
  else
    logInfo msg [] ;;
    ret ({| ns_Name := ns_Name namespace;
            ns_Labels := <[key := value]> (ns_Labels namespace) |}, true).

Definition Reconcile : M (Result * option error) :=
  (* prepare to write a new reconciliation status *)
  modify (fun r =>
    let s := smcp_Status (Instance r) in
    setInstance
      (smcp_setStatus (Instance r)
         (cps_setStatusType s (RemoveCondition (cps_StatusType s) ConditionTypeReconciled)))
      r) ;;
  (* ensure ComponentStatus is ready: a nil slice is the empty list already *)
  (* Render the templates *)
  let* err := renderCharts in
  match err with
  | Some _ =>
      (* we can't progress here *)
      modify (fun r =>
        let s := smcp_Status (Instance r) in
        setInstance
          (smcp_setStatus (Instance r)
             (cps_setStatusType s (updateReconcileStatus E (cps_StatusType s) err)))
          r) ;;
      StatusUpdate ;;
      ret (emptyResult, err)
  | None =>
      (* update injection label on namespace *)
      let* instance := gets Instance in
      let namespace := {| ns_Name := smcp_Namespace instance; ns_Labels := ∅ |} in
      let* (namespace, err) := GetNamespace (smcp_Namespace instance) namespace in
      match err with
      | None =>
          let updateLabels := false in
          (* make sure injection is disabled for the control plane *)
          let* (namespace, updateLabels) :=
            ensureLabel namespace updateLabels "maistra.io/ignore-namespace" "ignore"
              "Adding maistra.io/ignore-namespace=ignore label to Request.Namespace" in
          (* make sure the member-of label is specified *)
          let* (namespace, updateLabels) :=
            ensureLabel namespace updateLabels (MemberOfKey E) (ns_Name namespace)
              ("Adding " +:+ MemberOfKey E +:+ " label to Request.Namespace") in
          let* err :=
            if updateLabels then UpdateNamespace namespace else ret err in
          reconcileComponents
      | Some _ => handleError err
      end
  end.

End Reconciler.

Arguments Client {E} _.
Arguments history {E} _.
Arguments Log {E} _.
Arguments logged {E} _.
Arguments heap {E} _.
Arguments Instance {E} _.
Arguments Status {E} _.
Arguments ownerRefs {E} _.
Arguments meshGeneration {E} _.
Arguments renderings {E} _.

(** ** A small cluster to run the reconciler against

    An in-memory stand-in for the API server and the other collaborators,
    in the manner of a fake client: objects are stored under their resource
    key, deletions of selected keys are refused, and the status update can
    be made to fail.  Rendered documents are written
    [apiVersion|kind|namespace|name] and separated by [---]. *)

Module Fake.

Fixpoint splitOnFuel (fuel : nat) (sep s : string) : list string :=
  match fuel with
  | O => [s]
  | S fuel' =>
      match String.index 0 sep s with
      | Some i =>
          String.substring 0 i s
            :: splitOnFuel fuel' sep
                 (String.substring (i + String.length sep)
                    (String.length s - (i + String.length sep)) s)
      | None => [s]
      end
  end.

Definition splitOn (sep s : string) : list string :=
  splitOnFuel (String.length s) sep s.

Definition blankObject : Unstructured :=
  mkUnstructured "" "" "" "" [] ∅ ∅ [] None None None.

Definition stub (apiVersion kind namespace name : string) : Unstructured :=
  mkUnstructured apiVersion kind namespace name [] ∅ ∅ [] None None None.

(** [namespace/name=apiVersion,Kind=kind] *)
Definition newResourceKey (o : Unstructured) : ResourceKey :=
  u_Namespace o +:+ "/" +:+ u_Name o +:+ "=" +:+ u_APIVersion o
    +:+ ",Kind=" +:+ u_Kind o.

(** [strings.SplitN(s, sep, 2)] *)
Definition splitN2 (sep s : string) : list string := splitOnFuel 1 sep s.

Definition toUnstructured (key : ResourceKey) : Unstructured :=
  match splitN2 "=" key with
  | nn :: gvk :: _ =>
      match splitN2 "/" nn, splitN2 ",Kind=" gvk with
      | namespace :: name :: _, apiVersion :: kind :: _ =>
          stub apiVersion kind namespace name
      | _, _ => blankObject
      end
  | _ => blankObject
  end.

Definition keyKind (key : ResourceKey) : string := u_Kind (toUnstructured key).

Definition yamlToJSON (raw : string) : string * option error :=
  if String.prefix ":" raw
  then ("", Some (errorString "yaml: did not find expected key"))
  else (raw, None).

Definition decode (rawJSON : string) : Unstructured * option error :=
  match splitOn "|" rawJSON with
  | [apiVersion; kind; namespace; name] => (stub apiVersion kind namespace name, None)
  | _ => (blankObject, Some (errorString "Object 'Kind' is missing"))
  end.

Record Cluster := {
  objects : list (ResourceKey * Unstructured);
  namespaces : list Namespace;
  refuseDelete : list ResourceKey;
  failStatusUpdate : bool;
  persisted : list ControlPlaneStatus
}.

Definition setObjects (l : list (ResourceKey * Unstructured)) (w : Cluster) : Cluster :=
  {| objects := l; namespaces := namespaces w; refuseDelete := refuseDelete w;
     failStatusUpdate := failStatusUpdate w; persisted := persisted w |}.

Fixpoint lookupObject (l : list (ResourceKey * Unstructured)) (key : ResourceKey)
  : option Unstructured :=
  match l with
  | [] => None
  | (k, o) :: l' => if String.eqb k key then Some o else lookupObject l' key
  end.

Definition removeObject (l : list (ResourceKey * Unstructured)) (key : ResourceKey) :=
  List.filter (fun '(k, _) => negb (String.eqb k key)) l.

Definition notFound : error := StatusError StatusReasonNotFound "not found".

Definition get (key : ObjectKey) (receiver : Unstructured) (w : Cluster)
  : (Unstructured * option error) * Cluster :=
  let k := newResourceKey
             (stub (u_APIVersion receiver) (u_Kind receiver)
                (ok_Namespace key) (ok_Name key)) in
  match lookupObject (objects w) k with
  | Some o => ((o, None), w)
  | None => ((receiver, Some notFound), w)
  end.

Definition create (obj : Unstructured) (w : Cluster) : option error * Cluster :=
  let k := newResourceKey obj in
  match lookupObject (objects w) k with
  | Some _ => (Some (StatusError (StatusReasonOther "AlreadyExists") "already exists"), w)
  | None => (None, setObjects (objects w ++ [(k, obj)]) w)
  end.

Definition delete (obj : Unstructured) (w : Cluster) : option error * Cluster :=
  let k := newResourceKey obj in
  if existsb (String.eqb k) (refuseDelete w) then
    (Some (StatusError (StatusReasonOther "Forbidden") "forbidden"), w)
  else
    match lookupObject (objects w) k with
    | Some _ => (None, setObjects (removeObject (objects w) k) w)
    | None => (Some notFound, w)
    end.

Definition getNamespace (name : string) (receiver : Namespace) (w : Cluster)
  : (Namespace * option error) * Cluster :=
  match List.find (fun n => String.eqb (ns_Name n) name) (namespaces w) with
  | Some n => ((n, None), w)
  | None => ((receiver, Some notFound), w)
  end.

Definition updateNamespace (n : Namespace) (w : Cluster) : option error * Cluster :=
  (None,
   {| objects := objects w;
      namespaces :=
        n :: List.filter (fun n' => negb (String.eqb (ns_Name n') (ns_Name n)))
               (namespaces w);
      refuseDelete := refuseDelete w; failStatusUpdate := failStatusUpdate w;
      persisted := persisted w |}).

Definition updateStatus (i : ServiceMeshControlPlane) (h : list StatusType) (w : Cluster)
  : option error * Cluster :=
  if failStatusUpdate w then
    (Some (StatusError (StatusReasonOther "Conflict") "the object has been modified"), w)
  else
    (None,
     {| objects := objects w; namespaces := namespaces w;
        refuseDelete := refuseDelete w; failStatusUpdate := failStatusUpdate w;
        persisted := persisted w ++ [smcp_Status i] |}).

(** The patch replaces the stored object by the desired one. *)
Definition applyPatch (obj : Unstructured) (w : Cluster) : option error * Cluster :=
  let k := newResourceKey obj in
  (None, setObjects (removeObject (objects w) k ++ [(k, obj)]) w).

(** Condition bookkeeping: a condition replaces the one of its type. *)
Definition SetCondition (s : StatusType) (c : Condition) : StatusType :=
  {| st_Resource := st_Resource s;
     st_ObservedGeneration := st_ObservedGeneration s;
     st_Conditions := st_Conditions (RemoveCondition s (cond_Type c)) ++ [c] |}.

Definition condition (t : ConditionType) (v : ConditionStatus) (reason : string)
  : Condition :=
  {| cond_Type := t; cond_Status := v; cond_Reason := reason; cond_Message := "";
     cond_LastTransitionTime := 0 |}.

Definition reconcileStatus (s : StatusType) (err : option error) : StatusType :=
  let installed := cond_Status (GetCondition s ConditionTypeInstalled) in
  match err with
  | None =>
      if bool_decide (installed = ConditionStatusTrue) then
        SetCondition s
          (condition ConditionTypeReconciled ConditionStatusTrue "ReconcileSuccessful")
      else
        SetCondition
          (SetCondition s
             (condition ConditionTypeInstalled ConditionStatusTrue "InstallSuccessful"))
          (condition ConditionTypeReconciled ConditionStatusTrue "InstallSuccessful")
  | Some _ =>
      if bool_decide (installed = ConditionStatusUnknown) then
        SetCondition
          (SetCondition s
             (condition ConditionTypeInstalled ConditionStatusFalse "InstallError"))
          (condition ConditionTypeReconciled ConditionStatusFalse "InstallError")
      else
        SetCondition s
          (condition ConditionTypeReconciled ConditionStatusFalse "ReconcileError")
  end.

Definition deleteStatus (s : StatusType) (err : option error) : StatusType :=
  match err with
  | None =>
      SetCondition
        (SetCondition s
           (condition ConditionTypeInstalled ConditionStatusFalse "DeletionSuccessful"))
        (condition ConditionTypeReconciled ConditionStatusTrue "DeletionSuccessful")
  | Some _ =>
      SetCondition s
        (condition ConditionTypeReconciled ConditionStatusFalse "DeletionError")
  end.

(** Object content kept in the annotations, a field under its dotted
    path: enough of [unstructured] to run the Kiali patcher. *)
Definition nestedString (o : Unstructured) (fields : list string)
  : string * bool * option error :=
  match u_Annotations o !! joinStrings "." fields with
  | Some s => (s, true, None)
  | None => ("", false, None)
  end.

Definition nestedBool (o : Unstructured) (fields : list string)
  : bool * bool * option error :=
  match u_Annotations o !! joinStrings "." fields with
  | Some s => (String.eqb s "true", true, None)
  | None => (false, false, None)
  end.

Definition setNestedField (o : Unstructured) (value : FieldValue)
    (fields : list string) : Unstructured * option error :=
  (SetAnnotation o (joinStrings "." fields)
     match value with
     | FieldString s => s
     | FieldBool b => if b then "true" else "false"
     end, None).

(** The environment: [charts] is what the renderer returns for the istio
    chart; the 3scale chart renders nothing. *)
Definition env (charts : list (string * list Manifest)) : Env :=
  {| World := Cluster;
     OwnerKey := "maistra.io/owner";
     MeshGenerationKey := "maistra.io/mesh-generation";
     MemberOfKey := "maistra.io/member-of";
     ChartPath := "/etc/istio-operator/helm";
     RenderHelmChart := fun path _ _ =>
       if String.eqb path "/etc/istio-operator/helm/istio"
       then (list_to_map charts, None)
       else (∅, None);
     rangeKeys := fun m => (map_to_list m).*1;
     rangeKeys_keys := fun m => Permutation_refl _;
     SplitManifests := splitOn "---";
     YAMLToJSON := yamlToJSON;
     Decode := decode;
     NewResourceKey := newResourceKey;
     ToUnstructured := toUnstructured;
     KeyKind := keyKind;
     updateReconcileStatus := reconcileStatus;
     updateDeleteStatus := deleteStatus;
     NewOwnerRef := fun i =>
       {| or_APIVersion := "maistra.io/v1"; or_Kind := "ServiceMeshControlPlane";
          or_Name := smcp_Name i; or_UID := "uid" |};
     UpdateStatus := updateStatus;
     clientGet := get;
     clientCreate := create;
     clientDelete := delete;
     clientGetNamespace := getNamespace;
     clientUpdateNamespace := updateNamespace;
     clientStatusUpdate := updateStatus;
     Patch := Unstructured;
     CreatePatch := fun _ obj => (Some obj, None);
     patchApply := applyPatch;
     CreateApplyAnnotation := fun obj => (obj, None);
     NestedString := nestedString;
     NestedBool := nestedBool;
     SetNestedField := setNestedField;
     patchGrafanaConfig := fun obj w => ((obj, None), w);
     patchPrometheusHtpasswd := fun obj w => ((obj, None), w);
     prune := fun _ _ _ w => (None, w) |}.

Definition emptyStatus : ControlPlaneStatus :=
  {| cps_StatusType := NewStatus; cps_ComponentStatus := [] |}.

Definition instance (status : ControlPlaneStatus) : ServiceMeshControlPlane :=
  {| smcp_Namespace := "istio-system"; smcp_Name := "basic-install";
     smcp_Generation := 2;
     smcp_Spec := {| spec_Istio := ∅; spec_ThreeScale := ∅ |};
     smcp_Status := status |}.

(** A reconciler over the cluster [w], for the instance whose last
    persisted status is [status] with the statuses [h] behind its pointers. *)
Definition reconciler (charts : list (string * list Manifest)) (w : Cluster)
    (status : ControlPlaneStatus) (h : list StatusType)
  : ControlPlaneReconciler (env charts) :=
  {| Client := (w : World (env charts)); history := []; Log := [];
     logged := [];
     heap := h; Instance := instance status; Status := emptyStatus;
     ownerRefs := []; meshGeneration := "";
     renderings := list_to_map charts |}.

Definition cluster (objs : list Unstructured) : Cluster :=
  {| objects := map (fun o => (newResourceKey o, o)) objs;
     namespaces := [{| ns_Name := "istio-system"; ns_Labels := ∅ |}];
     refuseDelete := []; failStatusUpdate := false; persisted := [] |}.

End Fake.

(** * Vocabulary of the statements *)

(** The monad's combinators are kept folded by [simpl]. *)
Arguments bind : simpl never.
Arguments ret : simpl never.
Arguments gets : simpl never.
Arguments modify : simpl never.
Arguments foldM : simpl never.
Arguments forUntilError : simpl never.
Arguments liftWorld : simpl never.
Arguments allocStatus : simpl never.
Arguments updateStatusAt : simpl never.
Arguments readStatus : simpl never.
Arguments record : simpl never.
Arguments logWith : simpl never.
Arguments logInfo : simpl never.
Arguments logV2 : simpl never.
Arguments logError : simpl never.
Arguments logIfError : simpl never.

Section FrameVocabulary.

Context {E : Env}.

Local Abbreviation State := (ControlPlaneReconciler E).

(** [frames R m]: running [m] takes every state to an [R]-related one. *)
Definition frames {A} (R : relation State) (m : M E A) : Prop :=
  forall r, R r (snd (m r)).

(** What a relation has to tolerate of the primitive state changes. *)
Class TolClient (R : relation State) : Prop :=
  tol_client : forall r w, R r (setClient E w r).
Class TolHistory (R : relation State) : Prop :=
  tol_history : forall r q, R r (setHistory E (history r ++ [q]) r).
Class TolLogged (R : relation State) : Prop :=
  tol_logged : forall r e, R r (setLogged E (logged r ++ [e]) r).
Class TolLog (R : relation State) : Prop :=
  tol_log : forall r l, R r (setLog E l r).
Class TolHeap (R : relation State) : Prop :=
  tol_heap : forall r h, R r (setHeap E h r).

(** [keeps f]: the observation [f] of the state is unchanged. *)
Definition keeps {A} (f : State -> A) : relation State := fun r r' => f r' = f r.

(** [grows f]: the list [f] of the state is only appended to. *)
Definition grows {A} (f : State -> list A) : relation State :=
  fun r r' => exists new, f r' = f r ++ new.

End FrameVocabulary.

Arguments frames {E A} R m.
Arguments keeps {E A} f _ _.
Arguments grows {E A} f _ _.

(** Induction on cluster objects, through the items of a List. *)
Fixpoint Unstructured_nested_ind (P : Unstructured -> Prop)
    (H : forall a k n m o l an items err rr wh,
        Forall P items -> P (mkUnstructured a k n m o l an items err rr wh))
    (obj : Unstructured) {struct obj} : P obj :=
  match obj with
  | mkUnstructured a k n m o l an items err rr wh =>
      H a k n m o l an items err rr wh
        ((fix all (l : list Unstructured) : Forall P l :=
            match l with
            | [] => @List.Forall_nil Unstructured P
            | x :: l' =>
                @List.Forall_cons Unstructured P x l' (Unstructured_nested_ind P H x) (all l')
            end) items)
  end.

(** Lines 36-43 of [processComponentManifests], for a component that has
    renderings: the prior status handed to [processManifests] and the state
    in which [processManifests] is entered. *)
Definition enterComponent (E : Env) (name : string) (r : ControlPlaneReconciler E)
  : ComponentStatus * ControlPlaneReconciler E :=
  let rA :=
    setLogged E
      (logged r ++
         [{| le_Level := LogInfo; le_Values := WithValues (Log r) "Component" name;
             le_Message := "reconciling component resources"; le_Args := [] |}])
      (setLog E (WithValues (Log r) "Component" name) r) in
  match FindComponentByName (smcp_Status (Instance r)) name with
  | Some i =>
      let rB := removeComponentCondition E i ConditionTypeReconciled rA in
      (componentAt (smcp_Status (Instance rB)) i, rB)
  | None =>
      (cs_setStatusType NewComponentStatus
         (setResource (cs_StatusType NewComponentStatus) name), rA)
  end.

(** [status.ObservedGeneration = r.Instance.GetGeneration()] on a component
    status (line 46). *)
Definition stampComponent (E : Env) (status : ComponentStatus)
    (r : ControlPlaneReconciler E) : ComponentStatus :=
  cs_setStatusType status
    (setObservedGeneration (cs_StatusType status) (smcp_Generation (Instance r))).

(** A status of the prior component status is up for deletion when its key
    was not processed in this pass and its Installed condition is not
    False (lines 102 and 104). *)
Definition prunable (resourcesProcessed : gset ResourceKey) (h : list StatusType)
    (p : ptr) : bool :=
  negb (bool_decide (st_Resource (deref h p) ∈ resourcesProcessed))
  && negb (installedFalse (deref h p)).

(** The error that a recorded deletion adds to [allErrors] (lines 110-119):
    none when the deletion succeeded or the object was not found or gone. *)
Definition deleteFailure (q : Request) : option error :=
  if isNil (snd q) || IsNotFound (snd q) || IsGone (snd q) then None else snd q.

Definition isDeleteCall (q : Request) : Prop :=
  match fst q with
  | CallDelete _ => True
  | _ => False
  end.

(** The new component status as [processManifests] sets it up (lines 61-63). *)
Definition initialStatus (oldStatus : ComponentStatus) : ComponentStatus :=
  let newStatus := cs_setStatusType NewComponentStatus (cs_StatusType oldStatus) in
  cs_setStatusType newStatus
    (setResource (cs_StatusType newStatus) (st_Resource (cs_StatusType oldStatus))).

(** The lookup that [waitForWebhookCABundleInitialization] makes for the
    object [o]: by name only. *)
Definition webhookLookup (o : Unstructured) : Call :=
  CallGet {| ok_Namespace := ""; ok_Name := u_Name o |} o.

(** The record that [processComponentManifests] writes when it starts on a
    component that has renderings. *)
Definition startsComponent (name : string) (entry : LogEntry) : Prop :=
  le_Message entry = "reconciling component resources" /\
  ("Component", name) ∈ le_Values entry.

(** The error, if any, with which a raw document fails to become an
    object (lines 77-89). *)
Definition parseFailure (E : Env) (raw : string) : option error :=
  match YAMLToJSON E raw with
  | (_, Some e) => Some e
  | (rawJSON, None) => snd (Decode E rawJSON)
  end.

(** The state after [r.Log.Error(err, msg)]. *)
Definition afterLogError (E : Env) (err : error) (msg : string)
    (r : ControlPlaneReconciler E) : ControlPlaneReconciler E :=
  setLogged E
    (logged r ++
       [{| le_Level := LogError (Some err); le_Values := Log r;
           le_Message := msg; le_Args := [] |}]) r.

(** The state in which the objects of the manifest [m] are gone through
    (lines 68 and 73). *)
Definition enterManifest (E : Env) (origLogger : Logger) (m : Manifest)
    (r : ControlPlaneReconciler E) : ControlPlaneReconciler E :=
  let r1 := setLog E (WithValues origLogger "manifest" (m_Name m)) r in
  setLogged E
    (logged r1 ++
       [{| le_Level := LogV2; le_Values := Log r1;
           le_Message := "Processing resources from manifest"; le_Args := [] |}]) r1.

(** A loop body that only appends to the errors found so far. *)
Definition appendsErrors {E : Env} {A} (body : Progress -> A -> M E Progress) : Prop :=
  forall rp ns errs x (r : ControlPlaneReconciler E),
    body (rp, ns, errs) x r =
      (let o := body (rp, ns, []) x r in
       ((fst (fst (fst o)), snd (fst (fst o)), errs ++ snd (fst o)), snd o)).

(** The objects that [processObject] reconciles for [obj]: [obj] itself,
    or the items of a List, recursively. *)
Fixpoint leaves (obj : Unstructured) : list Unstructured :=
  match obj with
  | mkUnstructured _ kind _ _ _ _ _ items err _ _ =>
      if String.eqb kind "List" then
        match err with
        | Some _ => []
        | None => flat_map leaves items
        end
      else [obj]
  end.

(** What the reconciler stamps on the object [o] that it reconciles for
    the rendered object [input]: the owner label and the generation
    annotation always, the owner references when, and only when, [input]
    is in the namespace of the control plane. *)
Definition stamped {E : Env} (r : ControlPlaneReconciler E) (input o : Unstructured)
  : Prop :=
  u_Labels o !! OwnerKey E = Some (smcp_Namespace (Instance r)) /\
  u_Annotations o !! MeshGenerationKey E = Some (meshGeneration r) /\
  u_OwnerReferences o =
    (if String.eqb (u_Namespace input) (smcp_Namespace (Instance r))
     then ownerRefs r else u_OwnerReferences input).

(** [o'] has the owner label, the generation annotation and the owner
    references of [o]. *)
Definition keepsStamp (E : Env) (o o' : Unstructured) : Prop :=
  u_Labels o' !! OwnerKey E = u_Labels o !! OwnerKey E /\
  u_Annotations o' !! MeshGenerationKey E = u_Annotations o !! MeshGenerationKey E /\
  u_OwnerReferences o' = u_OwnerReferences o.

(** The writes of the Kiali patcher, under [spec.external_services], the
    other object patchers and [kubectl.CreateApplyAnnotation] leave the
    stamp alone. *)
Definition hooksKeepStamp (E : Env) : Prop :=
  (forall o v service field,
      keepsStamp E o
        (fst (SetNestedField E o v ["spec"; "external_services"; service; field]))) /\
  (forall o w, keepsStamp E o (fst (fst (patchGrafanaConfig E o w)))) /\
  (forall o w, keepsStamp E o (fst (fst (patchPrometheusHtpasswd E o w)))) /\
  (forall o, keepsStamp E o (fst (CreateApplyAnnotation E o))).

(** The object that a recorded call sends to the cluster, if any. *)
Definition sentObject (q : Request) : option Unstructured :=
  match fst q with
  | CallCreate o => Some o
  | CallPatch _ o => Some o
  | _ => None
  end.

(** What [processObject] reads of the reconciler to stamp an object. *)
Definition stampContext {E : Env} (r : ControlPlaneReconciler E)
  : string * list OwnerReference * string :=
  (smcp_Namespace (Instance r), ownerRefs r, meshGeneration r).

(** The answer of [handleError] to a component that is not ready. *)
Definition requeueSoon : Result := {| Requeue := true; RequeueAfter := 5 * Second |}.

(** * Scenarios

    Concrete runs against the small cluster of [Fake]. *)

Module Scenario.

Import Fake.

Definition installedStatus (key : ResourceKey) : StatusType :=
  reconcileStatus (setObservedGeneration (setResource NewStatus key) 1) None.

Definition componentStatus (name : string) (resources : list ptr) : ComponentStatus :=
  {| cs_StatusType := reconcileStatus (setResource NewStatus name) None;
     cs_Resources := resources |}.

Definition withFailingStatusUpdate (w : Cluster) : Cluster :=
  {| objects := objects w; namespaces := namespaces w;
     refuseDelete := refuseDelete w; failStatusUpdate := true;
     persisted := persisted w |}.

Definition withRefusedDelete (keys : list ResourceKey) (w : Cluster) : Cluster :=
  {| objects := objects w; namespaces := namespaces w;
     refuseDelete := keys; failStatusUpdate := failStatusUpdate w;
     persisted := persisted w |}.

Definition conflict : error :=
  StatusError (StatusReasonOther "Conflict") "the object has been modified".

(** Nothing is rendered, nothing is installed, and the status update is
    refused. *)
Definition idleWithFailingStatusUpdate : ControlPlaneReconciler (env []) :=
  reconciler [] (withFailingStatusUpdate (cluster [])) emptyStatus [].

(** A Deployment of the galley component that reports no ready replica. *)
Definition galleyDeployment : Unstructured :=
  mkUnstructured "apps/v1" "Deployment" "istio-system" "istio-galley" [] ∅ ∅ []
    None (Some 0%Z) None.

(** The galley chart renders its Deployment; the cluster is empty, so the
    Deployment is created and has no ready replica yet. *)
Definition galleyCharts : list (string * list Manifest) :=
  [("istio/charts/galley",
    [{| m_Name := "templates/deployment.yaml";
        m_Content := "apps/v1|Deployment|istio-system|istio-galley" |}])].

Definition galleyInstall : ControlPlaneReconciler (env galleyCharts) :=
  reconciler galleyCharts (cluster []) emptyStatus [].

(** The security chart renders a ConfigMap and a document that is not
    YAML; galley would come later in the fixed order. *)
Definition brokenSecurityCharts : list (string * list Manifest) :=
  [("istio/charts/security",
    [{| m_Name := "templates/configmap.yaml";
        m_Content := "v1|ConfigMap|istio-system|istio-security---: not yaml" |}]);
   ("istio/charts/galley",
    [{| m_Name := "templates/deployment.yaml";
        m_Content := "apps/v1|Deployment|istio-system|istio-galley" |}])].

Definition brokenSecurityInstall : ControlPlaneReconciler (env brokenSecurityCharts) :=
  reconciler brokenSecurityCharts (cluster []) emptyStatus [].

(** The tracing component was installed by an earlier pass: its ConfigMap
    is in the cluster and recorded, Installed, in the prior status. *)
Definition jaegerConfigMap : Unstructured := stub "v1" "ConfigMap" "istio-system" "jaeger".

Definition jaegerKey : ResourceKey := "istio-system/jaeger=v1,Kind=ConfigMap".

Definition tracingHeap : list StatusType := [installedStatus jaegerKey].

Definition tracingStatus : ComponentStatus := componentStatus "istio/charts/tracing" [0].

Definition tracingInstalled : ControlPlaneStatus :=
  {| cps_StatusType := reconcileStatus NewStatus None;
     cps_ComponentStatus := [tracingStatus] |}.

(** This pass the tracing chart renders a Service only. *)
Definition tracingServiceManifests : list Manifest :=
  [{| m_Name := "templates/service.yaml";
      m_Content := "v1|Service|istio-system|jaeger-query" |}].

Definition tracingServiceCharts : list (string * list Manifest) :=
  [("istio/charts/tracing", tracingServiceManifests)].

Definition tracingReinstall : ControlPlaneReconciler (env tracingServiceCharts) :=
  reconciler tracingServiceCharts (cluster [jaegerConfigMap]) tracingInstalled
    tracingHeap.

(** This pass nothing is rendered at all: tracing has no entry in the
    renderings. *)
Definition tracingDropped : ControlPlaneReconciler (env []) :=
  reconciler [] (cluster [jaegerConfigMap]) tracingInstalled tracingHeap.

(** This pass tracing has an entry in the renderings, without manifests. *)
Definition tracingEmptyCharts : list (string * list Manifest) :=
  [("istio/charts/tracing", [])].

Definition tracingEmptied : ControlPlaneReconciler (env tracingEmptyCharts) :=
  reconciler tracingEmptyCharts (cluster [jaegerConfigMap]) tracingInstalled
    tracingHeap.

(** Galley is installed: its Deployment, without ready replica yet, and its
    ValidatingWebhookConfiguration, whose webhook has no CA bundle yet, are
    in the cluster and recorded as installed. *)
Definition galleyWebhook : Unstructured :=
  mkUnstructured "admissionregistration.k8s.io/v1beta1" "ValidatingWebhookConfiguration"
    "" "istio-galley" [] ∅ ∅ [] None None (Some [None]).

Definition galleyDeploymentKey : ResourceKey :=
  "istio-system/istio-galley=apps/v1,Kind=Deployment".

Definition galleyWebhookKey : ResourceKey :=
  "/istio-galley=admissionregistration.k8s.io/v1beta1,Kind=ValidatingWebhookConfiguration".

Definition galleyStatus : ComponentStatus := componentStatus "istio/charts/galley" [0; 1].

Definition galleyWaiting : ControlPlaneReconciler (env galleyCharts) :=
  reconciler galleyCharts (cluster [galleyDeployment; galleyWebhook]) emptyStatus
    [installedStatus galleyWebhookKey; installedStatus galleyDeploymentKey].

(** Besides galley, a component is rendered whose name does not start
    with [istio/]. *)
Definition addonManifests : list Manifest :=
  [{| m_Name := "templates/configmap.yaml";
      m_Content := "v1|ConfigMap|istio-system|addon-config" |}].

Definition addonCharts : list (string * list Manifest) :=
  [("addons/dashboard", addonManifests)].

Definition addonInstall : ControlPlaneReconciler (env addonCharts) :=
  reconciler addonCharts (cluster []) emptyStatus [].

(** Two components outside the fixed order are rendered. *)
Definition extraCharts : list (string * list Manifest) :=
  [("istio/charts/certmanager",
    [{| m_Name := "templates/configmap.yaml";
        m_Content := "v1|ConfigMap|istio-system|certmanager" |}]);
   ("istio/charts/nodeagent",
    [{| m_Name := "templates/configmap.yaml";
        m_Content := "v1|ConfigMap|istio-system|nodeagent" |}])].

Definition extraInstall : ControlPlaneReconciler (env extraCharts) :=
  reconciler extraCharts (cluster []) emptyStatus [].

(** The security chart renders a ConfigMap, a document that is not YAML,
    and a Service of another namespace. *)
Definition mixedManifest : Manifest :=
  {| m_Name := "templates/security.yaml";
     m_Content :=
       "v1|ConfigMap|istio-system|istio-security---: not yaml---v1|Service|kube-system|istio-citadel" |}.

Definition mixedCharts : list (string * list Manifest) :=
  [("istio/charts/security", [mixedManifest])].

Definition mixedInstall : ControlPlaneReconciler (env mixedCharts) :=
  setOwnerRefs (env mixedCharts)
    [NewOwnerRef (env mixedCharts) (instance emptyStatus)]
    (setMeshGeneration (env mixedCharts) "2"
       (reconciler mixedCharts (cluster []) emptyStatus [])).

Definition yamlError : error := errorString "yaml: did not find expected key".

End Scenario.

(** * Vocabulary of the further properties *)

(** The lookup that [processObject] makes for the object [obj]: of the
    receiver that its resource key decodes to (lines 191-203). *)
Definition objectLookup (E : Env) (obj : Unstructured) : Call :=
  let receiver := ToUnstructured E (NewResourceKey E obj) in
  CallGet {| ok_Namespace := u_Namespace receiver; ok_Name := u_Name receiver |} receiver.

(** What one object that is not a List may ask of the cluster (lines
    203-223), with the error that [processObject] returns for it: nothing
    when preprocessing failed; the lookup alone when it failed with
    something else than not-found, or found the object and no patch is
    due; the lookup and a [Create] when the object was not found; the
    lookup and a patch when it was found. *)
Definition objectProtocol (E : Env) (obj : Unstructured) (new : list Request)
    (err : option error) : Prop :=
  match new with
  | [] => err <> None
  | [(c, gerr)] =>
      c = objectLookup E obj /\ IsNotFound gerr = false /\ (gerr <> None -> err = gerr)
  | [(c, gerr); (CallCreate _, werr)] =>
      c = objectLookup E obj /\ IsNotFound gerr = true /\ err = werr
  | [(c, gerr); (CallPatch _ _, werr)] =>
      c = objectLookup E obj /\ gerr = None /\ err = werr
  | _ => False
  end.

(** What [processObject] does to the status of an object before it renews
    its conditions with the outcome (lines 209 and 221): a creation that
    succeeded sets the observed generation to 1, a patch removes the
    Reconciled condition; [new] holds the calls made for the object. *)
Definition prepared (st : StatusType) (new : list Request) : StatusType :=
  match new with
  | [_; (CallCreate _, None)] => setObservedGeneration st 1
  | [_; (CallPatch _ _, _)] => RemoveCondition st ConditionTypeReconciled
  | _ => st
  end.

(** The calls through which objects are reconciled: lookups, creations and
    patches. *)
Definition isApplyCall (q : Request) : Prop :=
  match fst q with
  | CallGet _ _ | CallCreate _ | CallPatch _ _ => True
  | _ => False
  end.

(** The objects that a raw document stands for (lines 77-90): none when it
    does not parse or decode, else the object, or the items of the List,
    that it decodes to. *)
Definition decoded (E : Env) (raw : string) : list Unstructured :=
  match YAMLToJSON E raw with
  | (_, Some _) => []
  | (rawJSON, None) =>
      match Decode E rawJSON with
      | (_, Some _) => []
      | (obj, None) => leaves obj
      end
  end.

(** The objects that [processManifests] reconciles for the manifests
    [ms], in its order: those of the documents of the manifests named
    [*.yaml]. *)
Definition renderedObjects (E : Env) (ms : list Manifest) : list Unstructured :=
  flat_map (fun m =>
              if HasSuffix (m_Name m) ".yaml"
              then flat_map (decoded E) (SplitManifests E (m_Content m))
              else []) ms.

(** The traces of a stretch of the pass over the rendered objects that
    reconciles the objects [objs]: their keys are marked as processed, one
    status per object is appended to the new component status, whose own
    conditions are left alone, and the cluster is asked for lookups,
    creations and patches only. *)
Definition tracks {E : Env} (objs : list Unstructured)
    (before after : Progress * ControlPlaneReconciler E) : Prop :=
  fst (fst (fst after))
  = list_to_set (map (NewResourceKey E) objs) ∪ fst (fst (fst before)) /\
  cs_StatusType (snd (fst (fst after))) = cs_StatusType (snd (fst (fst before))) /\
  (exists added,
      cs_Resources (snd (fst (fst after)))
      = cs_Resources (snd (fst (fst before))) ++ added /\
      length added = length objs) /\
  (exists new,
      history (snd after) = history (snd before) ++ new /\ Forall isApplyCall new).

(** The lookup that [waitForDeployment] makes for the object [o]: by
    namespace and name. *)
Definition deploymentLookup (o : Unstructured) : Call :=
  CallGet {| ok_Namespace := u_Namespace o; ok_Name := u_Name o |} o.

(** The kinds that [waitForDeployments] goes through, in its order. *)
Definition workloadKinds : list string := ["StatefulSet"; "Deployment"; "DeploymentConfig"].

(** Every webhook of the list has a CA bundle that is not empty. *)
Definition bundlesSet (webhooks : list (option string)) : Prop :=
  Forall (fun webhook => exists caBundle, webhook = Some caBundle /\ caBundle <> "") webhooks.

(** The state in which [Reconcile] renders the charts: the Reconciled
    condition of the instance's status is removed (line 41). *)
Definition startPass (E : Env) (r : ControlPlaneReconciler E) : ControlPlaneReconciler E :=
  let s := smcp_Status (Instance r) in
  setInstance E
    (smcp_setStatus (Instance r)
       (cps_setStatusType s (RemoveCondition (cps_StatusType s) ConditionTypeReconciled)))
    r.

(** What [renderCharts] asks of the chart renderer for the instance [i]
    (lines 195-207): the charts of istio, and those of 3scale when the
    instance enables it. *)
Definition istioCharts (E : Env) (i : ServiceMeshControlPlane)
  : gmap string (list Manifest) * option error :=
  RenderHelmChart E (pathJoin (ChartPath E) "istio") (smcp_Namespace i)
    (spec_Istio (smcp_Spec i)).

Definition threeScaleCharts (E : Env) (i : ServiceMeshControlPlane)
  : gmap string (list Manifest) * option error :=
  if isEnabled (spec_ThreeScale (smcp_Spec i))
  then RenderHelmChart E (pathJoin (ChartPath E) "maistra-threescale") (smcp_Namespace i)
         (spec_ThreeScale (smcp_Spec i))
  else (∅, None).

(** The namespace carries the two labels that [Reconcile] wants on it
    (lines 72 and 78). *)
Definition labelled (E : Env) (ns : Namespace) : Prop :=
  ns_Labels ns !! "maistra.io/ignore-namespace" = Some "ignore" /\
  ns_Labels ns !! MemberOfKey E = Some (ns_Name ns).

(** The namespace with the two labels set. *)
Definition withLabels (E : Env) (ns : Namespace) : Namespace :=
  {| ns_Name := ns_Name ns;
     ns_Labels :=
       <[MemberOfKey E := ns_Name ns]>
         (<["maistra.io/ignore-namespace" := "ignore"]> (ns_Labels ns)) |}.

(** The receiver that [Reconcile] hands to the lookup of the namespace
    (line 64). *)
Definition namespaceReceiver (name : string) : Namespace :=
  {| ns_Name := name; ns_Labels := ∅ |}.

(** The lookup that the Kiali patcher makes for the route [routeName] of
    the namespace of [object]. *)
Definition routeLookup (object : Unstructured) (routeName : string) : Call :=
  CallGet {| ok_Namespace := u_Namespace object; ok_Name := routeName |}
    routeReceiver.

(** The calls of the Kiali patcher for [object]: at most one lookup of the
    route jaeger, then at most one of the route grafana. *)
Definition kialiLookups (object : Unstructured) (routes : list Request) : Prop :=
  exists jaeger grafana,
    routes = jaeger ++ grafana /\
    (jaeger = [] \/ exists err, jaeger = [(routeLookup object "jaeger", err)]) /\
    (grafana = [] \/ exists err, grafana = [(routeLookup object "grafana", err)]).

(** What a pass reads, once it has started on the components, to stamp
    the objects and to find the manifests of a component. *)
Definition passContext {E : Env} (r : ControlPlaneReconciler E)
  : (string * list OwnerReference * string) * gmap string (list Manifest) :=
  (stampContext r, renderings r).

(** The objects that the renderings of [r] hold. *)
Definition renderedIn {E : Env} (r : ControlPlaneReconciler E) (input : Unstructured)
  : Prop :=
  exists name ms, renderings r !! name = Some ms /\ input ∈ renderedObjects E ms.

(** A stretch of a pass that was started in the state [r0], as far as the
    stamp goes: what the pass reads is still what it was in [r0], and
    every object sent to the cluster in the stretch is the stamped form,
    for [r0], of one of the objects [from]. *)
Definition stampedRun {E : Env} (r0 : ControlPlaneReconciler E)
    (from : Unstructured -> Prop) : relation (ControlPlaneReconciler E) :=
  fun r r' =>
    passContext r = passContext r0 ->
    passContext r' = passContext r0 /\
    exists new,
      history r' = history r ++ new /\
      forall q sent,
        q ∈ new -> sentObject q = Some sent ->
        exists input, from input /\ stamped r0 input sent.

Module Example.

Import Fake Scenario.

Definition securityConfigMap : Unstructured :=
  stub "v1" "ConfigMap" "istio-system" "istio-security".

Definition citadelService : Unstructured :=
  stub "v1" "Service" "kube-system" "istio-citadel".

(** A List of an object of the control plane's namespace and one of
    another namespace. *)
Definition mixedList : Unstructured :=
  mkUnstructured "v1" "List" "" "" [] ∅ ∅ [securityConfigMap; citadelService]
    None None None.

(** A List whose items cannot be listed. *)
Definition brokenList : Unstructured :=
  mkUnstructured "v1" "List" "" "" [] ∅ ∅ []
    (Some (errorString "items field is not a slice")) None None.

Definition chartNotFound : error := errorString "chart not found".

(** The environment of [Fake] with a chart renderer that fails. *)
Definition brokenRenderer : Env :=
  let E := Fake.env [] in
  {| World := World E;
     OwnerKey := OwnerKey E;
     MeshGenerationKey := MeshGenerationKey E;
     MemberOfKey := MemberOfKey E;
     ChartPath := ChartPath E;
     RenderHelmChart := fun _ _ _ => (∅, Some chartNotFound);
     rangeKeys := rangeKeys E;
     rangeKeys_keys := rangeKeys_keys E;
     SplitManifests := SplitManifests E;
     YAMLToJSON := YAMLToJSON E;
     Decode := Decode E;
     NewResourceKey := NewResourceKey E;
     ToUnstructured := ToUnstructured E;
     KeyKind := KeyKind E;
     updateReconcileStatus := updateReconcileStatus E;
     updateDeleteStatus := updateDeleteStatus E;
     NewOwnerRef := NewOwnerRef E;
     UpdateStatus := UpdateStatus E;
     clientGet := clientGet E;
     clientCreate := clientCreate E;
     clientDelete := clientDelete E;
     clientGetNamespace := clientGetNamespace E;
     clientUpdateNamespace := clientUpdateNamespace E;
     clientStatusUpdate := clientStatusUpdate E;
     Patch := Patch E;
     CreatePatch := CreatePatch E;
     patchApply := patchApply E;
     CreateApplyAnnotation := CreateApplyAnnotation E;
     NestedString := NestedString E;
     NestedBool := NestedBool E;
     SetNestedField := SetNestedField E;
     patchGrafanaConfig := patchGrafanaConfig E;
     patchPrometheusHtpasswd := patchPrometheusHtpasswd E;
     prune := prune E |}.

(** A reconciler whose charts cannot be rendered. *)
Definition unrendered : ControlPlaneReconciler brokenRenderer :=
  {| Client := (cluster [] : World brokenRenderer); history := []; Log := [];
     logged := []; heap := []; Instance := instance emptyStatus;
     Status := emptyStatus; ownerRefs := []; meshGeneration := "";
     renderings := ∅ |}.

(** A cluster in which the namespace of the control plane does not exist. *)
Definition withoutNamespace : Cluster :=
  {| objects := []; namespaces := []; refuseDelete := [];
     failStatusUpdate := false; persisted := [] |}.

Definition homeless : ControlPlaneReconciler (env []) :=
  reconciler [] withoutNamespace emptyStatus [].

(** Nothing is rendered; the namespace exists and carries no label. *)
Definition idle : ControlPlaneReconciler (env []) :=
  reconciler [] (cluster []) emptyStatus [].


End Example.
(** * Properties *)

Section Frames.

Context {E : Env}.

Local Abbreviation State := (ControlPlaneReconciler E).

#[global] Instance keeps_preorder {A} (f : State -> A) : PreOrder (keeps f).
Proof.
  split; unfold keeps.
  - intros r. reflexivity.
  - intros a b c H1 H2. congruence.
Qed.

#[global] Instance grows_preorder {A} (f : State -> list A) : PreOrder (grows f).
Proof.
  split; unfold grows.
  - intros r. exists []. by rewrite app_nil_r.
  - intros a b c [n1 H1] [n2 H2]. exists (n1 ++ n2). by rewrite H2, H1, app_assoc.
Qed.

Section Combinators.

Context {R : relation State} `{!PreOrder R}.

Lemma frames_ret {A} (a : A) : frames R (ret E a).
Proof. intros r. simpl. reflexivity. Qed.

Lemma frames_bind {A B} (m : M E A) (k : A -> M E B) :
  frames R m -> (forall a, frames R (k a)) -> frames R (bind E m k).
Proof.
  intros Hm Hk r. unfold bind. specialize (Hm r).
  destruct (m r) as [a r1]. simpl in Hm.
  etransitivity; [exact Hm | apply Hk].
Qed.

Lemma frames_gets {A} (f : State -> A) : frames R (gets E f).
Proof. intros r. simpl. reflexivity. Qed.

Lemma frames_modify (f : State -> State) :
  (forall r, R r (f r)) -> frames R (modify E f).
Proof. intros H r. apply H. Qed.

Lemma frames_foldM {A S} (body : S -> A -> M E S) l :
  (forall acc x, frames R (body acc x)) -> forall acc, frames R (foldM E body l acc).
Proof.
  intros Hb. induction l as [|x l IH]; intros acc.
  - apply frames_ret.
  - apply (frames_bind (body acc x)); [apply Hb | intros; apply IH].
Qed.

Lemma frames_forUntilError {A S} (body : S -> A -> M E (S * option error)) l :
  (forall acc x, frames R (body acc x)) ->
  forall acc, frames R (forUntilError E body l acc).
Proof.
  intros Hb. induction l as [|x l IH]; intros acc.
  - apply frames_ret.
  - apply (frames_bind (body acc x)); [apply Hb |].
    intros [acc' [e|]]; [apply frames_ret | apply IH].
Qed.

Lemma frames_liftWorld `{!TolClient R} {A} (f : World E -> A * World E) :
  frames R (liftWorld E f).
Proof. intros r. unfold liftWorld. destruct (f (Client r)). apply tol_client. Qed.

Lemma frames_record `{!TolHistory R} c err : frames R (record E c err).
Proof. intros r. apply tol_history. Qed.

Lemma frames_logWith `{!TolLogged R} lvl msg args : frames R (logWith E lvl msg args).
Proof. intros r. apply tol_logged. Qed.

Lemma frames_setLog `{!TolLog R} l : frames R (modify E (setLog E l)).
Proof. intros r. apply tol_log. Qed.

Lemma frames_allocStatus `{!TolHeap R} s : frames R (allocStatus E s).
Proof. intros r. apply tol_heap. Qed.

Lemma frames_updateStatusAt `{!TolHeap R} p f : frames R (updateStatusAt E p f).
Proof. intros r. apply tol_heap. Qed.

End Combinators.

End Frames.

#[global] Hint Extern 1 (TolClient (keeps _)) =>
  (intros ? ?; reflexivity) : typeclass_instances.
#[global] Hint Extern 1 (TolHistory (keeps _)) =>
  (intros ? ?; reflexivity) : typeclass_instances.
#[global] Hint Extern 1 (TolLogged (keeps _)) =>
  (intros ? ?; reflexivity) : typeclass_instances.
#[global] Hint Extern 1 (TolLog (keeps _)) =>
  (intros ? ?; reflexivity) : typeclass_instances.
#[global] Hint Extern 1 (TolHeap (keeps _)) =>
  (intros ? ?; reflexivity) : typeclass_instances.

Ltac grows_leaf :=
  intros ? ?; unfold grows; simpl;
  first [ eexists; reflexivity | exists []; by rewrite app_nil_r ].

#[global] Hint Extern 1 (TolClient (grows _)) => grows_leaf : typeclass_instances.
#[global] Hint Extern 1 (TolHistory (grows _)) => grows_leaf : typeclass_instances.
#[global] Hint Extern 1 (TolLogged (grows _)) => grows_leaf : typeclass_instances.
#[global] Hint Extern 1 (TolLog (grows _)) => grows_leaf : typeclass_instances.
#[global] Hint Extern 1 (TolHeap (grows _)) => grows_leaf : typeclass_instances.

(** Projections of updated states. *)
Ltac state_simpl :=
  cbn [Client history Log logged heap Instance Status ownerRefs meshGeneration
       renderings setClient setHistory setLog setLogged setHeap setInstance
       setStatus setOwnerRefs setMeshGeneration setRenderings fst snd negb andb]
    in *.

Create HintDb frames.

(** One step of a frame argument along the syntax of a monadic program. *)
Ltac frames_step :=
  lazymatch goal with
  | |- frames ?R (ret _ _) => apply (frames_ret (R:=R))
  | |- frames ?R (bind _ _ _) => apply (frames_bind (R:=R)); [ | intros ? ]
  | |- frames ?R (gets _ _) => apply (frames_gets (R:=R))
  | |- frames ?R (modify _ (setLog _ _)) => apply (frames_setLog (R:=R))
  | |- frames ?R (liftWorld _ _) => apply (frames_liftWorld (R:=R))
  | |- frames ?R (record _ _ _) => apply (frames_record (R:=R))
  | |- frames ?R (logWith _ _ _ _) => apply (frames_logWith (R:=R))
  | |- frames ?R (logInfo _ _ _) => apply (frames_logWith (R:=R))
  | |- frames ?R (logV2 _ _ _) => apply (frames_logWith (R:=R))
  | |- frames ?R (logError _ _ _ _) => apply (frames_logWith (R:=R))
  | |- frames ?R (allocStatus _ _) => apply (frames_allocStatus (R:=R))
  | |- frames ?R (updateStatusAt _ _ _) => apply (frames_updateStatusAt (R:=R))
  | |- frames ?R (readStatus _ _) => apply (frames_gets (R:=R))
  | |- frames ?R (foldM _ _ _ _) => apply (frames_foldM (R:=R)); intros ? ?
  | |- frames ?R (forUntilError _ _ _ _) =>
      apply (frames_forUntilError (R:=R)); intros ? ?
  | |- frames ?R (modify _ _) =>
      apply (frames_modify (R:=R)); intros ?;
      solve [ reflexivity | exists []; by rewrite app_nil_r ]
  | |- frames _ (match ?x with _ => _ end) => destruct x
  | |- frames _ ((match ?x with _ => _ end) _) => destruct x
  end.

Ltac frames_tac :=
  repeat (cbv beta; first [ frames_step | solve [ eauto with frames ] ]).

Lemma frames_foldM_Forall {E A S} (R : relation (ControlPlaneReconciler E))
    `{!PreOrder R} (body : S -> A -> M E S) (l : list A) :
  Forall (fun x => forall acc, frames R (body acc x)) l ->
  forall acc, frames R (foldM E body l acc).
Proof.
  induction 1 as [|x l Hx _ IH]; intros acc.
  - apply (frames_ret (R:=R)).
  - apply (frames_bind (R:=R) (body acc x)); [apply Hx | intros; apply IH].
Qed.

Section HookFrames.

Context {E : Env} {R : relation (ControlPlaneReconciler E)}.
Context `{!PreOrder R, !TolClient R, !TolHistory R, !TolLogged R}.

Lemma frames_Get key receiver : frames R (Get E key receiver).
Proof. unfold Get. frames_tac. Qed.

Lemma frames_Create obj : frames R (Create E obj).
Proof. unfold Create. frames_tac. Qed.

Lemma frames_Delete obj : frames R (Delete E obj).
Proof. unfold Delete. frames_tac. Qed.

Lemma frames_Apply patch receiver obj : frames R (Apply E patch receiver obj).
Proof. unfold Apply. frames_tac. Qed.

Lemma frames_callUpdateStatus : frames R (callUpdateStatus E).
Proof. unfold callUpdateStatus. frames_tac. Qed.

Lemma frames_logIfError err msg : frames R (logIfError E err msg).
Proof. unfold logIfError. frames_tac. Qed.

Lemma frames_waitForDeployment object : frames R (waitForDeployment E object).
Proof. unfold waitForDeployment. pose proof frames_Get. frames_tac. Qed.

Lemma frames_waitForWebhookCABundleInitialization object :
  frames R (waitForWebhookCABundleInitialization E object).
Proof.
  unfold waitForWebhookCABundleInitialization. pose proof frames_Get. frames_tac.
Qed.

Lemma frames_forInstalled statuses wait :
  (forall o, frames R (wait o)) -> frames R (forInstalled E statuses wait).
Proof. intros Hw. unfold forInstalled. frames_tac. Qed.

Lemma frames_waitForDeployments status : frames R (waitForDeployments E status).
Proof.
  unfold waitForDeployments.
  pose proof (fun l => frames_forInstalled l _ frames_waitForDeployment).
  frames_tac.
Qed.

Lemma frames_postProcessNewComponent name status :
  frames R (postProcessNewComponent E name status).
Proof.
  unfold postProcessNewComponent.
  pose proof (fun l => frames_forInstalled l _ frames_waitForWebhookCABundleInitialization).
  pose proof frames_waitForDeployments.
  frames_tac.
Qed.

Lemma frames_autoDetect routeName object url enabled :
  frames R (autoDetect E routeName object url enabled).
Proof.
  unfold autoDetect. pose proof frames_Get.
  repeat (cbv beta;
    first [ frames_step
          | solve [ eauto with frames ]
          | match goal with
            | |- frames _ (let '(_, _) := ?x in _) => destruct x
            end ]).
Qed.

Lemma frames_patchKialiConfig object : frames R (patchKialiConfig E object).
Proof.
  unfold patchKialiConfig, kialiSettings. pose proof frames_autoDetect. frames_tac.
Qed.

Lemma frames_preprocessObject object : frames R (preprocessObject E object).
Proof. unfold preprocessObject. pose proof frames_patchKialiConfig. frames_tac. Qed.

Context `{!TolLog R, !TolHeap R}.

Lemma frames_processObject obj :
  forall resourcesProcessed oldStatus newStatus,
    frames R (processObject E obj resourcesProcessed oldStatus newStatus).
Proof.
  induction obj as [a k n m o l an items err rr wh IH] using Unstructured_nested_ind.
  intros resourcesProcessed oldStatus newStatus. simpl.
  pose proof frames_Get. pose proof frames_Create. pose proof frames_Apply.
  pose proof frames_logIfError. pose proof frames_preprocessObject.
  unfold processNewObject.
  repeat (cbv beta;
    first
      [ match goal with
        | |- frames _ (foldM _ _ items _) =>
            apply (frames_foldM_Forall R);
            eapply Forall_impl; [exact IH |];
            intros ? ? [[? ?] ?]; simpl
        end
      | frames_step
      | solve [ eauto with frames ] ]).
Qed.

Lemma frames_processRaw oldStatus acc raw : frames R (processRaw E oldStatus acc raw).
Proof.
  unfold processRaw. pose proof frames_processObject.
  destruct acc as [[rp ns] errs]. frames_tac.
Qed.

Lemma frames_processManifest origLogger oldStatus acc manifest :
  frames R (processManifest E origLogger oldStatus acc manifest).
Proof. unfold processManifest. pose proof frames_processRaw. frames_tac. Qed.

Lemma frames_deleteUnprocessed origLogger resourcesProcessed acc status :
  frames R (deleteUnprocessed E origLogger resourcesProcessed acc status).
Proof.
  unfold deleteUnprocessed, processDeletedObject.
  pose proof frames_Delete. pose proof frames_logIfError.
  destruct acc as [ns errs]. frames_tac.
Qed.

Lemma frames_processManifests manifests oldStatus :
  frames R (processManifests E manifests oldStatus).
Proof.
  unfold processManifests.
  pose proof frames_processManifest. pose proof frames_deleteUnprocessed.
  frames_tac.
Qed.

End HookFrames.

(** ** Error classification at the end of a pass *)

Section Classification.

Context {E : Env}.

Local Abbreviation State := (ControlPlaneReconciler E).

Ltac run_handleError :=
  unfold handleError, callUpdateStatus, logIfError, logError, logWith, record,
    liftWorld, gets, modify, bind, ret; simpl.

Lemma handleError_result (err : option error) (r : State) :
  fst (handleError E err r) =
    if isComponentNotReady err then (requeueSoon, None) else (emptyResult, err).
Proof.
  run_handleError.
  destruct (UpdateStatus E _ _ _) as [[updateErr|] w]; simpl;
    destruct (isComponentNotReady err); reflexivity.
Qed.

(** The status that [handleError] writes and hands to [UpdateStatus]. *)
Lemma handleError_persists (err : option error) (r : State) :
  let r' := snd (handleError E err r) in
  exists updateErr,
    history r' = history r ++ [(CallUpdateStatus (Instance r'), updateErr)] /\
    smcp_Status (Instance r') = Status r' /\
    cps_ComponentStatus (Status r') = cps_ComponentStatus (Status r).
Proof.
  run_handleError.
  destruct (UpdateStatus E _ _ _) as [[updateErr|] w]; simpl;
    destruct (isComponentNotReady err); simpl; eexists; eauto.
Qed.

Lemma waitForDeployment_not_ready (object obj' : Unstructured) (r : State) w' :
  clientGet E {| ok_Namespace := u_Namespace object; ok_Name := u_Name object |}
    object (Client r) = ((obj', None), w') ->
  (default 0 (u_readyReplicas obj') <= 0)%Z ->
  fst (waitForDeployment E object r)
  = Some (ComponentNotReadyError "no replica is ready").
Proof.
  intros Hget Hready.
  unfold waitForDeployment, Get, logInfo, logWith, record, liftWorld, modify, bind, ret.
  simpl. rewrite Hget. simpl.
  destruct (0 <? default 0 (u_readyReplicas obj'))%Z eqn:Hlt; [|reflexivity].
  apply Z.ltb_lt in Hlt. lia.
Qed.

(** C5.  [handleError] answers with a 5-second requeue and a nil error
    exactly when the error is a [ComponentNotReadyError]; every other error
    is returned as it is, with the empty result, and in both cases the
    status has been handed to [UpdateStatus] before.  A Deployment whose
    fetched state reports no ready replica makes [waitForDeployment] return
    that error. *)
Theorem handleError_requeues_exactly_not_ready :
  (forall (e : error) (r : State),
      let res := fst (handleError E (Some e) r) in
      let r' := snd (handleError E (Some e) r) in
      (res = (requeueSoon, None) <-> isComponentNotReadyError e = true) /\
      (isComponentNotReadyError e = false -> res = (emptyResult, Some e)) /\
      (exists updateErr,
          history r' = history r ++ [(CallUpdateStatus (Instance r'), updateErr)] /\
          smcp_Status (Instance r') = Status r')) /\
  (forall (object obj' : Unstructured) (r : State) w',
      clientGet E {| ok_Namespace := u_Namespace object; ok_Name := u_Name object |}
        object (Client r) = ((obj', None), w') ->
      (default 0 (u_readyReplicas obj') <= 0)%Z ->
      exists e,
        fst (waitForDeployment E object r) = Some e /\
        forall r0, fst (handleError E (Some e) r0) = (requeueSoon, None)).
Proof.
  split.
  - intros e r res r'. subst res r'. rewrite handleError_result. simpl.
    repeat split.
    + destruct (isComponentNotReadyError e); [reflexivity | discriminate].
    + intros ->. reflexivity.
    + intros ->. reflexivity.
    + destruct (handleError_persists (Some e) r) as [u [H1 [H2 _]]]. eauto.
  - intros object obj' r w' Hget Hready.
    exists (ComponentNotReadyError "no replica is ready"). split.
    + eapply waitForDeployment_not_ready; eauto.
    + intros r0. rewrite handleError_result. reflexivity.
Qed.

(** C6, as the code has it.  In [handleError] the outcome of
    [UpdateStatus] never reaches the returned pair: the reconciliation
    error (or the requeue) is returned whatever the update did.  At the end
    of a pass without reconciliation error, the error of [UpdateStatus], if
    any, is what [Reconcile] returns. *)
Theorem status_update_error_returned_only_without_reconcile_error :
  (forall (err : option error) (r : State),
      fst (handleError E err r) =
        if isComponentNotReady err then (requeueSoon, None) else (emptyResult, err)) /\
  (forall (r : State) w1,
      prune E (smcp_Generation (Instance r)) (Instance r) (heap r) (Client r)
        = (None, w1) ->
      let r1 :=
        publishStatus E
          (updateReconcileStatusOfStatus E None
             (stampObservedGeneration E (setClient E w1 r))) in
      fst (finishReconcile E r)
      = (emptyResult, fst (UpdateStatus E (Instance r1) (heap r1) (Client r1)))).
Proof.
  split.
  - apply handleError_result.
  - intros r w1 Hprune r1. subst r1.
    unfold finishReconcile, callPrune, callUpdateStatus, logError, logInfo, logWith,
      record, liftWorld, gets, modify, bind, ret. simpl.
    rewrite Hprune. simpl.
    destruct (UpdateStatus E _ _ _) as [[updateErr|] w]; reflexivity.
Qed.

End Classification.

(** C5, witnessed on the small cluster: the galley Deployment reports no
    ready replica. *)
Lemma handleError_requeues_exactly_not_ready_witness :
  exists e,
    fst (waitForDeployment (Fake.env []) Scenario.galleyDeployment
           (Fake.reconciler [] (Fake.cluster [Scenario.galleyDeployment])
              Fake.emptyStatus []))
    = Some e /\
    forall r0, fst (handleError (Fake.env []) (Some e) r0) = (requeueSoon, None).
Proof.
  apply (proj2 (@handleError_requeues_exactly_not_ready (Fake.env []))
           Scenario.galleyDeployment Scenario.galleyDeployment _
           (Fake.cluster [Scenario.galleyDeployment])).
  - reflexivity.
  - simpl. lia.
Defined.

(** C6, refuted as stated: nothing is rendered, no component fails, the
    status update is refused, and the refusal is the error that [Reconcile]
    returns. *)
Lemma status_update_error_is_returned :
  let out := Reconcile (Fake.env []) Scenario.idleWithFailingStatusUpdate in
  fst out = (emptyResult, Some Scenario.conflict) /\
  last (history (snd out))
  = Some (CallUpdateStatus (Instance (snd out)), Some Scenario.conflict).
Proof. vm_compute. split; reflexivity. Qed.

(** C6, witnessed on the same run. *)
Lemma status_update_error_returned_only_without_reconcile_error_witness :
  fst (finishReconcile (Fake.env []) Scenario.idleWithFailingStatusUpdate)
  = (emptyResult, Some Scenario.conflict).
Proof.
  rewrite (proj2 (@status_update_error_returned_only_without_reconcile_error
                    (Fake.env [])) Scenario.idleWithFailingStatusUpdate
             (Client Scenario.idleWithFailingStatusUpdate)).
  - reflexivity.
  - reflexivity.
Defined.

(** ** The walk over the components *)

Section Walk.

Context {E : Env}.

Local Abbreviation State := (ControlPlaneReconciler E).

Lemma bind_run {A B} (m : M E A) (k : A -> M E B) (r : State) a r1 :
  m r = (a, r1) -> bind E m k r = k a r1.
Proof. intros H. unfold bind. rewrite H. reflexivity. Qed.

Lemma forUntilError_nil {A S} (body : S -> A -> M E (S * option error)) acc r :
  forUntilError E body [] acc r = ((acc, None), r).
Proof. reflexivity. Qed.

Lemma forUntilError_cons {A S} (body : S -> A -> M E (S * option error)) x l acc r :
  forUntilError E body (x :: l) acc r =
    match body acc x r with
    | ((acc', Some e), r') => ((acc', Some e), r')
    | ((acc', None), r') => forUntilError E body l acc' r'
    end.
Proof.
  unfold forUntilError at 1. unfold bind.
  destruct (body acc x r) as [[acc' [e|]] r']; reflexivity.
Qed.

(** The loop stops at the first element whose body returns an error. *)
Lemma forUntilError_stops {A S} (body : S -> A -> M E (S * option error))
    pre x post acc r acc1 r1 acc2 e r2 :
  forUntilError E body pre acc r = ((acc1, None), r1) ->
  body acc1 x r1 = ((acc2, Some e), r2) ->
  forUntilError E body (pre ++ x :: post) acc r = ((acc2, Some e), r2).
Proof.
  revert acc r. induction pre as [|y pre IH]; intros acc r Hpre Hx.
  - rewrite forUntilError_nil in Hpre. inversion Hpre; subst.
    simpl. rewrite forUntilError_cons, Hx. reflexivity.
  - simpl. rewrite forUntilError_cons in *.
    destruct (body acc y r) as [[acc' [e'|]] r'].
    + discriminate.
    + eauto.
Qed.

(** The loop runs on past the elements whose body returns nil. *)
Lemma forUntilError_continues {A S} (body : S -> A -> M E (S * option error))
    pre post acc r acc1 r1 :
  forUntilError E body pre acc r = ((acc1, None), r1) ->
  forUntilError E body (pre ++ post) acc r = forUntilError E body post acc1 r1.
Proof.
  revert acc r. induction pre as [|y pre IH]; intros acc r Hpre.
  - rewrite forUntilError_nil in Hpre. inversion Hpre; subst. reflexivity.
  - simpl. rewrite forUntilError_cons in *.
    destruct (body acc y r) as [[acc' [e'|]] r'].
    + discriminate.
    + eauto.
Qed.

(** The state in which the walk starts: [r.ownerRefs] and
    [r.meshGeneration] are set (lines 90-93). *)
Lemma reconcileComponents_start (r : State) :
  reconcileComponents E r =
    (let r0 :=
       setMeshGeneration E (FormatInt (smcp_Generation (Instance r)))
         (setOwnerRefs E [NewOwnerRef E (Instance r)] r) in
     match forUntilError E (installOrdered E) orderedComponents ∅ r0 with
     | ((_, Some e), r1) => handleError E (Some e) r1
     | ((componentsProcessed, None), r1) =>
         match forUntilError E (installOther E) (rangeKeys E (renderings r1))
                 componentsProcessed r1 with
         | ((_, Some e), r2) => handleError E (Some e) r2
         | ((_, None), r2) =>
             match processComponentManifests E "maistra-threescale" r2 with
             | (Some e, r3) => handleError E (Some e) r3
             | (None, r3) => finishReconcile E r3
             end
         end
     end).
Proof.
  unfold reconcileComponents, bind, gets, modify. simpl.
  destruct (forUntilError E (installOrdered E) orderedComponents ∅ _)
    as [[cp [e|]] r1]; [reflexivity|].
  destruct (forUntilError E (installOther E) _ cp r1) as [[cp' [e|]] r2]; [reflexivity|].
  destruct (processComponentManifests E "maistra-threescale" r2) as [[e|] r3];
    reflexivity.
Qed.

(** C9.  When the component [c] of the fixed order is the first whose
    processing fails, with [e], the walk is over: what [Reconcile] does from
    line 90 on equals [handleError e] run in the state that the failed
    component left.  The pass returns the classified error, and its only
    further call to the cluster is the update of the status. *)
Theorem ordered_failure_aborts_walk
    (r : State) (pre post : list string) (c : string) (e : error) :
  orderedComponents = pre ++ c :: post ->
  let r0 :=
    setMeshGeneration E (FormatInt (smcp_Generation (Instance r)))
      (setOwnerRefs E [NewOwnerRef E (Instance r)] r) in
  let walked := forUntilError E (installOrdered E) pre ∅ r0 in
  snd (fst walked) = None ->
  let failed := installOrdered E (fst (fst walked)) c (snd walked) in
  snd (fst failed) = Some e ->
  let out := reconcileComponents E r in
  out = handleError E (Some e) (snd failed) /\
  fst out = (if isComponentNotReadyError e
             then (requeueSoon, None) else (emptyResult, Some e)) /\
  (exists updateErr,
      history (snd out)
      = history (snd failed)
          ++ [(CallUpdateStatus (Instance (snd out)), updateErr)]) /\
  cps_ComponentStatus (smcp_Status (Instance (snd out)))
  = cps_ComponentStatus (Status (snd failed)).
Proof.
  intros Hord r0 walked Hpre failed Hc out.
  assert (Hout : out = handleError E (Some e) (snd failed)).
  { subst out. rewrite reconcileComponents_start. cbv zeta. fold r0.
    rewrite Hord.
    erewrite (forUntilError_stops (installOrdered E) pre c post ∅ r0
                (fst (fst walked)) (snd walked) (fst (fst failed)) e (snd failed)).
    - reflexivity.
    - fold walked. destruct walked as [[cp1 o1] r1]. simpl in *. by subst o1.
    - fold failed. destruct failed as [[cp2 o2] r2]. simpl in *. by subst o2. }
  split; [exact Hout|]. rewrite Hout. split; [apply handleError_result|].
  destruct (handleError_persists (Some e) (snd failed)) as [u [H1 [H2 H3]]].
  split; [eauto|]. cbv zeta in H2, H3. rewrite H2. exact H3.
Qed.

(** ** What [processComponentManifests] appends to the new status *)

Lemma processManifests_keeps_Status ms old (r : State) :
  Status (snd (processManifests E ms old r)) = Status r.
Proof. apply (frames_processManifests (R:=keeps Status)). Qed.

Lemma postProcessNewComponent_keeps_Status name status (r : State) :
  Status (snd (postProcessNewComponent E name status r)) = Status r.
Proof. apply (frames_postProcessNewComponent (R:=keeps Status)). Qed.

(** [processComponentManifests] for a component with renderings, step by
    step. *)
Lemma processComponentManifests_rendered (name : string) (ms : list Manifest) (r : State) :
  renderings r !! name = Some ms ->
  processComponentManifests E name r =
    (let '(old, rB) := enterComponent E name r in
     let '((newStatus, err), r2) := processManifests E ms old rB in
     let status := stampComponent E newStatus r2 in
     let '(herr, r3) := postProcessNewComponent E name status r2 in
     match herr with
     | Some e =>
         (Some e,
          setLog E (Log r)
            (setLogged E
               (logged r3 ++
                  [{| le_Level := LogError (Some e); le_Values := Log r3;
                      le_Message :=
                        "unexpected error occurred during postprocessing of new component";
                      le_Args := [] |}]) r3))
     | None =>
         let r4 := setStatus E (cps_appendComponent (Status r3) status) r3 in
         (err,
          setLog E (Log r)
            (setLogged E
               (logged r4 ++
                  [{| le_Level := LogInfo; le_Values := Log r4;
                      le_Message := "component reconciliation complete";
                      le_Args := [] |}]) r4))
     end).
Proof.
  intros Hms.
  unfold processComponentManifests, enterComponent, stampComponent,
    logInfo, logError, logWith, bind, gets, modify, ret.
  state_simpl. rewrite Hms. state_simpl.
  destruct (FindComponentByName (smcp_Status (Instance r)) name) as [i|]; state_simpl;
    destruct (processManifests E ms _ _) as [[newStatus err] r2]; state_simpl;
    destruct (postProcessNewComponent E name _ r2) as [[e|] r3]; reflexivity.
Qed.

Lemma enterComponent_keeps_Status name (r : State) :
  Status (snd (enterComponent E name r)) = Status r.
Proof.
  unfold enterComponent. destruct (FindComponentByName _ name); reflexivity.
Qed.

(** C10.  With renderings for [name], [processComponentManifests] runs
    [processManifests] and then the hook on the status it returned.  When
    the hook returns an error, that error is returned and the list of
    component statuses of [r.Status] is the one from before the call, also
    in the status that [handleError] then persists; when the hook returns
    nil, the new status is appended and the error of [processManifests] is
    returned. *)
Theorem hook_error_leaves_component_out
    (name : string) (ms : list Manifest) (r : State) :
  renderings r !! name = Some ms ->
  let '(old, rB) := enterComponent E name r in
  let '((newStatus, err), r2) := processManifests E ms old rB in
  let status := stampComponent E newStatus r2 in
  let '(herr, _) := postProcessNewComponent E name status r2 in
  let out := processComponentManifests E name r in
  match herr with
  | Some e =>
      fst out = Some e /\
      cps_ComponentStatus (Status (snd out)) = cps_ComponentStatus (Status r) /\
      cps_ComponentStatus
        (smcp_Status (Instance (snd (handleError E (Some e) (snd out)))))
      = cps_ComponentStatus (Status r)
  | None =>
      fst out = err /\
      cps_ComponentStatus (Status (snd out))
      = cps_ComponentStatus (Status r) ++ [status]
  end.
Proof.
  intros Hms.
  rewrite (processComponentManifests_rendered name ms r Hms).
  pose proof (enterComponent_keeps_Status name r) as HSB.
  destruct (enterComponent E name r) as [old rB]. simpl in HSB.
  destruct (processManifests E ms old rB) as [[newStatus err] r2] eqn:Hpm.
  cbv zeta.
  destruct (postProcessNewComponent E name _ r2) as [herr r3] eqn:Hhook.
  assert (HS2 : Status r2 = Status r).
  { pose proof (processManifests_keeps_Status ms old rB) as H.
    rewrite Hpm in H. simpl in H. congruence. }
  assert (HS3 : Status r3 = Status r).
  { match type of Hhook with postProcessNewComponent E name ?st r2 = _ =>
      pose proof (postProcessNewComponent_keeps_Status name st r2) as H end.
    rewrite Hhook in H. simpl in H. congruence. }
  destruct herr as [e|]; simpl.
  - repeat split; [congruence|].
    match goal with |- context [handleError E ?x ?s] =>
      destruct (handleError_persists x s) as [u [H1 [H2 H3]]] end.
    cbv zeta in H2, H3. rewrite H2, H3. simpl. congruence.
  - split; [reflexivity|]. rewrite HS3. reflexivity.
Qed.

End Walk.

(** ** The deletion pass of [processManifests] *)

Section Deletions.

Context {E : Env}.

Local Abbreviation State := (ControlPlaneReconciler E).

Lemma deref_insert_ne (h : list StatusType) (p q : nat) (x : StatusType) :
  p <> q -> deref (<[p := x]> h) q = deref h q.
Proof. intros Hne. unfold deref. by rewrite list_lookup_insert_ne. Qed.

Lemma foldM_nil {A S} (body : S -> A -> M E S) acc (r : State) :
  foldM E body [] acc r = (acc, r).
Proof. reflexivity. Qed.

Lemma foldM_cons {A S} (body : S -> A -> M E S) x l acc (r : State) :
  foldM E body (x :: l) acc r =
    foldM E body l (fst (body acc x r)) (snd (body acc x r)).
Proof.
  unfold foldM at 1. unfold bind. destruct (body acc x r). reflexivity.
Qed.

Lemma foldM_app {A S} (body : S -> A -> M E S) l1 l2 acc (r : State) :
  foldM E body (l1 ++ l2) acc r =
    foldM E body l2 (fst (foldM E body l1 acc r)) (snd (foldM E body l1 acc r)).
Proof.
  revert acc r. induction l1 as [|x l1 IH]; intros acc r; [reflexivity|].
  simpl. rewrite !foldM_cons. apply IH.
Qed.

(** One turn of the deletion loop. *)
Lemma deleteUnprocessed_step origLogger rp ns errs (p : ptr) (r : State) :
  let out := deleteUnprocessed E origLogger rp (ns, errs) p r in
  let ns' := fst (fst out) in
  let errs' := snd (fst out) in
  let r' := snd out in
  cs_StatusType ns' = cs_StatusType ns /\
  if prunable rp (heap r) p then
    exists err,
      let q := (CallDelete (ToUnstructured E (st_Resource (deref (heap r) p))), err) in
      cs_Resources ns' = cs_Resources ns ++ [p] /\
      history r' = history r ++ [q] /\
      errs' = errs ++ option_list (deleteFailure q) /\
      (forall p', p' <> p -> deref (heap r') p' = deref (heap r) p')
  else
    ns' = ns /\ errs' = errs /\ history r' = history r /\ heap r' = heap r.
Proof.
  unfold prunable, deleteUnprocessed, Delete, processDeletedObject, logIfError,
    logInfo, logError, logWith, record, readStatus, updateStatusAt, liftWorld,
    gets, modify, bind, ret.
  state_simpl.
  destruct (bool_decide (st_Resource (deref (heap r) p) ∈ rp)); state_simpl;
    [by repeat split|].
  destruct (installedFalse (deref (heap r) p)); state_simpl; [by repeat split|].
  destruct (clientDelete E _ (Client r)) as [err w]. state_simpl.
  unfold deleteFailure. simpl snd.
  destruct (isNil err || IsNotFound err || IsGone err) eqn:Hok; state_simpl.
  - split; [reflexivity|]. exists err. rewrite Hok. repeat split.
    + simpl. by rewrite app_nil_r.
    + intros p' Hne. rewrite !deref_insert_ne by done. reflexivity.
  - split; [reflexivity|]. exists err. rewrite Hok. repeat split.
    + destruct err; [reflexivity | discriminate].
    + intros p' Hne. rewrite !deref_insert_ne by done. reflexivity.
Qed.

(** The deletion loop over the statuses [l]: the statuses carried into the
    new status are those up for deletion, whatever their deletion
    returned; one deletion is requested for each; the failures join the
    errors. *)
Lemma deletions_spec origLogger rp (l : list ptr) :
  forall ns errs (r : State),
    let out := foldM E (deleteUnprocessed E origLogger rp) l (ns, errs) r in
    let ns' := fst (fst out) in
    let errs' := snd (fst out) in
    let r' := snd out in
    exists carried new,
      cs_StatusType ns' = cs_StatusType ns /\
      cs_Resources ns' = cs_Resources ns ++ carried /\
      history r' = history r ++ new /\
      errs' = errs ++ omap deleteFailure new /\
      Forall isDeleteCall new /\
      length new = length carried /\
      (forall p, p ∈ carried <-> p ∈ l /\ prunable rp (heap r) p = true) /\
      (forall p, p ∈ carried ->
         exists err,
           (CallDelete (ToUnstructured E (st_Resource (deref (heap r) p))), err) ∈ new) /\
      (forall p, p ∉ carried -> deref (heap r') p = deref (heap r) p).
Proof.
  induction l as [|q l IH]; intros ns errs r; cbv zeta.
  - exists [], []. rewrite foldM_nil. simpl.
    rewrite !app_nil_r. split_and!; try done.
    + intros p. rewrite !elem_of_nil. tauto.
    + intros p Hp. by apply elem_of_nil in Hp.
  - rewrite foldM_cons.
    pose proof (deleteUnprocessed_step origLogger rp ns errs q r) as Hstep.
    cbv zeta in Hstep.
    destruct (deleteUnprocessed E origLogger rp (ns, errs) q r) as [[ns1 errs1] r1].
    simpl in Hstep. simpl fst; simpl snd.
    destruct Hstep as [Hst Hstep].
    specialize (IH ns1 errs1 r1). cbv zeta in IH.
    destruct (foldM E (deleteUnprocessed E origLogger rp) l (ns1, errs1) r1)
      as [[ns2 errs2] r2].
    simpl in IH. simpl.
    destruct IH as (carried & new & Hst2 & Hres & Hhist & Herrs & Hdel & Hlen
                    & Hmem & Hcall & Hheap).
    destruct (prunable rp (heap r) q) eqn:Hq.
    + destruct Hstep as (err & Hres1 & Hhist1 & Herrs1 & Hheap1).
      exists (q :: carried),
        ((CallDelete (ToUnstructured E (st_Resource (deref (heap r) q))), err) :: new).
      assert (Hsame : forall p, p <> q ->
                prunable rp (heap r1) p = prunable rp (heap r) p).
      { intros p Hne. unfold prunable. by rewrite Hheap1. }
      split_and!.
      * congruence.
      * rewrite Hres, Hres1, <- app_assoc. reflexivity.
      * rewrite Hhist, Hhist1, <- app_assoc. reflexivity.
      * rewrite Herrs, Herrs1, <- app_assoc. f_equal.
        simpl. by destruct (deleteFailure _).
      * constructor; [exact I | exact Hdel].
      * simpl. by rewrite Hlen.
      * intros p. split.
        -- intros Hin. apply elem_of_cons in Hin as [->|Hin]; [split|].
           ++ apply elem_of_cons; by left.
           ++ done.
           ++ destruct (decide (p = q)) as [->|Hne];
                [split; [apply elem_of_cons; by left | done]|].
              apply Hmem in Hin as [Hin Hp]. split.
              ** apply elem_of_cons; by right.
              ** by rewrite <- Hsame.
        -- intros [Hin Hp]. destruct (decide (p = q)) as [->|Hne].
           ++ apply elem_of_cons; by left.
           ++ apply elem_of_cons; right. apply Hmem. split.
              ** apply elem_of_cons in Hin as [?|?]; done.
              ** by rewrite Hsame.
      * intros p Hin. destruct (decide (p = q)) as [->|Hne].
        -- exists err. apply elem_of_cons; by left.
        -- apply elem_of_cons in Hin as [?|Hin]; [done|].
           destruct (Hcall p Hin) as [err' Hc]. exists err'.
           apply elem_of_cons; right. by rewrite <- Hheap1.
      * intros p Hnin. apply not_elem_of_cons in Hnin as [Hne Hnin].
        rewrite Hheap by done. by apply Hheap1.
    + destruct Hstep as (-> & -> & Hhist1 & Hheap1).
      exists carried, new. rewrite Hheap1 in *. split_and!; try done.
      * congruence.
      * intros p. split.
        -- intros Hin. apply Hmem in Hin as [Hin Hp]. split; [|done].
           apply elem_of_cons; by right.
        -- intros [Hin Hp]. apply Hmem. split; [|done].
           apply elem_of_cons in Hin as [->|?]; [congruence | done].
Qed.

(** [processManifests] is the pass over the rendered objects followed by
    the deletion pass over the prior statuses, last first. *)
Lemma processManifests_passes (ms : list Manifest) (old : ComponentStatus) (r : State) :
  processManifests E ms old r =
    (let objs :=
       foldM E (processManifest E (Log r) old) ms (∅, initialStatus old, []) r in
     let dels :=
       foldM E (deleteUnprocessed E (Log r) (fst (fst (fst objs))))
         (rev (cs_Resources old)) (snd (fst (fst objs)), snd (fst objs)) (snd objs) in
     let err := NewAggregate (snd (fst dels)) in
     let newStatus := fst (fst dels) in
     ((if Nat.ltb 0 (length ms)
       then cs_setStatusType newStatus
              (updateReconcileStatus E (cs_StatusType newStatus) err)
       else cs_setStatusType newStatus
              (updateDeleteStatus E (cs_StatusType newStatus) err),
       err),
      setLog E (Log r) (snd dels))).
Proof.
  unfold processManifests, initialStatus, bind, gets, modify, ret. cbv zeta.
  destruct (foldM E (processManifest E (Log r) old) ms _ r) as [[[rp ns1] errs1] r1].
  state_simpl.
  destruct (foldM E (deleteUnprocessed E (Log r) rp) _ (ns1, errs1) r1)
    as [[ns2 errs2] r2].
  reflexivity.
Qed.

(** C2, as the code has it.  A status of the prior component status whose
    key was not rendered in this pass is carried into the new status
    whenever its Installed condition is not False, whether its deletion
    succeeds or fails: exactly one deletion is requested for each such
    status, and only the deletions that fail with something else than
    not-found or gone add to the aggregate error.  The statuses that are
    dropped are those whose Installed condition is False; no deletion is
    requested for them. *)
Theorem unrendered_statuses_carried_whatever_delete_returns
    (ms : list Manifest) (old : ComponentStatus) (r : State) :
  let objs :=
    foldM E (processManifest E (Log r) old) ms (∅, initialStatus old, []) r in
  let resourcesProcessed := fst (fst (fst objs)) in
  let rendered := snd (fst (fst objs)) in
  let objectErrors := snd (fst objs) in
  let r1 := snd objs in
  let out := processManifests E ms old r in
  exists carried new,
    cs_Resources (fst (fst out)) = cs_Resources rendered ++ carried /\
    history (snd out) = history r1 ++ new /\
    snd (fst out) = NewAggregate (objectErrors ++ omap deleteFailure new) /\
    Forall isDeleteCall new /\
    length new = length carried /\
    (forall p, p ∈ carried <->
               p ∈ cs_Resources old /\ prunable resourcesProcessed (heap r1) p = true) /\
    (forall p, p ∈ carried ->
       exists err,
         (CallDelete (ToUnstructured E (st_Resource (deref (heap r1) p))), err) ∈ new).
Proof.
  cbv zeta. rewrite processManifests_passes. cbv zeta.
  destruct (foldM E (processManifest E (Log r) old) ms _ r) as [[[rp ns1] errs1] r1].
  state_simpl.
  destruct (deletions_spec (Log r) rp (rev (cs_Resources old)) ns1 errs1 r1)
    as (carried & new & Hst & Hres & Hhist & Herrs & Hdel & Hlen & Hmem & Hcall & _).
  cbv zeta in *.
  destruct (foldM E (deleteUnprocessed E (Log r) rp) _ (ns1, errs1) r1)
    as [[ns2 errs2] r2].
  state_simpl. exists carried, new. split_and!.
  - destruct (0 <? length ms)%nat; exact Hres.
  - exact Hhist.
  - by rewrite Herrs.
  - exact Hdel.
  - exact Hlen.
  - intros p. rewrite Hmem, !list_elem_of_In, <- in_rev. reflexivity.
  - exact Hcall.
Qed.

(** C1, as the code has it.  Without an entry in the renderings,
    [processComponentManifests] returns nil at once: the cluster, the calls
    made, the statuses and the new status are as before.  With an entry that
    holds no manifest, the deletion pass runs over the prior component
    status with no object processed: a deletion is requested for every
    recorded status whose Installed condition is not False, these statuses
    make up the resources of the component's new status, and that status is
    appended to [r.Status] when the hook returns nil. *)
Theorem component_without_renderings (name : string) (r : State) :
  (renderings r !! name = None ->
   let out := processComponentManifests E name r in
   fst out = None /\
   Client (snd out) = Client r /\ history (snd out) = history r /\
   heap (snd out) = heap r /\ Status (snd out) = Status r /\
   Instance (snd out) = Instance r) /\
  (renderings r !! name = Some [] ->
   let old := fst (enterComponent E name r) in
   let rB := snd (enterComponent E name r) in
   let pm := processManifests E [] old rB in
   let status := stampComponent E (fst (fst pm)) (snd pm) in
   (forall i, FindComponentByName (smcp_Status (Instance r)) name = Some i ->
              cs_Resources old = cs_Resources (componentAt (smcp_Status (Instance r)) i)) /\
   (exists new,
       history (snd pm) = history r ++ new /\
       Forall isDeleteCall new /\
       length new = length (cs_Resources status) /\
       snd (fst pm) = NewAggregate (omap deleteFailure new) /\
       (forall p, p ∈ cs_Resources status <->
                  p ∈ cs_Resources old /\ installedFalse (deref (heap r) p) = false) /\
       (forall p, p ∈ cs_Resources status ->
          exists err,
            (CallDelete (ToUnstructured E (st_Resource (deref (heap r) p))), err) ∈ new)) /\
   (fst (postProcessNewComponent E name status (snd pm)) = None ->
    cps_ComponentStatus (Status (snd (processComponentManifests E name r)))
    = cps_ComponentStatus (Status r) ++ [status])).
Proof.
  split.
  - intros Hnone.
    unfold processComponentManifests, logInfo, logWith, bind, gets, modify, ret.
    state_simpl. rewrite Hnone. state_simpl. by split_and!.
  - intros Hsome. cbv zeta.
    assert (Hheap : heap (snd (enterComponent E name r)) = heap r
                    /\ history (snd (enterComponent E name r)) = history r).
    { unfold enterComponent. by destruct (FindComponentByName _ name). }
    destruct Hheap as [Hheap Hhist].
    split_and!.
    + intros i Hi. unfold enterComponent. rewrite Hi. simpl.
      unfold componentAt, removeComponentCondition. state_simpl. simpl.
      rewrite list_lookup_alter. rewrite decide_True by done.
      by destruct (cps_ComponentStatus (smcp_Status (Instance r)) !! i).
    + rewrite processManifests_passes. cbv zeta. rewrite foldM_nil. state_simpl.
      destruct (deletions_spec (Log (snd (enterComponent E name r))) ∅
                  (rev (cs_Resources (fst (enterComponent E name r))))
                  (initialStatus (fst (enterComponent E name r))) []
                  (snd (enterComponent E name r)))
        as (carried & new & _ & Hres & Hh & Herr & Hdel & Hlen & Hmem & Hcall & _).
      cbv zeta in *.
      destruct (foldM E (deleteUnprocessed E _ ∅) _ _ _) as [[ns2 errs2] r2].
      state_simpl. rewrite Hheap in *. rewrite Hhist in *.
      unfold stampComponent. simpl in *. rewrite Hres.
      exists new. split_and!; try done.
      * by rewrite Herr.
      * intros p. rewrite Hmem, !list_elem_of_In, <- in_rev. unfold prunable.
        rewrite bool_decide_eq_false_2 by apply not_elem_of_empty. simpl.
        destruct (installedFalse (deref (heap r) p)); simpl; split; intros [? ?];
          by split.
    + intros Hhook.
      rewrite (processComponentManifests_rendered name [] r Hsome).
      pose proof (enterComponent_keeps_Status name r) as HSB.
      destruct (enterComponent E name r) as [old rB]. simpl in *.
      pose proof (processManifests_keeps_Status [] old rB) as HS2.
      destruct (processManifests E [] old rB) as [[newStatus err] r2]. simpl in *.
      match type of Hhook with
      | fst (postProcessNewComponent E name ?st r2) = _ =>
          pose proof (postProcessNewComponent_keeps_Status name st r2) as HS3
      end.
      destruct (postProcessNewComponent E name _ r2) as [herr r3]. simpl in *.
      subst herr. simpl. congruence.
Qed.

End Deletions.

(** ** The readiness hooks *)

Section Hooks.

Context {E : Env}.

Local Abbreviation State := (ControlPlaneReconciler E).

Lemma waitForWebhookCABundleInitialization_history (o : Unstructured) (r : State) :
  let out := waitForWebhookCABundleInitialization E o r in
  heap (snd out) = heap r /\
  exists err,
    history (snd out) = history r ++ [(webhookLookup o, err)] /\
    (fst out = None -> err = None).
Proof.
  unfold waitForWebhookCABundleInitialization, Get, logInfo, logError, logWith,
    record, liftWorld, gets, modify, bind, ret, webhookLookup.
  state_simpl.
  destruct (clientGet E _ o (Client r)) as [[obj [e|]] w]; state_simpl.
  - split; [reflexivity|]. eexists. split; [reflexivity | discriminate].
  - change (IsNotFound None) with false. cbv iota.
    destruct (u_webhooks obj) as [l|]; [destruct (existsb caBundleMissing l)|];
      state_simpl; (split; [reflexivity | eexists; split; reflexivity]).
Qed.

(** A run of [forInstalled] that returns nil has waited, with success, for
    every status of the list whose Installed condition is True. *)
Lemma forInstalled_nil (wait : Unstructured -> M E (option error))
    (Q : Unstructured -> Request -> Prop) :
  (forall o (r : State),
      heap (snd (wait o r)) = heap r /\
      exists new,
        history (snd (wait o r)) = history r ++ new /\
        (fst (wait o r) = None -> exists q, q ∈ new /\ Q o q)) ->
  forall (statuses : list ptr) (r : State),
    let out := forInstalled E statuses wait r in
    heap (snd out) = heap r /\
    exists new,
      history (snd out) = history r ++ new /\
      (fst out = None ->
       forall p, p ∈ statuses -> installedTrue (deref (heap r) p) = true ->
         exists q, q ∈ new /\ Q (ToUnstructured E (st_Resource (deref (heap r) p))) q).
Proof.
  intros Hwait statuses. unfold forInstalled.
  set (body := fun (_ : unit) (status : ptr) =>
                 bind E (readStatus E status)
                   (fun st =>
                      if installedTrue st
                      then bind E (wait (ToUnstructured E (st_Resource st)))
                             (fun err => ret E (tt, err))
                      else ret E (tt, None))).
  assert (Hbody : forall s (r : State),
    body tt s r =
      if installedTrue (deref (heap r) s)
      then ((tt, fst (wait (ToUnstructured E (st_Resource (deref (heap r) s))) r)),
            snd (wait (ToUnstructured E (st_Resource (deref (heap r) s))) r))
      else ((tt, None), r)).
  { intros s r. unfold body, bind, readStatus, gets, ret.
    destruct (installedTrue (deref (heap r) s)); [|reflexivity].
    by destruct (wait _ r). }
  assert (Hloop : forall (r : State),
    let out := forUntilError E body statuses tt r in
    heap (snd out) = heap r /\
    exists new,
      history (snd out) = history r ++ new /\
      (snd (fst out) = None ->
       forall p, p ∈ statuses -> installedTrue (deref (heap r) p) = true ->
         exists q, q ∈ new /\ Q (ToUnstructured E (st_Resource (deref (heap r) p))) q)).
  { clearbody body.
    induction statuses as [|s statuses IH]; intros r; cbv zeta.
    - rewrite forUntilError_nil. simpl. split; [reflexivity|].
      exists []. rewrite app_nil_r. split; [reflexivity|].
      intros _ p Hp. by apply elem_of_nil in Hp.
    - rewrite forUntilError_cons, Hbody.
      destruct (installedTrue (deref (heap r) s)) eqn:Hs.
      + destruct (Hwait (ToUnstructured E (st_Resource (deref (heap r) s))) r)
          as [Hh (new1 & Hn1 & Hq1)].
        destruct (wait _ r) as [[e|] r1]; simpl in *.
        * split; [exact Hh|]. exists new1. split; [exact Hn1 | discriminate].
        * destruct (IH r1) as [Hh2 (new2 & Hn2 & Hq2)]. cbv zeta in *.
          split; [congruence|]. exists (new1 ++ new2).
          split; [by rewrite Hn2, Hn1, app_assoc|].
          intros Hnone p Hp Hinst. apply elem_of_cons in Hp as [->|Hp].
          -- destruct (Hq1 eq_refl) as (q & Hq & HQ). exists q.
             split; [apply elem_of_app; by left | exact HQ].
          -- rewrite Hh in Hq2. destruct (Hq2 Hnone p Hp Hinst) as (q & Hq & HQ).
             exists q. split; [apply elem_of_app; by right | exact HQ].
      + destruct (IH r) as [Hh2 (new2 & Hn2 & Hq2)]. cbv zeta in *.
        split; [exact Hh2|]. exists new2. split; [exact Hn2|].
        intros Hnone p Hp Hinst. apply elem_of_cons in Hp as [->|Hp].
        * congruence.
        * by apply Hq2. }
  intros r. specialize (Hloop r). cbv zeta in *.
  unfold bind, ret.
  destruct (forUntilError E body statuses tt r) as [[[] err] r1]. simpl in *.
  exact Hloop.
Qed.

(** C3, as the code has it.  For galley the hook runs the check of the
    deployments first.  When that check returns an error, the error is the
    hook's answer and no webhook configuration is looked at.  When it
    returns nil, the hook goes on with the ValidatingWebhookConfigurations
    of the status; if the hook returns nil in the end, each of them that is
    recorded as installed has been fetched by name, after the calls of the
    deployment check. *)
Theorem galley_checks_deployments_before_webhooks
    (status : ComponentStatus) (r : State) :
  let wd := waitForDeployments E status r in
  let webhooks :=
    FindResourcesOfKind E (heap r) status "ValidatingWebhookConfiguration" in
  let out := postProcessNewComponent E "istio/charts/galley" status r in
  match fst wd with
  | Some e => out = (Some e, snd wd)
  | None =>
      out = forInstalled E webhooks (waitForWebhookCABundleInitialization E) (snd wd) /\
      exists new,
        history (snd out) = history (snd wd) ++ new /\
        (fst out = None ->
         forall p, p ∈ webhooks -> installedTrue (deref (heap r) p) = true ->
           (webhookLookup (ToUnstructured E (st_Resource (deref (heap r) p))), None)
           ∈ new)
  end.
Proof.
  cbv zeta.
  pose proof (frames_waitForDeployments (R:=keeps heap) status r) as Hheap.
  unfold keeps in Hheap.
  assert (Hout :
    postProcessNewComponent E "istio/charts/galley" status r =
      let (a, r1) := waitForDeployments E status r in
      match a with
      | Some e => (Some e, r1)
      | None =>
          forInstalled E
            (FindResourcesOfKind E (heap r1) status "ValidatingWebhookConfiguration")
            (waitForWebhookCABundleInitialization E) r1
      end).
  { unfold postProcessNewComponent.
    change (String.eqb "istio/charts/galley" "istio/charts/galley") with true.
    cbv iota. unfold bind at 1.
    destruct (waitForDeployments E status r) as [[e|] r1]; reflexivity. }
  rewrite Hout. clear Hout.
  destruct (waitForDeployments E status r) as [[e|] r1]; simpl in *.
  - reflexivity.
  - rewrite Hheap. split; [reflexivity|].
    destruct (forInstalled_nil (waitForWebhookCABundleInitialization E)
                (fun o q => q = (webhookLookup o, None)))
      with (statuses := FindResourcesOfKind E (heap r) status
                          "ValidatingWebhookConfiguration") (r := r1)
      as [_ (new & Hn & Hq)].
    { intros o r0.
      destruct (waitForWebhookCABundleInitialization_history o r0)
        as [Hh (err & Hhist & Herr)].
      split; [exact Hh|]. exists [(webhookLookup o, err)].
      split; [exact Hhist|]. intros Hnone. rewrite (Herr Hnone).
      eexists. split; [apply elem_of_cons; by left | reflexivity]. }
    cbv zeta in *. exists new. split; [exact Hn|].
    intros Hnone p Hp Hinst. rewrite Hheap in Hq.
    destruct (Hq Hnone p Hp Hinst) as (q & Hin & ->). exact Hin.
Qed.

End Hooks.

(** ** The components outside the fixed order *)

Section Others.

Context {E : Env}.

Local Abbreviation State := (ControlPlaneReconciler E).

Lemma frames_processComponentManifests_renderings name :
  frames (keeps (renderings (E:=E))) (processComponentManifests E name).
Proof.
  unfold processComponentManifests.
  pose proof (@frames_processManifests E (keeps renderings) _ _ _ _ _ _).
  pose proof (@frames_postProcessNewComponent E (keeps renderings) _ _ _ _).
  frames_tac.
Qed.

Lemma frames_processComponentManifests_logged name :
  frames (grows (logged (E:=E))) (processComponentManifests E name).
Proof.
  unfold processComponentManifests.
  pose proof (@frames_processManifests E (grows logged) _ _ _ _ _ _).
  pose proof (@frames_postProcessNewComponent E (grows logged) _ _ _ _).
  frames_tac.
Qed.

(** A component with renderings leaves its starting record in the log. *)
Lemma processComponentManifests_logs (name : string) (r : State) :
  let out := processComponentManifests E name r in
  renderings (snd out) = renderings r /\
  exists new,
    logged (snd out) = logged r ++ new /\
    (forall ms, renderings r !! name = Some ms ->
                exists entry, entry ∈ new /\ startsComponent name entry).
Proof.
  cbv zeta. split; [apply frames_processComponentManifests_renderings|].
  destruct (renderings r !! name) as [ms|] eqn:Hms.
  - rewrite (processComponentManifests_rendered name ms r Hms).
    assert (Henter : logged (snd (enterComponent E name r)) =
                     logged r ++
                       [{| le_Level := LogInfo;
                           le_Values := WithValues (Log r) "Component" name;
                           le_Message := "reconciling component resources";
                           le_Args := [] |}]).
    { unfold enterComponent. by destruct (FindComponentByName _ name). }
    destruct (enterComponent E name r) as [old rB]. simpl in Henter.
    pose proof (frames_processManifests (R:=grows logged) ms old rB) as [n2 H2].
    destruct (processManifests E ms old rB) as [[newStatus err] r2]. simpl in H2.
    cbv zeta.
    match goal with |- context [postProcessNewComponent E name ?st r2] =>
      pose proof (frames_postProcessNewComponent (R:=grows logged) name st r2)
        as [n3 H3];
      destruct (postProcessNewComponent E name st r2) as [herr r3]
    end.
    simpl in H3.
    assert (Hentry : startsComponent name
                       {| le_Level := LogInfo;
                          le_Values := WithValues (Log r) "Component" name;
                          le_Message := "reconciling component resources";
                          le_Args := [] |}).
    { split; [reflexivity|]. unfold WithValues. simpl.
      apply elem_of_app. right. apply elem_of_cons. by left. }
    destruct herr as [e|]; state_simpl.
    + eexists. split.
      * rewrite H3, H2, Henter. rewrite <- !app_assoc. reflexivity.
      * intros ms' _. eexists. split; [|exact Hentry].
        apply elem_of_app. left. apply elem_of_cons. by left.
    + eexists. split.
      * rewrite H3, H2, Henter. rewrite <- !app_assoc. reflexivity.
      * intros ms' _. eexists. split; [|exact Hentry].
        apply elem_of_app. left. apply elem_of_cons. by left.
  - destruct (frames_processComponentManifests_logged name r) as [new Hnew].
    exists new. split; [exact Hnew | discriminate].
Qed.

(** One turn of the loop over the keys of the renderings. *)
Lemma installOther_step (cp : gset string) (key : string) (r : State) :
  installOther E cp key r =
    if HasPrefix key "istio/" && negb (bool_decide (key ∈ cp))
    then (({[key]} ∪ cp, fst (processComponentManifests E key r)),
          snd (processComponentManifests E key r))
    else ((cp, None), r).
Proof.
  unfold installOther, bind, ret.
  destruct (HasPrefix key "istio/"); simpl; [|reflexivity].
  destruct (bool_decide (key ∈ cp)); simpl; [reflexivity|].
  by destruct (processComponentManifests E key r).
Qed.

Lemma installOther_loop (l : list string) :
  forall (cp : gset string) (r : State),
    let out := forUntilError E (installOther E) l cp r in
    snd (fst out) = None ->
    renderings (snd out) = renderings r /\
    (forall key, key ∈ fst (fst out) <->
                 key ∈ cp \/ (key ∈ l /\ HasPrefix key "istio/" = true)) /\
    exists new,
      logged (snd out) = logged r ++ new /\
      forall key ms,
        key ∈ l -> renderings r !! key = Some ms ->
        HasPrefix key "istio/" = true -> key ∉ cp ->
        exists entry, entry ∈ new /\ startsComponent key entry.
Proof.
  induction l as [|k l IH]; intros cp r; cbv zeta.
  - rewrite forUntilError_nil. simpl. intros _. split_and!; [done| |].
    + intros key. rewrite elem_of_nil. tauto.
    + exists []. rewrite app_nil_r. split; [done|].
      intros key ms Hin. by apply elem_of_nil in Hin.
  - rewrite forUntilError_cons, installOther_step.
    destruct (HasPrefix k "istio/" && negb (bool_decide (k ∈ cp))) eqn:Hk.
    + apply andb_true_iff in Hk as [Hpre Hnin].
      apply negb_true_iff, bool_decide_eq_false in Hnin.
      destruct (processComponentManifests_logs k r) as [Hren (new1 & Hlog1 & Hentry1)].
      cbv zeta in *.
      destruct (processComponentManifests E k r) as [[e|] r1]; simpl in *;
        [discriminate|].
      intros Hnone. destruct (IH ({[k]} ∪ cp) r1 Hnone)
        as (Hren2 & Hcp2 & new2 & Hlog2 & Hentry2).
      split_and!.
      * congruence.
      * intros key. rewrite Hcp2, elem_of_union, elem_of_singleton, elem_of_cons.
        split; [|intros [?|[[->|?] ?]]; auto].
        intros [[->|?]|[? ?]]; auto.
      * exists (new1 ++ new2). split; [by rewrite Hlog2, Hlog1, app_assoc|].
        intros key ms Hin Hms Hp Hncp. destruct (decide (key = k)) as [->|Hne].
        -- destruct (Hentry1 ms Hms) as (entry & Hin1 & Hstart).
           exists entry. split; [apply elem_of_app; by left | exact Hstart].
        -- apply elem_of_cons in Hin as [?|Hin]; [done|].
           rewrite <- Hren in Hms.
           destruct (Hentry2 key ms Hin Hms Hp) as (entry & Hin2 & Hstart).
           { rewrite elem_of_union, elem_of_singleton. tauto. }
           exists entry. split; [apply elem_of_app; by right | exact Hstart].
    + intros Hnone. destruct (IH cp r Hnone) as (Hren2 & Hcp2 & new2 & Hlog2 & Hentry2).
      split_and!; [done| |].
      * intros key. rewrite Hcp2, elem_of_cons.
        split; [intros [?|[? ?]]; auto|].
        intros [?|[[->|?] Hp]]; auto.
        apply andb_false_iff in Hk as [Hk|Hk]; [congruence|].
        apply negb_false_iff, bool_decide_eq_true in Hk. auto.
      * exists new2. split; [done|].
        intros key ms Hin Hms Hp Hncp. apply elem_of_cons in Hin as [->|Hin].
        -- apply andb_false_iff in Hk as [Hk|Hk]; [congruence|].
           apply negb_false_iff, bool_decide_eq_true in Hk. done.
        -- eauto.
Qed.

(** The loop over the renderings visits the keys of the map. *)
Lemma rangeKeys_elem (m : gmap string (list Manifest)) (key : string) :
  key ∈ rangeKeys E m <-> is_Some (m !! key).
Proof.
  rewrite (rangeKeys_keys E m), list_elem_of_fmap. split.
  - intros [[k ms] [-> Hin]]. apply elem_of_map_to_list in Hin. by exists ms.
  - intros [ms Hms]. exists (key, ms). split; [done|]. by apply elem_of_map_to_list.
Qed.

(** C4, as the code has it.  When the loop over the keys of the renderings
    ends without error, the components it has marked as processed are those
    marked before and the rendered components whose name starts with
    [istio/]; every such component that was not marked before has been
    handed to [processComponentManifests], which left its starting record
    in the log.  A key that does not start with [istio/] is passed over. *)
Theorem other_istio_components_are_processed (r : State) (cp : gset string) :
  let keys := rangeKeys E (renderings r) in
  let out := forUntilError E (installOther E) keys cp r in
  snd (fst out) = None ->
  (forall key, key ∈ fst (fst out) <->
               key ∈ cp \/ (is_Some (renderings r !! key) /\
                            HasPrefix key "istio/" = true)) /\
  (exists new,
      logged (snd out) = logged r ++ new /\
      forall key ms,
        renderings r !! key = Some ms ->
        HasPrefix key "istio/" = true -> key ∉ cp ->
        exists entry, entry ∈ new /\ startsComponent key entry) /\
  (forall key, HasPrefix key "istio/" = false ->
               installOther E cp key r = ((cp, None), r)).
Proof.
  intros keys out Hnone.
  destruct (installOther_loop keys cp r Hnone) as (_ & Hcp & new & Hlog & Hentry).
  subst out keys. cbv zeta in *. split_and!.
  - intros key. by rewrite Hcp, rangeKeys_elem.
  - exists new. split; [exact Hlog|].
    intros key ms Hms Hp Hncp. apply (Hentry key ms); try done.
    apply rangeKeys_elem. by rewrite Hms.
  - intros key Hp. rewrite installOther_step, Hp. reflexivity.
Qed.

End Others.

(** ** The pass over the rendered objects *)

Section Objects.

Context {E : Env}.

Local Abbreviation State := (ControlPlaneReconciler E).

(** A document that does not parse adds its error and a log record, and
    nothing else. *)
Lemma processRaw_failure (old : ComponentStatus) (x : string) (e : error) :
  parseFailure E x = Some e ->
  forall rp ns errs (r : State),
  exists msg,
    processRaw E old (rp, ns, errs) x r
    = ((rp, ns, errs ++ [e]), afterLogError E e msg r).
Proof.
  unfold parseFailure, processRaw, afterLogError. intros Hx rp ns errs r.
  destruct (YAMLToJSON E x) as [rawJSON [e1|]].
  - inversion Hx; subst. eexists. reflexivity.
  - destruct (Decode E rawJSON) as [obj [e2|]]; simpl in Hx; [|discriminate].
    inversion Hx; subst. eexists. reflexivity.
Qed.

Lemma foldM_appendsErrors {A} (body : Progress -> A -> M E Progress) :
  appendsErrors body ->
  forall l rp ns errs (r : State),
    foldM E body l (rp, ns, errs) r =
      (let o := foldM E body l (rp, ns, []) r in
       ((fst (fst (fst o)), snd (fst (fst o)), errs ++ snd (fst o)), snd o)).
Proof.
  intros Hbody l. induction l as [|x l IH]; intros rp ns errs r; cbv zeta.
  - rewrite !foldM_nil. simpl. by rewrite app_nil_r.
  - rewrite !foldM_cons. rewrite (Hbody rp ns errs x r). cbv zeta.
    destruct (body (rp, ns, []) x r) as [[[rp1 ns1] errs1] r1]. simpl.
    rewrite (IH rp1 ns1 (errs ++ errs1) r1), (IH rp1 ns1 errs1 r1). cbv zeta.
    destruct (foldM E body l (rp1, ns1, []) r1) as [[[rp2 ns2] errs2] r2]. simpl.
    by rewrite app_assoc.
Qed.

Lemma appendErr_app (errs : list error) (err : option error) :
  appendErr errs err = errs ++ appendErr [] err.
Proof. destruct err; simpl; [reflexivity | by rewrite app_nil_r]. Qed.

Lemma processRaw_appendsErrors old : appendsErrors (processRaw E old).
Proof.
  intros rp ns errs x r. unfold processRaw. cbv zeta.
  destruct (YAMLToJSON E x) as [rawJSON [e1|]]; [reflexivity|].
  destruct (Decode E rawJSON) as [obj [e2|]]; [reflexivity|].
  unfold bind. destruct (processObject E obj rp old ns r) as [[[rp1 ns1] err] r1].
  unfold ret. simpl. by rewrite appendErr_app.
Qed.

Lemma processManifest_appendsErrors origLogger old :
  appendsErrors (processManifest E origLogger old).
Proof.
  intros rp ns errs m r. unfold processManifest, bind, modify, logV2, logWith, ret.
  cbv zeta. destruct (negb (HasSuffix (m_Name m) ".yaml")).
  - simpl. by rewrite app_nil_r.
  - apply (foldM_appendsErrors _ (processRaw_appendsErrors old)).
Qed.

(** A manifest named [*.yaml] is gone through object by object. *)
Lemma processManifest_yaml origLogger old acc (m : Manifest) (r : State) :
  HasSuffix (m_Name m) ".yaml" = true ->
  processManifest E origLogger old acc m r =
    foldM E (processRaw E old) (SplitManifests E (m_Content m)) acc
      (enterManifest E origLogger m r).
Proof.
  intros Hm. unfold processManifest, enterManifest, bind, modify, logV2, logWith.
  rewrite Hm. reflexivity.
Qed.

(** C7.  Let the document [x] of the manifest [m] fail to parse or to
    decode, with [e].  The pass over the rendered objects then is: the
    manifests before [m] and the documents of [m] before [x], as if nothing
    followed; [x], which adds [e] to the errors and a record to the log and
    changes nothing else; the documents after [x] and the manifests after
    [m].  The errors of the pass are those found before [x], then [e],
    then those found after [x]; [e] is in the aggregate error that
    [processManifests] returns. *)
Theorem parse_failure_skips_one_object
    (old : ComponentStatus) (ms1 ms2 : list Manifest) (m : Manifest)
    (pre post : list string) (x : string) (e : error) (r : State) :
  HasSuffix (m_Name m) ".yaml" = true ->
  SplitManifests E (m_Content m) = pre ++ x :: post ->
  parseFailure E x = Some e ->
  let start : Progress := (∅, initialStatus old, []) in
  let before := foldM E (processManifest E (Log r) old) ms1 start r in
  let upto :=
    foldM E (processRaw E old) pre (fst before)
      (enterManifest E (Log r) m (snd before)) in
  let out := foldM E (processManifest E (Log r) old) (ms1 ++ m :: ms2) start r in
  exists msg,
    let skipped := afterLogError E e msg (snd upto) in
    let after :=
      foldM E (processManifest E (Log r) old) ms2
        (fst (foldM E (processRaw E old) post
                (fst (fst (fst upto)), snd (fst (fst upto)), []) skipped))
        (snd (foldM E (processRaw E old) post
                (fst (fst (fst upto)), snd (fst (fst upto)), []) skipped)) in
    processRaw E old (fst upto) x (snd upto)
    = ((fst (fst (fst upto)), snd (fst (fst upto)), snd (fst upto) ++ [e]), skipped) /\
    fst (fst (fst out)) = fst (fst (fst after)) /\
    snd (fst (fst out)) = snd (fst (fst after)) /\
    snd out = snd after /\
    snd (fst out) = snd (fst upto) ++ e :: snd (fst after) /\
    exists l1 l2,
      snd (fst (processManifests E (ms1 ++ m :: ms2) old r))
      = Some (aggregate (l1 ++ e :: l2)).
Proof.
  intros Hm Hsplit Hx start before upto out.
  destruct upto as [[[rpU nsU] errsU] rU] eqn:Hupto.
  destruct (processRaw_failure old x e Hx rpU nsU errsU rU) as [msg Hraw].
  exists msg. cbv zeta. simpl fst; simpl snd.
  set (restp := foldM E (processRaw E old) post (rpU, nsU, [])
                  (afterLogError E e msg rU)).
  set (after := foldM E (processManifest E (Log r) old) ms2 (fst restp) (snd restp)).
  assert (Hout : out =
            ((fst (fst (fst after)), snd (fst (fst after)),
              errsU ++ e :: snd (fst after)), snd after)).
  { subst out. rewrite foldM_app. fold before. rewrite foldM_cons.
    rewrite (processManifest_yaml _ _ _ _ _ Hm), Hsplit.
    rewrite foldM_app. fold upto. rewrite Hupto. simpl fst; simpl snd.
    rewrite foldM_cons, Hraw. simpl fst; simpl snd.
    rewrite (foldM_appendsErrors _ (processRaw_appendsErrors old)). cbv zeta.
    fold restp. destruct restp as [[[rp3 ns3] errs3] r3] eqn:Hrestp.
    simpl fst; simpl snd.
    rewrite (foldM_appendsErrors _ (processManifest_appendsErrors (Log r) old)).
    cbv zeta. subst after. simpl fst; simpl snd.
    rewrite (foldM_appendsErrors _ (processManifest_appendsErrors (Log r) old)
               ms2 rp3 ns3 errs3 r3).
    cbv zeta.
    destruct (foldM E (processManifest E (Log r) old) ms2 (rp3, ns3, []) r3)
      as [[[rp4 ns4] errs4] r4].
    simpl. by rewrite <- !app_assoc. }
  split; [exact Hraw|]. rewrite Hout. simpl. split_and!; try reflexivity.
  rewrite processManifests_passes. cbv zeta. fold start. fold out. rewrite Hout.
  simpl fst; simpl snd.
  destruct (deletions_spec (Log r) (fst (fst (fst after)))
              (rev (cs_Resources old)) (snd (fst (fst after)))
              (errsU ++ e :: snd (fst after)) (snd after))
    as (carried & new & _ & _ & _ & Herrs & _).
  cbv zeta in Herrs. rewrite Herrs.
  exists errsU, (snd (fst after) ++ omap deleteFailure new).
  rewrite <- app_assoc. simpl.
  destruct errsU; reflexivity.
Qed.

End Objects.

(** C9, witnessed: the security chart holds a document that is not YAML;
    its processing fails with the aggregate of that one error, the pass
    returns it, and galley, later in the order, is never reached: its
    Deployment is not in the cluster. *)
Lemma ordered_failure_aborts_walk_witness :
  let out := reconcileComponents (Fake.env Scenario.brokenSecurityCharts)
               Scenario.brokenSecurityInstall in
  fst out = (emptyResult, Some (aggregate [Scenario.yamlError])) /\
  Fake.lookupObject (Fake.objects (Client (snd out)))
    "istio-system/istio-galley=apps/v1,Kind=Deployment" = None.
Proof.
  destruct (@ordered_failure_aborts_walk (Fake.env Scenario.brokenSecurityCharts)
              Scenario.brokenSecurityInstall
              ["istio"; "istio/charts/istio_cni"]
              ["istio/charts/prometheus"; "istio/charts/tracing";
               "istio/charts/galley"; "istio/charts/mixer"; "istio/charts/pilot";
               "istio/charts/gateways"; "istio/charts/sidecarInjectorWebhook";
               "istio/charts/grafana"; "istio/charts/kiali"]
              "istio/charts/security" (aggregate [Scenario.yamlError]))
    as [Hout [Hres _]].
  - reflexivity.
  - vm_compute. reflexivity.
  - vm_compute. reflexivity.
  - split.
    + exact Hres.
    + vm_compute. reflexivity.
Defined.

(** C10, witnessed: galley's Deployment is created but has no ready
    replica, the hook answers not-ready, and the new status has no entry
    for galley although the Deployment is in the cluster. *)
Lemma hook_error_leaves_component_out_witness :
  let out := processComponentManifests (Fake.env Scenario.galleyCharts)
               "istio/charts/galley" Scenario.galleyInstall in
  fst out = Some (ComponentNotReadyError "no replica is ready") /\
  cps_ComponentStatus (Status (snd out)) = [] /\
  cps_ComponentStatus
    (smcp_Status
       (Instance
          (snd (handleError (Fake.env Scenario.galleyCharts)
                  (Some (ComponentNotReadyError "no replica is ready")) (snd out)))))
  = [].
Proof.
  exact (@hook_error_leaves_component_out (Fake.env Scenario.galleyCharts)
           "istio/charts/galley"
           [{| m_Name := "templates/deployment.yaml";
               m_Content := "apps/v1|Deployment|istio-system|istio-galley" |}]
           Scenario.galleyInstall eq_refl).
Defined.

(** C2, refuted as stated: the jaeger ConfigMap of the prior status is no
    longer rendered, its deletion succeeds and it is gone from the cluster,
    and yet its status, behind pointer 0, is in the new status returned by
    [processManifests], after the status of the Service that was rendered. *)
Lemma deleted_status_is_carried :
  let out := processManifests (Fake.env Scenario.tracingServiceCharts)
               Scenario.tracingServiceManifests Scenario.tracingStatus
               Scenario.tracingReinstall in
  last (history (snd out))
  = Some (CallDelete (Fake.toUnstructured Scenario.jaegerKey), None) /\
  Fake.lookupObject (Fake.objects (Client (snd out))) Scenario.jaegerKey = None /\
  snd (fst out) = None /\
  cs_Resources (fst (fst out)) = [1; 0] /\
  st_Resource (deref (heap (snd out)) 0) = Scenario.jaegerKey.
Proof. vm_compute. repeat split; reflexivity. Qed.

(** C1, refuted as stated: tracing has no entry in the renderings while the
    prior status records its ConfigMap; processing the component requests
    nothing of the cluster and the ConfigMap stays.  With an entry that
    holds no manifest, the ConfigMap is deleted, and the component's status
    is appended to the new status all the same. *)
Lemma absent_component_is_not_deleted :
  (let r := Scenario.tracingDropped in
   let out := processComponentManifests (Fake.env []) "istio/charts/tracing" r in
   renderings r !! "istio/charts/tracing" = None /\
   FindComponentByName (smcp_Status (Instance r)) "istio/charts/tracing" = Some 0 /\
   fst out = None /\
   history (snd out) = [] /\
   Fake.lookupObject (Fake.objects (Client (snd out))) Scenario.jaegerKey
   = Some Scenario.jaegerConfigMap) /\
  (let r := Scenario.tracingEmptied in
   let out := processComponentManifests (Fake.env Scenario.tracingEmptyCharts)
                "istio/charts/tracing" r in
   renderings r !! "istio/charts/tracing" = Some [] /\
   fst out = None /\
   Fake.lookupObject (Fake.objects (Client (snd out))) Scenario.jaegerKey = None /\
   map (fun c => (st_Resource (cs_StatusType c), cs_Resources c))
     (cps_ComponentStatus (Status (snd out)))
   = [("istio/charts/tracing", [0])]).
Proof. vm_compute. repeat split; reflexivity. Qed.

(** C1, witnessed on the same two runs. *)
Lemma component_without_renderings_witness :
  (let out := processComponentManifests (Fake.env []) "istio/charts/tracing"
                Scenario.tracingDropped in
   fst out = None /\ history (snd out) = []) /\
  length
    (cps_ComponentStatus
       (Status
          (snd (processComponentManifests (Fake.env Scenario.tracingEmptyCharts)
                  "istio/charts/tracing" Scenario.tracingEmptied))))
  = 1.
Proof.
  split.
  - destruct (proj1 (@component_without_renderings (Fake.env [])
                       "istio/charts/tracing" Scenario.tracingDropped) eq_refl)
      as (H1 & _ & H2 & _).
    split; [exact H1 | exact H2].
  - destruct (proj2 (@component_without_renderings
                       (Fake.env Scenario.tracingEmptyCharts)
                       "istio/charts/tracing" Scenario.tracingEmptied) eq_refl)
      as (_ & _ & H).
    rewrite H; [reflexivity | vm_compute; reflexivity].
Defined.

(** C3, refuted as stated: galley's Deployment has no ready replica and its
    installed ValidatingWebhookConfiguration has no CA bundle.  The hook
    answers with the error of the deployment check, and the only object it
    has fetched is the Deployment: the webhook configuration was not
    checked before, nor at all. *)
Lemma galley_webhook_not_checked_first :
  let out := postProcessNewComponent (Fake.env Scenario.galleyCharts)
               "istio/charts/galley" Scenario.galleyStatus Scenario.galleyWaiting in
  FindResourcesOfKind (Fake.env Scenario.galleyCharts)
    (heap Scenario.galleyWaiting) Scenario.galleyStatus
    "ValidatingWebhookConfiguration" = [0] /\
  installedTrue (deref (heap Scenario.galleyWaiting) 0) = true /\
  fst out = Some (ComponentNotReadyError "no replica is ready") /\
  map (fun q => match fst q with
                | CallGet key receiver => (u_Kind receiver, ok_Name key)
                | _ => ("", "")
                end) (history (snd out))
  = [("Deployment", "istio-galley")].
Proof. vm_compute. repeat split; reflexivity. Qed.

(** C4, refuted as stated: the component [addons/dashboard] is rendered,
    the pass succeeds, and the component was never processed: its ConfigMap
    is not in the cluster, nothing of the log mentions it, and the new
    status has no entry at all. *)
Lemma component_without_istio_prefix_is_skipped :
  let out := Reconcile (Fake.env Scenario.addonCharts) Scenario.addonInstall in
  renderings (snd out) !! "addons/dashboard" = Some Scenario.addonManifests /\
  fst out = (emptyResult, None) /\
  Fake.objects (Client (snd out)) = [] /\
  filter (fun entry => ("Component", "addons/dashboard") ∈ le_Values entry)
    (logged (snd out)) = [] /\
  cps_ComponentStatus (Status (snd out)) = [].
Proof. vm_compute. repeat split; reflexivity. Qed.

(** C4, witnessed: two components outside the fixed order are rendered and
    both are marked as processed. *)
Lemma other_istio_components_are_processed_witness :
  let r := Scenario.extraInstall in
  let out := forUntilError (Fake.env Scenario.extraCharts)
               (installOther (Fake.env Scenario.extraCharts))
               (rangeKeys (Fake.env Scenario.extraCharts) (renderings r)) ∅ r in
  "istio/charts/certmanager" ∈ fst (fst out) /\
  "istio/charts/nodeagent" ∈ fst (fst out).
Proof.
  destruct (@other_istio_components_are_processed (Fake.env Scenario.extraCharts)
              Scenario.extraInstall ∅) as (Hcp & _).
  - vm_compute. reflexivity.
  - split; apply Hcp; right; (split; [eexists; reflexivity | reflexivity]).
Defined.

(** C7, witnessed: between a ConfigMap and a Service the manifest holds a
    document that is not YAML; both objects are created and the aggregate
    holds the one error. *)
Lemma parse_failure_skips_one_object_witness :
  let out := processManifests (Fake.env Scenario.mixedCharts)
               [Scenario.mixedManifest] (initialStatus NewComponentStatus)
               Scenario.mixedInstall in
  (exists l1 l2, snd (fst out) = Some (aggregate (l1 ++ Scenario.yamlError :: l2))) /\
  snd (fst out) = Some (aggregate [Scenario.yamlError]) /\
  map fst (Fake.objects (Client (snd out)))
  = ["istio-system/istio-security=v1,Kind=ConfigMap";
     "kube-system/istio-citadel=v1,Kind=Service"].
Proof.
  split.
  - destruct (@parse_failure_skips_one_object (Fake.env Scenario.mixedCharts)
                (initialStatus NewComponentStatus) [] [] Scenario.mixedManifest
                ["v1|ConfigMap|istio-system|istio-security"]
                ["v1|Service|kube-system|istio-citadel"]
                ": not yaml" Scenario.yamlError Scenario.mixedInstall)
      as (msg & _ & _ & _ & _ & _ & H).
    + reflexivity.
    + vm_compute. reflexivity.
    + reflexivity.
    + exact H.
  - vm_compute. split; reflexivity.
Defined.

(** * Further properties of the reconciler *)

(** ** The calls of the Kiali patcher *)

Section KialiRuns.

Context {E : Env}.

Local Abbreviation State := (ControlPlaneReconciler E).

(** One run of the detection block. *)
Lemma autoDetect_spec (routeName : string) (object : Unstructured)
    (url : string) (enabled : bool) (r : State) :
  let out := autoDetect E routeName object url enabled r in
  (snd (fst out) = true -> fst (fst out) <> "") /\
  (if Nat.eqb (String.length url) 0 && enabled
   then exists err,
          history (snd out) = history r ++ [(routeLookup object routeName, err)] /\
          (err <> None -> fst out = (url, false))
   else history (snd out) = history r /\ fst out = (url, enabled)) /\
  (url <> "" -> fst out = (url, enabled)).
Proof.
  cbv zeta.
  unfold autoDetect, routeLookup, Get, logInfo, logError, logWith, record,
    liftWorld, gets, modify, bind, ret.
  destruct url as [|c url]; cbn [String.length Nat.eqb andb].
  - destruct enabled; cbn [andb]; state_simpl.
    + destruct (clientGet E _ _ (Client r)) as [[route [e|]] w]; state_simpl.
      * destruct (IsNotFound (Some e)); state_simpl;
          (split_and!; try done; eexists; split; [reflexivity | done]).
      * destruct (NestedString E route ["spec"; "host"]) as [[host ?] ?].
        destruct (NestedString E route ["spec"; "tls"; "termination"])
          as [[term ok] ?].
        destruct host as [|c host]; simpl; state_simpl.
        -- split_and!; try done. eexists. split; [reflexivity | done].
        -- split_and!; try done.
           ++ intros _. by destruct (ok && _).
           ++ eexists. split; [reflexivity | done].
    + by split_and!.
  - by split_and!.
Qed.

(** [kialiSettings] is the two detection blocks, between the records that
    it writes to the log. *)
Lemma kialiSettings_run (object : Unstructured) (r : State) :
  let r0 :=
    setLogged E
      (logged r ++ [{| le_Level := LogInfo; le_Values := Log r;
                       le_Message := "patching kiali CR";
                       le_Args := [u_Kind object; u_Name object] |}]) r in
  exists r3,
    kialiSettings E object r =
      (let '((jurl, jen), r1) :=
         autoDetect E "jaeger" object (configuredURL E object "tracing")
           (configuredEnabled E object "tracing") r0 in
       let '((gurl, gen), r2) :=
         autoDetect E "grafana" object (configuredURL E object "grafana")
           (configuredEnabled E object "grafana") r1 in
       ({| jaegerURL := jurl; jaegerEnabled := jen;
           grafanaURL := gurl; grafanaEnabled := gen |},
        r3 jurl jen gurl gen r2)) /\
    forall jurl jen gurl gen r2, history (r3 jurl jen gurl gen r2) = history r2.
Proof.
  intros r0. unfold kialiSettings, logInfo, logWith, bind, modify, ret. fold r0.
  eexists (fun jurl jen gurl gen r2 => _). split.
  - destruct (autoDetect E "jaeger" object _ _ r0) as [[jurl jen] r1].
    destruct (autoDetect E "grafana" object _ _ r1) as [[gurl gen] r2].
    reflexivity.
  - reflexivity.
Qed.

Lemma autoDetect_lookup (routeName : string) (object : Unstructured)
    (url : string) (enabled : bool) (r : State) :
  exists new,
    history (snd (autoDetect E routeName object url enabled r)) = history r ++ new /\
    (new = [] \/ exists err, new = [(routeLookup object routeName, err)]).
Proof.
  destruct (autoDetect_spec routeName object url enabled r) as (_ & H & _).
  cbv zeta in H.
  destruct (Nat.eqb (String.length url) 0 && enabled).
  - destruct H as (err & Hh & _). eexists. split; [exact Hh|]. right. by eexists.
  - destruct H as [Hh _]. exists []. rewrite app_nil_r. auto.
Qed.

Lemma kialiSettings_lookups (object : Unstructured) (r : State) :
  exists routes,
    history (snd (kialiSettings E object r)) = history r ++ routes /\
    kialiLookups object routes.
Proof.
  destruct (kialiSettings_run object r) as (r3 & Hrun & Hh3). cbv zeta in Hrun.
  rewrite Hrun. clear Hrun.
  match goal with
  | |- context [autoDetect E "jaeger" object ?u ?e ?s] =>
      destruct (autoDetect_lookup "jaeger" object u e s) as (jaeger & Hj & Hjs);
      destruct (autoDetect E "jaeger" object u e s) as [[jurl jen] r1]
  end.
  match goal with
  | |- context [autoDetect E "grafana" object ?u ?e ?s] =>
      destruct (autoDetect_lookup "grafana" object u e s) as (grafana & Hg & Hgs);
      destruct (autoDetect E "grafana" object u e s) as [[gurl gen] r2]
  end.
  simpl in *. exists (jaeger ++ grafana). split.
  - by rewrite Hh3, Hg, Hj, <- app_assoc.
  - by exists jaeger, grafana.
Qed.

Lemma kialiLookups_nil (object : Unstructured) : kialiLookups object [].
Proof. exists [], []. auto. Qed.

(** The calls of the Kiali patcher are lookups: they send no object. *)
Lemma kialiLookups_quiet (object : Unstructured) (routes : list Request) :
  kialiLookups object routes ->
  Forall (fun q => sentObject q = None) routes /\ Forall isApplyCall routes.
Proof.
  intros (jaeger & grafana & -> & [->|[e1 ->]] & [->|[e2 ->]]); simpl;
    split; repeat constructor.
Qed.

(** What [preprocessObject] asks of the cluster: the lookups of the Kiali
    patcher, for an object of kind Kiali, and nothing else. *)
Lemma preprocessObject_routes (o : Unstructured) (r : State) :
  exists routes,
    history (snd (preprocessObject E o r)) = history r ++ routes /\
    kialiLookups o routes /\
    (String.eqb (u_Kind o) "Kiali" = false -> routes = []).
Proof.
  unfold preprocessObject.
  destruct (String.eqb (u_Kind o) "Kiali").
  - unfold patchKialiConfig, bind, ret.
    destruct (kialiSettings_lookups o r) as (routes & Hh & Hroutes).
    destruct (kialiSettings E o r) as [s r1]. simpl in *.
    exists routes. by split_and!.
  - exists []. rewrite app_nil_r. split_and!; [|apply kialiLookups_nil|done].
    unfold liftWorld, ret.
    repeat match goal with
           | |- context [if ?b then _ else _] => destruct b
           end; simpl; try done.
    + by destruct (patchGrafanaConfig E o (Client r)) as [[o' e] w].
    + by destruct (patchPrometheusHtpasswd E o (Client r)) as [[o' e] w].
Qed.

End KialiRuns.

(** ** What [processObject] sends to the cluster *)

Section Stamping.

Context {E : Env}.

Local Abbreviation State := (ControlPlaneReconciler E).

Lemma keepsStamp_trans (o1 o2 o3 : Unstructured) :
  keepsStamp E o1 o2 -> keepsStamp E o2 o3 -> keepsStamp E o1 o3.
Proof.
  intros (H1 & H2 & H3) (K1 & K2 & K3). unfold keepsStamp.
  by rewrite K1, K2, K3.
Qed.

Lemma setOrFail_keepsStamp (Hhooks : hooksKeepStamp E) o v service field what :
  keepsStamp E o (fst (setOrFail E o v service field what)).
Proof.
  destruct Hhooks as (Hset & _). unfold setOrFail.
  specialize (Hset o v service field).
  by destruct (SetNestedField E o v _) as [o' [e|]].
Qed.

(** The four writes of the Kiali patcher leave the stamp alone. *)
Lemma writeKialiSettings_keepsStamp (Hhooks : hooksKeepStamp E) o s :
  keepsStamp E o (fst (writeKialiSettings E o s)).
Proof.
  unfold writeKialiSettings.
  repeat match goal with
         | |- context [setOrFail E ?x ?v ?service ?field ?what] =>
             let H := fresh "Hk" in
             pose proof (setOrFail_keepsStamp Hhooks x v service field what) as H;
             destruct (setOrFail E x v service field what) as [? [?|]];
             simpl in H
         end; simpl.
  all: repeat match goal with
              | H1 : keepsStamp E ?a ?b, H2 : keepsStamp E ?b ?c |- _ =>
                  pose proof (keepsStamp_trans _ _ _ H1 H2); clear H2
              end.
  all: assumption.
Qed.

(** The object patchers leave the stamp of the object alone. *)
Lemma preprocessObject_keepsStamp (Hhooks : hooksKeepStamp E) (o : Unstructured) (r : State) :
  keepsStamp E o (fst (fst (preprocessObject E o r))).
Proof.
  pose proof Hhooks as (_ & Hg & Hp & _).
  assert (Hid : keepsStamp E o o) by (by split_and!).
  unfold preprocessObject, patchKialiConfig, liftWorld, bind, ret.
  repeat match goal with
         | |- context [if ?b then _ else _] => destruct b
         end; simpl; try done.
  - destruct (kialiSettings E o r) as [s r1]. simpl.
    by apply writeKialiSettings_keepsStamp.
  - specialize (Hg o (Client r)). by destruct (patchGrafanaConfig E o (Client r)) as [[o' e] w].
  - specialize (Hp o (Client r)).
    by destruct (patchPrometheusHtpasswd E o (Client r)) as [[o' e] w].
Qed.

Lemma keepsStamp_stamped (r : State) (input o o' : Unstructured) :
  stamped r input o -> keepsStamp E o o' -> stamped r input o'.
Proof.
  intros (H1 & H2 & H3) (K1 & K2 & K3). unfold stamped. rewrite K1, K2, K3. done.
Qed.

(** The calls that [processObject] makes for an object that is not a List
    send stamped objects. *)
Lemma processObject_leaf_stamped (Hhooks : hooksKeepStamp E) a k n m o l an items err rr wh rp old ns (r : State) :
  String.eqb k "List" = false ->
  let obj := mkUnstructured a k n m o l an items err rr wh in
  let out := processObject E obj rp old ns r in
  exists new,
    history (snd out) = history r ++ new /\
    forall q sent, q ∈ new -> sentObject q = Some sent -> stamped r obj sent.
Proof.
  intros Hk obj out. subst out. simpl. rewrite Hk. fold obj.
  unfold bind, gets, modify, ret, logV2, logWith, logIfError, logError, logInfo, logWith,
    allocStatus, updateStatusAt, Get, Create, Apply, record, liftWorld,
    processNewObject, ObjectKeyFromObject, bind, modify, ret.
  cbn [id]. state_simpl.
  match goal with
  | |- context [preprocessObject E ?x _] => set (stampedObj := x)
  end.
  assert (Hst : stamped r obj stampedObj).
  { subst stampedObj. unfold stamped, SetAnnotation, SetLabel. simpl.
    rewrite !lookup_insert_eq. split_and!; try done.
    subst obj. simpl. by destruct (n =? smcp_Namespace (Instance r)). }
  clearbody stampedObj.
  destruct (FindResourceByKey (heap r) old (NewResourceKey E obj)) as [p|]; state_simpl.
  all: match goal with
  | |- context [preprocessObject E ?x ?s] =>
      pose proof (preprocessObject_keepsStamp Hhooks x s) as Hks;
      destruct (preprocessObject_routes x s) as (routes & Hh1 & Hroutes & _);
      apply kialiLookups_quiet in Hroutes as [Hquiet _];
      destruct (preprocessObject E x s) as [[o1 e1] r1]
  end; state_simpl.
  all: pose proof (proj2 (proj2 (proj2 Hhooks)) o1) as Hka;
    destruct (CreateApplyAnnotation E o1) as [o2 e2]; simpl in Hka.
  all: assert (Hst2 : stamped r obj o2)
    by (eapply keepsStamp_stamped; [eapply keepsStamp_stamped; eauto | eauto]).
  all: destruct e1 as [e1|]; state_simpl.
  all: repeat (state_simpl;
    match goal with
    | |- context [clientGet E ?a ?b ?w] => destruct (clientGet E a b w) as [[? ?] ?]
    | |- context [clientCreate E ?a ?w] => destruct (clientCreate E a w) as [? ?]
    | |- context [patchApply E ?a ?w] => destruct (patchApply E a w) as [? ?]
    | |- context [CreatePatch E ?a ?b] => destruct (CreatePatch E a b) as [? ?]
    | |- context [IsNotFound ?x] => destruct (IsNotFound x)
    | |- context [match ?x with _ => _ end] => is_var x; destruct x
    end).
  all: state_simpl; rewrite Hh1.
  all: eexists; (split; [rewrite <- ?app_assoc; try reflexivity;
                         symmetry; apply app_nil_r |]).
  all: intros q sent Hq Hsent.
  all: rewrite ?elem_of_app in Hq.
  all: repeat match goal with
              | H : _ \/ _ |- _ => destruct H as [H|H]
              end.
  all: try (rewrite Forall_forall in Hquiet; rewrite (Hquiet q) in Hsent by done;
            discriminate).
  all: repeat (apply elem_of_cons in Hq as [->|Hq]); try (by apply elem_of_nil in Hq).
  all: simpl in Hsent; try discriminate; inversion Hsent; subst; exact Hst2.
Qed.


Lemma stamped_context (r r' : State) (input o : Unstructured) :
  stampContext r' = stampContext r -> stamped r' input o -> stamped r input o.
Proof.
  unfold stampContext, stamped. intros Hctx. inversion Hctx as [[H1 H2 H3]].
  by rewrite H1, H2, H3.
Qed.

Lemma processObject_keeps_stampContext obj rp old ns (r : State) :
  stampContext (snd (processObject E obj rp old ns r)) = stampContext r.
Proof. apply (frames_processObject (R:=keeps stampContext)). Qed.

Lemma leaves_List a k n m o l an items rr wh :
  String.eqb k "List" = true ->
  leaves (mkUnstructured a k n m o l an items None rr wh) = flat_map leaves items.
Proof. intros Hk. simpl. by rewrite Hk. Qed.

(** X1.  Every object that [processObject] sends to the cluster, through
    [Create] or through a patch, is the stamped form of one of the objects
    it reconciles, the items of a List included: it carries the owner label
    with the namespace of the control plane and the generation annotation
    with [r.meshGeneration]; its owner references are [r.ownerRefs] when
    the rendered object is in the namespace of the control plane, and those
    of the rendered object otherwise.  The writes of the Kiali patcher
    under [spec.external_services], the two other object patchers and
    [CreateApplyAnnotation] are taken not to touch these three. *)
Theorem sent_objects_are_stamped (obj : Unstructured) :
  hooksKeepStamp E ->
  forall rp old ns (r : State),
    let out := processObject E obj rp old ns r in
    exists new,
      history (snd out) = history r ++ new /\
      forall q sent,
        q ∈ new -> sentObject q = Some sent ->
        exists input, input ∈ leaves obj /\ stamped r input sent.
Proof.
  intros Hhooks.
  induction obj as [a k n m o l an items err rr wh IH] using Unstructured_nested_ind.
  intros rp old ns r. cbv zeta.
  destruct (String.eqb k "List") eqn:Hk.
  - simpl processObject. rewrite Hk.
    unfold bind at 1, gets at 1. unfold bind at 1, modify at 1.
    set (r0 := setLog E _ r).
    assert (Hr0 : history r0 = history r /\ stampContext r0 = stampContext r)
      by (by subst r0).
    destruct Hr0 as [Hh0 Hc0]. clearbody r0.
    destruct err as [e|].
    + unfold bind, logError, logWith, modify, ret. state_simpl.
      exists []. rewrite app_nil_r. split; [done|].
      intros q sent Hq. by apply elem_of_nil in Hq.
    + rewrite (leaves_List _ _ _ _ _ _ _ _ _ _ Hk).
      match goal with
      | |- context [foldM E ?b items _] => set (body := b)
      end.
      assert (Hbody : forall rp1 ns1 errs1 item (r1 : State),
        body (rp1, ns1, errs1) item r1 =
          (let o := processObject E item rp1 old ns1 r1 in
           ((fst (fst (fst o)), snd (fst (fst o)), appendErr errs1 (snd (fst o))),
            snd o))).
      { intros. unfold body, bind, ret.
        by destruct (processObject E item rp1 old ns1 r1) as [[[? ?] ?] ?]. }
      assert (Hloop : forall acc (r1 : State),
        let out := foldM E body items acc r1 in
        exists new,
          history (snd out) = history r1 ++ new /\
          forall q sent,
            q ∈ new -> sentObject q = Some sent ->
            exists input, input ∈ flat_map leaves items /\ stamped r1 input sent).
      { clearbody body. clear -IH Hbody.
        induction IH as [|item items Hitem _ IHitems]; intros acc r1; cbv zeta.
        - rewrite foldM_nil. exists []. rewrite app_nil_r. split; [done|].
          intros q sent Hq. by apply elem_of_nil in Hq.
        - rewrite foldM_cons. destruct acc as [[rp1 ns1] errs1].
          rewrite Hbody. cbv zeta.
          destruct (Hitem rp1 old ns1 r1) as (new1 & Hn1 & Hs1). cbv zeta in *.
          pose proof (processObject_keeps_stampContext item rp1 old ns1 r1) as Hctx.
          destruct (processObject E item rp1 old ns1 r1) as [[[rp2 ns2] err2] r2].
          simpl in *.
          destruct (IHitems (rp2, ns2, appendErr errs1 err2) r2)
            as (new2 & Hn2 & Hs2).
          cbv zeta in *. exists (new1 ++ new2).
          split; [by rewrite Hn2, Hn1, app_assoc|].
          intros q sent Hq Hsent. apply elem_of_app in Hq as [Hq|Hq].
          + destruct (Hs1 q sent Hq Hsent) as (input & Hin & Hst).
            exists input. split; [apply elem_of_app; by left | done].
          + destruct (Hs2 q sent Hq Hsent) as (input & Hin & Hst).
            exists input. split; [apply elem_of_app; by right|].
            by apply (stamped_context r1 r2). }
      unfold bind at 1.
      destruct (Hloop (rp, ns, []) r0) as (new & Hn & Hs). cbv zeta in *.
      destruct (foldM E body items (rp, ns, []) r0) as [[[rp3 ns3] errs3] r3].
      unfold bind, modify, ret. state_simpl.
      exists new. split; [congruence|].
      intros q sent Hq Hsent. destruct (Hs q sent Hq Hsent) as (input & Hin & Hst).
      exists input. split; [done|]. by apply (stamped_context r r0).
  - destruct (processObject_leaf_stamped Hhooks a k n m o l an items err rr wh rp old ns r Hk)
      as (new & Hn & Hs).
    cbv zeta in *. exists new. split; [exact Hn|].
    intros q sent Hq Hsent. eexists. split; [|eapply Hs; eauto].
    simpl. rewrite Hk. apply elem_of_cons. by left.
Qed.
End Stamping.

(** The small cluster meets the assumption on the patchers: the fields
    under [spec.external_services] are not the generation annotation. *)
Lemma Fake_hooksKeepStamp (charts : list (string * list Manifest)) :
  hooksKeepStamp (Fake.env charts).
Proof.
  split_and!; try done.
  intros o v service field. unfold keepsStamp. simpl. split_and!; try done.
  apply lookup_insert_ne. discriminate.
Qed.


(** X1, witnessed: a List holds a ConfigMap of the control plane's
    namespace and a Service of another one; the cluster is empty and both
    are created. *)
Lemma sent_objects_are_stamped_witness :
  let E := Fake.env Scenario.mixedCharts in
  let out := processObject E Example.mixedList ∅ NewComponentStatus NewComponentStatus
               Scenario.mixedInstall in
  exists new,
    history (snd out) = history Scenario.mixedInstall ++ new /\
    forall q sent,
      q ∈ new -> sentObject q = Some sent ->
      exists input, input ∈ leaves Example.mixedList /\
                    stamped Scenario.mixedInstall input sent.
Proof.
  apply (@sent_objects_are_stamped (Fake.env Scenario.mixedCharts) Example.mixedList).
  apply Fake_hooksKeepStamp.
Defined.

(** ** One object that is not a List *)

(** Symbolic run of [processObject] on an object that is not a List, up to
    the call of [preprocessObject]; [Hk] says that the kind is not List. *)
Ltac run_object Hk :=
  simpl processObject; rewrite Hk;
  unfold logV2, logIfError, logError, logInfo, logWith, allocStatus, updateStatusAt,
    Get, Create, Apply, record, liftWorld, processNewObject, ObjectKeyFromObject,
    bind, gets, modify, ret;
  cbn [id]; state_simpl.

(** The case analysis along the answers of the collaborators of
    [processObject], once [preprocessObject] has been dealt with. *)
Ltac split_object_run E :=
  repeat (state_simpl;
    match goal with
    | |- context [CreateApplyAnnotation E ?a] =>
        destruct (CreateApplyAnnotation E a) as [? ?]
    | |- context [clientGet E ?a ?b ?w] => destruct (clientGet E a b w) as [[? ?] ?]
    | |- context [clientCreate E ?a ?w] => destruct (clientCreate E a w) as [? ?]
    | |- context [patchApply E ?a ?w] => destruct (patchApply E a w) as [? ?]
    | |- context [CreatePatch E ?a ?b] => destruct (CreatePatch E a b) as [? ?]
    | |- context [IsNotFound ?x] => destruct (IsNotFound x) eqn:?
    | |- context [match ?x with _ => _ end] => is_var x; destruct x
    end);
  state_simpl.

Section ObjectRuns.

Context {E : Env}.

Local Abbreviation State := (ControlPlaneReconciler E).

Lemma kialiLookups_namespace (o o' : Unstructured) (routes : list Request) :
  u_Namespace o = u_Namespace o' -> kialiLookups o routes -> kialiLookups o' routes.
Proof. unfold kialiLookups, routeLookup. by intros ->. Qed.


Lemma preprocessObject_heap (o : Unstructured) (r : State) :
  heap (snd (preprocessObject E o r)) = heap r.
Proof. apply (frames_preprocessObject (R:=keeps heap)). Qed.

(** X3.  An object that is not a List is tracked whatever becomes of it:
    its key is marked as processed and one status is appended to the new
    component status, also when preprocessing, the lookup or the write
    fails.  The status is the one that the prior component status records
    under the key, shared with it, or else a fresh one; no other status of
    the heap is touched. *)
Theorem object_is_tracked_whatever_happens
    (obj : Unstructured) (rp : gset ResourceKey) (old ns : ComponentStatus) (r : State) :
  String.eqb (u_Kind obj) "List" = false ->
  let key := NewResourceKey E obj in
  let out := processObject E obj rp old ns r in
  let status := default (length (heap r)) (FindResourceByKey (heap r) old key) in
  fst (fst (fst out)) = {[key]} ∪ rp /\
  snd (fst (fst out)) = cs_appendResource ns status /\
  (FindResourceByKey (heap r) old key = None ->
   length (heap (snd out)) = S (length (heap r))) /\
  (forall p, p <> status -> p < length (heap r) ->
             heap (snd out) !! p = heap r !! p).
Proof.
  intros Hk. destruct obj as [a k n m o l an items lerr rr wh]. simpl in Hk.
  cbv zeta. run_object Hk.
  match goal with
  | |- context [preprocessObject E ?x _] => generalize x; intros stampedObj
  end.
  match goal with
  | |- context [FindResourceByKey ?h ?s ?key] =>
      destruct (FindResourceByKey h s key) as [p|]
  end; state_simpl.
  all: match goal with
       | |- context [preprocessObject E ?x ?s] =>
           pose proof (preprocessObject_heap x s) as Hh;
           destruct (preprocessObject E x s) as [[o1 [e1|]] r1]
       end; state_simpl.
  all: split_object_run E.
  all: rewrite ?Hh; simpl.
  all: split_and!; try done.
  all: try (intros _; by rewrite ?length_insert, length_app, Nat.add_comm).
  all: intros p' Hne Hlt; rewrite ?list_lookup_insert_ne by done; try done.
  all: by apply lookup_app_l.
Qed.

(** X4.  The logger of the reconciler is the same after [processObject],
    [processManifests] and [processComponentManifests] as before, whatever
    path they take: the context that they add for a resource, a manifest or
    a component does not outlive them. *)
Theorem logger_is_restored :
  (forall obj rp old ns (r : State),
      Log (snd (processObject E obj rp old ns r)) = Log r) /\
  (forall ms old (r : State), Log (snd (processManifests E ms old r)) = Log r) /\
  (forall name (r : State), Log (snd (processComponentManifests E name r)) = Log r).
Proof.
  split_and!.
  - intros [a k n m o l an items lerr rr wh] rp old ns r.
    destruct (String.eqb k "List") eqn:Hk.
    + simpl processObject. rewrite Hk.
      unfold logError, logWith, bind, gets, modify, ret. state_simpl.
      destruct lerr as [e|]; [reflexivity|].
      by destruct (foldM E _ items _ _) as [[[rp1 ns1] errs1] r1].
    + run_object Hk.
      match goal with
      | |- context [preprocessObject E ?x _] => generalize x; intros stampedObj
      end.
      match goal with
      | |- context [FindResourceByKey ?h ?s ?key] =>
          destruct (FindResourceByKey h s key) as [p|]
      end; state_simpl.
      all: match goal with
           | |- context [preprocessObject E ?x ?s] =>
               destruct (preprocessObject E x s) as [[o1 [e1|]] r1]
           end; state_simpl.
      all: split_object_run E.
      all: reflexivity.
  - intros ms old r. by rewrite processManifests_passes.
  - intros name r. destruct (renderings r !! name) as [ms|] eqn:Hms.
    + rewrite (processComponentManifests_rendered name ms r Hms).
      destruct (enterComponent E name r) as [old0 rB].
      destruct (processManifests E ms old0 rB) as [[newStatus err] r2]. cbv zeta.
      by destruct (postProcessNewComponent E name _ r2) as [[e|] r3].
    + unfold processComponentManifests, logInfo, logWith, bind, gets, modify, ret.
      state_simpl. by rewrite Hms.
Qed.

(** X5.  A List that [ToList] cannot convert makes [processObject] return
    the conversion error: nothing is asked of the cluster, no key is
    marked, no status is added or changed.  A List without items returns
    nil, likewise without a call: the List itself is never looked up nor
    tracked. *)
Theorem list_without_reconciled_items
    (obj : Unstructured) (rp : gset ResourceKey) (old ns : ComponentStatus) (r : State) :
  String.eqb (u_Kind obj) "List" = true ->
  let out := processObject E obj rp old ns r in
  (forall e, u_ToListErr obj = Some e -> fst out = (rp, ns, Some e)) /\
  (u_ToListErr obj = None -> u_Items obj = [] -> fst out = (rp, ns, None)) /\
  (u_ToListErr obj <> None \/ u_Items obj = [] ->
   history (snd out) = history r /\ heap (snd out) = heap r /\
   Client (snd out) = Client r).
Proof.
  intros Hk. destruct obj as [a k n m o l an items lerr rr wh]. simpl in *.
  rewrite Hk. unfold logError, logWith, bind, gets, modify, ret. state_simpl.
  split_and!.
  - by intros e ->.
  - by intros -> ->.
  - intros [Herr| ->].
    + by destruct lerr.
    + by destruct lerr.
Qed.

Lemma deref_insert (h : list StatusType) (p : nat) (x : StatusType) :
  p < length h -> deref (<[p := x]> h) p = x.
Proof. intros Hp. unfold deref. by rewrite list_lookup_insert_eq. Qed.

Lemma deref_fresh (h : list StatusType) (x : StatusType) :
  deref (h ++ [x]) (length h) = x.
Proof.
  unfold deref. rewrite lookup_app_r by lia. by rewrite Nat.sub_diag.
Qed.

(** X21.  The status of an object that is not a List, after
    [processObject]: the status it had, or a fresh one under its key,
    renewed by [updateReconcileStatus] with the error that is returned;
    before that, a creation that succeeded has set the observed generation
    to 1 and a patch has removed the Reconciled condition.  The creation or
    the patch is the write that follows the lookup of the object, after the
    lookups of the Kiali patcher, if any.  The pointers of the prior
    component status are taken to be valid. *)
Theorem object_status_records_the_outcome
    (obj : Unstructured) (rp : gset ResourceKey) (old ns : ComponentStatus) (r : State) :
  String.eqb (u_Kind obj) "List" = false ->
  (forall p, FindResourceByKey (heap r) old (NewResourceKey E obj) = Some p ->
             p < length (heap r)) ->
  let key := NewResourceKey E obj in
  let out := processObject E obj rp old ns r in
  let status := default (length (heap r)) (FindResourceByKey (heap r) old key) in
  let st :=
    match FindResourceByKey (heap r) old key with
    | Some p => deref (heap r) p
    | None => setResource NewStatus key
    end in
  exists routes new,
    history (snd out) = history r ++ routes ++ new /\
    kialiLookups obj routes /\
    (String.eqb (u_Kind obj) "Kiali" = false -> routes = []) /\
    objectProtocol E obj new (snd (fst out)) /\
    deref (heap (snd out)) status
    = updateReconcileStatus E (prepared st new) (snd (fst out)).
Proof.
  intros Hk Hvalid. destruct obj as [a k n m o l an items lerr rr wh]. simpl in Hk.
  cbv zeta. run_object Hk.
  match goal with
  | |- context [preprocessObject E ?x _] => set (stampedObj := x)
  end.
  assert (Hns : u_Namespace stampedObj = n /\ u_Kind stampedObj = k)
    by (subst stampedObj; simpl; by destruct (n =? smcp_Namespace (Instance r))).
  destruct Hns as [Hns Hkind]. clearbody stampedObj.
  match goal with
  | |- context [FindResourceByKey ?h ?s ?key] =>
      destruct (FindResourceByKey h s key) as [p|]
  end; state_simpl.
  all: match goal with
       | |- context [preprocessObject E ?x ?s] =>
           destruct (preprocessObject_routes x s) as (routes & Hh & Hroutes & Hnone);
           pose proof (preprocessObject_heap x s) as Hheap;
           destruct (preprocessObject E x s) as [[o1 [e1|]] r1]
       end; state_simpl.
  all: rewrite Hkind in Hnone.
  all: apply (kialiLookups_namespace _ (mkUnstructured a k n m o l an items lerr rr wh))
         in Hroutes; [|exact Hns].
  all: try (specialize (Hvalid p eq_refl)).
  all: split_object_run E.
  all: rewrite Hh, Hheap; state_simpl.
  all: exists routes; eexists.
  all: (split; [rewrite <- ?app_assoc; try reflexivity; by rewrite app_nil_r |]).
  all: split_and!; [exact Hroutes | exact Hnone | |].
  all: try (unfold objectProtocol, objectLookup; simpl; done).
  all: simpl prepared; simpl default.
  all: rewrite ?deref_insert by (rewrite ?length_insert, ?length_app; simpl; lia).
  all: rewrite ?deref_fresh; try reflexivity.
Qed.

End ObjectRuns.

(** ** The pass over the rendered objects, as a whole *)

Section Tracking.

Context {E : Env}.

Local Abbreviation State := (ControlPlaneReconciler E).

Lemma tracks_nil (acc acc' : Progress) (r r' : State) :
  fst acc' = fst acc -> history r' = history r ->
  tracks [] (acc, r) (acc', r').
Proof.
  intros Hacc Hh. unfold tracks.
  destruct acc as [[rp ns] errs], acc' as [[rp' ns'] errs']. simpl in *.
  inversion Hacc; subst. split_and!.
  - by rewrite union_empty_l_L.
  - done.
  - exists []. by rewrite app_nil_r.
  - exists []. by rewrite app_nil_r.
Qed.

Lemma tracks_app (l1 l2 : list Unstructured) (a b c : Progress * State) :
  tracks l1 a b -> tracks l2 b c -> tracks (l1 ++ l2) a c.
Proof.
  intros (Hrp1 & Hst1 & (ad1 & Hres1 & Hlen1) & (n1 & Hh1 & Hq1))
         (Hrp2 & Hst2 & (ad2 & Hres2 & Hlen2) & (n2 & Hh2 & Hq2)).
  unfold tracks. split_and!.
  - rewrite Hrp2, Hrp1, map_app, list_to_set_app_L.
    apply set_eq. intros x. rewrite !elem_of_union. tauto.
  - congruence.
  - exists (ad1 ++ ad2). rewrite Hres2, Hres1, !length_app, <- app_assoc. auto.
  - exists (n1 ++ n2). rewrite Hh2, Hh1, <- app_assoc. split; [done|].
    by apply Forall_app.
Qed.

(** One object that is not a List leaves the traces of one object. *)
Lemma processObject_tracks_one (obj : Unstructured) rp old ns (r : State) :
  String.eqb (u_Kind obj) "List" = false ->
  forall errs errs',
    tracks [obj] ((rp, ns, errs), r)
      (let '((rp', ns', _), r') := processObject E obj rp old ns r in
       ((rp', ns', errs'), r')).
Proof.
  intros Hk errs errs'. destruct obj as [a k n m o l an items lerr rr wh].
  simpl in Hk. unfold tracks. run_object Hk.
  match goal with
  | |- context [preprocessObject E ?x _] => generalize x; intros stampedObj
  end.
  match goal with
  | |- context [FindResourceByKey ?h ?s ?key] =>
      destruct (FindResourceByKey h s key) as [p|]
  end; state_simpl.
  all: match goal with
       | |- context [preprocessObject E ?x ?s] =>
           destruct (preprocessObject_routes x s) as (routes & Hh & Hroutes & _);
           apply kialiLookups_quiet in Hroutes as [_ Hroutes];
           destruct (preprocessObject E x s) as [[o1 [e1|]] r1]
       end; state_simpl.
  all: split_object_run E.
  all: rewrite Hh; state_simpl; simpl.
  all: split_and!;
    [by rewrite union_empty_r_L | done | eexists [_]; split; reflexivity | ].
  all: eexists; (split; [rewrite <- ?app_assoc; try reflexivity;
                         symmetry; apply app_nil_r |]).
  all: rewrite ?Forall_app; repeat split; try exact Hroutes.
  all: repeat constructor.
Qed.

(** [processObject] leaves the traces of the objects it reconciles. *)
Lemma processObject_tracks (obj : Unstructured) :
  forall rp old ns (r : State) errs errs',
    tracks (leaves obj) ((rp, ns, errs), r)
      (let '((rp', ns', _), r') := processObject E obj rp old ns r in
       ((rp', ns', errs'), r')).
Proof.
  induction obj as [a k n m o l an items err rr wh IH] using Unstructured_nested_ind.
  intros rp old ns r errs errs'.
  destruct (String.eqb k "List") eqn:Hk.
  - simpl processObject. simpl leaves. rewrite Hk.
    unfold bind at 1, gets at 1. unfold bind at 1, modify at 1.
    set (r0 := setLog E _ r).
    assert (Hh0 : history r0 = history r) by (by subst r0). clearbody r0.
    destruct err as [e|].
    + unfold bind, logError, logWith, modify, ret. state_simpl.
      by apply tracks_nil.
    + match goal with
      | |- context [foldM E ?b items _] => set (body := b)
      end.
      assert (Hbody : forall rp1 ns1 errs1 item (r1 : State),
        body (rp1, ns1, errs1) item r1 =
          (let '((rp', ns', err), r') := processObject E item rp1 old ns1 r1 in
           ((rp', ns', appendErr errs1 err), r'))).
      { intros. unfold body, bind, ret.
        by destruct (processObject E item rp1 old ns1 r1) as [[[? ?] ?] ?]. }
      assert (Hloop : forall acc (r1 : State),
        tracks (flat_map leaves items) (acc, r1) (foldM E body items acc r1)).
      { clearbody body. clear -IH Hbody.
        induction IH as [|item items Hitem _ IHitems]; intros acc r1.
        - rewrite foldM_nil. by apply tracks_nil.
        - rewrite foldM_cons. destruct acc as [[rp1 ns1] errs1].
          rewrite Hbody. specialize (Hitem rp1 old ns1 r1 errs1).
          destruct (processObject E item rp1 old ns1 r1) as [[[rp2 ns2] err2] r2].
          simpl fst; simpl snd. simpl flat_map.
          eapply tracks_app; [apply (Hitem (appendErr errs1 err2)) | apply IHitems]. }
      unfold bind at 1.
      specialize (Hloop (rp, ns, []) r0).
      destruct (foldM E body items (rp, ns, []) r0) as [[[rp3 ns3] errs3] r3].
      unfold bind, modify, ret. state_simpl.
      apply (tracks_app [] (flat_map leaves items) _ ((rp, ns, []), r0));
        [by apply tracks_nil|].
      rewrite <- (app_nil_r (flat_map leaves items)).
      apply (tracks_app _ [] _ ((rp3, ns3, errs3), r3)); [exact Hloop|].
      by apply tracks_nil.
  - pose proof (processObject_tracks_one
                  (mkUnstructured a k n m o l an items err rr wh) rp old ns r Hk
                  errs errs') as H.
    simpl leaves. rewrite Hk. exact H.
Qed.

Lemma foldM_tracks {A} (f : A -> list Unstructured) (body : Progress -> A -> M E Progress) :
  (forall acc x (r : State), tracks (f x) (acc, r) (body acc x r)) ->
  forall l acc (r : State), tracks (flat_map f l) (acc, r) (foldM E body l acc r).
Proof.
  intros Hbody l. induction l as [|x l IH]; intros acc r.
  - rewrite foldM_nil. by apply tracks_nil.
  - rewrite foldM_cons. simpl flat_map.
    eapply tracks_app; [apply Hbody|].
    destruct (body acc x r) as [acc1 r1]. apply IH.
Qed.

Lemma processRaw_tracks old acc raw (r : State) :
  tracks (decoded E raw) (acc, r) (processRaw E old acc raw r).
Proof.
  unfold processRaw, decoded. destruct acc as [[rp ns] errs].
  destruct (YAMLToJSON E raw) as [rawJSON [e1|]]; [by apply tracks_nil|].
  destruct (Decode E rawJSON) as [obj [e2|]]; [by apply tracks_nil|].
  unfold bind, ret.
  pose proof (processObject_tracks obj rp old ns r errs) as H.
  destruct (processObject E obj rp old ns r) as [[[rp1 ns1] err] r1]. apply H.
Qed.

Lemma processManifest_tracks origLogger old acc (m : Manifest) (r : State) :
  tracks (renderedObjects E [m]) (acc, r) (processManifest E origLogger old acc m r).
Proof.
  unfold renderedObjects, processManifest, logV2, logWith, bind, modify, ret.
  simpl flat_map. rewrite app_nil_r.
  destruct (HasSuffix (m_Name m) ".yaml"); state_simpl.
  - match goal with
    | |- tracks ?l _ (foldM E ?b ?docs ?a ?s) =>
        apply (tracks_app [] l _ (a, s)); [by apply tracks_nil|]
    end.
    apply foldM_tracks. intros. apply processRaw_tracks.
  - by apply tracks_nil.
Qed.

Lemma processManifests_tracks origLogger old (ms : list Manifest) acc (r : State) :
  tracks (renderedObjects E ms) (acc, r)
    (foldM E (processManifest E origLogger old) ms acc r).
Proof.
  apply (foldM_tracks
           (fun m => if HasSuffix (m_Name m) ".yaml"
                     then flat_map (decoded E) (SplitManifests E (m_Content m))
                     else [])).
  intros acc1 m r1.
  pose proof (processManifest_tracks origLogger old acc1 m r1) as H.
  unfold renderedObjects in H. simpl flat_map in H. by rewrite app_nil_r in H.
Qed.

(** The deletion loop asks for deletions only, each of the object of a key
    that was not processed, and carries one status per deletion. *)
Lemma deletions_target origLogger rp (l : list ptr) :
  forall ns errs (r : State),
    let out := foldM E (deleteUnprocessed E origLogger rp) l (ns, errs) r in
    exists new,
      history (snd out) = history r ++ new /\
      (forall q, q ∈ new ->
         exists key, fst q = CallDelete (ToUnstructured E key) /\ key ∉ rp) /\
      length (cs_Resources (fst (fst out))) = length (cs_Resources ns) + length new.
Proof.
  induction l as [|p l IH]; intros ns errs r; cbv zeta.
  - rewrite foldM_nil. exists []. simpl. rewrite app_nil_r. split_and!; [done| |lia].
    intros q Hq. by apply elem_of_nil in Hq.
  - rewrite foldM_cons.
    pose proof (deleteUnprocessed_step origLogger rp ns errs p r) as Hstep.
    cbv zeta in Hstep.
    destruct (deleteUnprocessed E origLogger rp (ns, errs) p r) as [[ns1 errs1] r1].
    simpl in Hstep. simpl fst; simpl snd. destruct Hstep as [_ Hstep].
    destruct (IH ns1 errs1 r1) as (new & Hh & Hq & Hlen). cbv zeta in *.
    destruct (prunable rp (heap r) p) eqn:Hp.
    + destruct Hstep as (err & Hres1 & Hh1 & _).
      eexists (_ :: new). split_and!.
      * rewrite Hh, Hh1, <- app_assoc. reflexivity.
      * intros q Hin. apply elem_of_cons in Hin as [->|Hin]; [|by apply Hq].
        eexists. split; [reflexivity|].
        unfold prunable in Hp. apply andb_true_iff in Hp as [Hp _].
        by apply negb_true_iff, bool_decide_eq_false in Hp.
      * rewrite Hlen, Hres1, length_app. simpl. lia.
    + destruct Hstep as (-> & _ & Hh1 & _).
      exists new. split_and!; [congruence | exact Hq | exact Hlen].
Qed.

(** X6.  [processManifests] first asks the cluster for lookups, creations
    and patches only, then for deletions only.  Every deletion is of the
    object of a key that no rendered object has: an object that is rendered
    in this pass is not deleted by it.  The new component status holds one
    status per rendered object, the items of Lists included, and then one
    per deletion asked for. *)
Theorem rendered_objects_are_not_deleted
    (ms : list Manifest) (old : ComponentStatus) (r : State) :
  let out := processManifests E ms old r in
  exists applied deleted,
    history (snd out) = history r ++ applied ++ deleted /\
    Forall isApplyCall applied /\
    (forall q, q ∈ deleted ->
       exists key,
         fst q = CallDelete (ToUnstructured E key) /\
         forall input, input ∈ renderedObjects E ms -> key <> NewResourceKey E input) /\
    length (cs_Resources (fst (fst out)))
    = length (renderedObjects E ms) + length deleted.
Proof.
  cbv zeta. rewrite processManifests_passes. cbv zeta.
  destruct (processManifests_tracks (Log r) old ms (∅, initialStatus old, []) r)
    as (Hrp & _ & (added & Hres & Hlen) & (applied & Hh & Happlied)).
  destruct (foldM E (processManifest E (Log r) old) ms _ r) as [[[rp ns1] errs1] r1].
  simpl in Hrp, Hres, Hh. state_simpl.
  destruct (deletions_target (Log r) rp (rev (cs_Resources old)) ns1 errs1 r1)
    as (deleted & Hh2 & Hq & Hlen2).
  cbv zeta in *.
  destruct (foldM E (deleteUnprocessed E (Log r) rp) _ (ns1, errs1) r1)
    as [[ns2 errs2] r2].
  state_simpl. exists applied, deleted. split_and!.
  - by rewrite Hh2, Hh, app_assoc.
  - exact Happlied.
  - intros q Hin. destruct (Hq q Hin) as (key & Hcall & Hnin).
    exists key. split; [exact Hcall|]. intros input Hinput ->. apply Hnin.
    rewrite Hrp. apply elem_of_union. left. apply elem_of_list_to_set.
    apply list_elem_of_In, in_map. by apply list_elem_of_In.
  - assert (Hl : length (cs_Resources ns2) = length (renderedObjects E ms) + length deleted)
      by (rewrite Hlen2, Hres; simpl; lia).
    by destruct (0 <? length ms)%nat.
Qed.

End Tracking.

(** ** The answers of the readiness hooks *)

Section Readiness.

Context {E : Env}.

Local Abbreviation State := (ControlPlaneReconciler E).

(** X7.  [waitForDeployment] fetches the object once, by namespace and
    name.  When the fetch fails, with not-found or anything else, it
    answers with an error that is not a [ComponentNotReadyError], so that
    [handleError] returns it instead of requeueing; the branch for an
    unknown deployment is never taken.  When the fetch succeeds it answers
    nil if the fetched object reports a ready replica, and
    [ComponentNotReadyError] otherwise. *)
Theorem waitForDeployment_answers (object : Unstructured) (r : State) :
  let got := clientGet E {| ok_Namespace := u_Namespace object; ok_Name := u_Name object |}
               object (Client r) in
  let out := waitForDeployment E object r in
  history (snd out) = history r ++ [(deploymentLookup object, snd (fst got))] /\
  Client (snd out) = snd got /\
  match snd (fst got) with
  | Some e =>
      fst out = Some (errorString ("error getting " +:+ u_Kind object +:+ " "
                                     +:+ u_Name object +:+ ": " +:+ Error e)) /\
      forall r0 : State, fst (handleError E (fst out) r0) = (emptyResult, fst out)
  | None =>
      fst out = if (0 <? default 0 (u_readyReplicas (fst (fst got))))%Z then None
                else Some (ComponentNotReadyError "no replica is ready")
  end.
Proof.
  cbv zeta.
  unfold waitForDeployment, deploymentLookup, Get, logInfo, logError, logWith, record,
    liftWorld, gets, modify, bind, ret.
  state_simpl.
  destruct (clientGet E _ object (Client r)) as [[obj [e|]] w]; state_simpl.
  - split_and!; try reflexivity. intros r0. by rewrite handleError_result.
  - change (IsNotFound None) with false. cbv iota.
    by destruct (0 <? default 0 (u_readyReplicas obj))%Z.
Qed.

Lemma existsb_caBundleMissing (webhooks : list (option string)) :
  existsb caBundleMissing webhooks = false <-> bundlesSet webhooks.
Proof.
  unfold bundlesSet. induction webhooks as [|w l IH]; simpl.
  - split; [constructor | done].
  - rewrite orb_false_iff, IH, Forall_cons. apply and_iff_compat_r.
    destruct w as [b|]; simpl.
    + destruct b as [|c b]; simpl.
      * split; [done | intros (b' & Hb & Hne); by inversion Hb; subst].
      * split; [intros _; by eexists | done].
    + split; [done | intros (b' & Hb & _); done].
Qed.

(** X8.  [waitForWebhookCABundleInitialization] fetches the object once,
    by name alone.  When the fetch fails it answers with an error that is
    not a [ComponentNotReadyError].  When the fetch succeeds it answers nil
    exactly when the fetched object lists no webhook or every webhook it
    lists has a CA bundle that is not empty, and [ComponentNotReadyError]
    otherwise. *)
Theorem webhook_bundle_answers (object : Unstructured) (r : State) :
  let got := clientGet E {| ok_Namespace := ""; ok_Name := u_Name object |}
               object (Client r) in
  let out := waitForWebhookCABundleInitialization E object r in
  history (snd out) = history r ++ [(webhookLookup object, snd (fst got))] /\
  Client (snd out) = snd got /\
  match snd (fst got) with
  | Some e =>
      fst out = Some (errorString ("error getting " +:+ u_Kind object +:+ " "
                                     +:+ u_Name object +:+ ": " +:+ Error e))
  | None =>
      (fst out = None <-> bundlesSet (default [] (u_webhooks (fst (fst got))))) /\
      (fst out = None \/
       fst out = Some (ComponentNotReadyError
                         ("caBundle in " +:+ u_Kind object +:+ " " +:+ u_Name object
                            +:+ " not set")))
  end.
Proof.
  cbv zeta.
  unfold waitForWebhookCABundleInitialization, webhookLookup, Get, logInfo, logError,
    logWith, record, liftWorld, gets, modify, bind, ret.
  state_simpl.
  destruct (clientGet E _ object (Client r)) as [[obj [e|]] w]; state_simpl.
  - by split_and!.
  - change (IsNotFound None) with false. cbv iota.
    destruct (u_webhooks obj) as [whs|]; simpl.
    + pose proof (existsb_caBundleMissing whs) as Hb.
      destruct (existsb caBundleMissing whs); simpl; split_and!; try done; auto.
      * split; [done|]. intros H. apply Hb in H. done.
      * split; [intros _; by apply Hb | done].
    + split_and!; try done; auto. split; [intros _; constructor | done].
Qed.

Lemma waitForDeployment_history (o : Unstructured) (r : State) :
  let out := waitForDeployment E o r in
  heap (snd out) = heap r /\
  exists err,
    history (snd out) = history r ++ [(deploymentLookup o, err)] /\
    (fst out = None -> err = None).
Proof.
  unfold waitForDeployment, Get, logInfo, logError, logWith,
    record, liftWorld, gets, modify, bind, ret, deploymentLookup.
  state_simpl.
  destruct (clientGet E _ o (Client r)) as [[obj [e|]] w]; state_simpl.
  - split; [reflexivity|]. eexists. split; [reflexivity | discriminate].
  - change (IsNotFound None) with false. cbv iota.
    destruct (0 <? default 0 (u_readyReplicas obj))%Z;
      state_simpl; (split; [reflexivity | eexists; split; reflexivity]).
Qed.

(** Whatever a run of [forInstalled] asks of the cluster is asked by
    [wait] for a status of the list whose Installed condition is True. *)
Lemma forInstalled_only (wait : Unstructured -> M E (option error))
    (Q : Unstructured -> Request -> Prop) :
  (forall o (r : State),
      heap (snd (wait o r)) = heap r /\
      exists new,
        history (snd (wait o r)) = history r ++ new /\
        forall q, q ∈ new -> Q o q) ->
  forall (statuses : list ptr) (r : State),
    let out := forInstalled E statuses wait r in
    exists new,
      history (snd out) = history r ++ new /\
      forall q, q ∈ new ->
        exists p, p ∈ statuses /\ installedTrue (deref (heap r) p) = true /\
                  Q (ToUnstructured E (st_Resource (deref (heap r) p))) q.
Proof.
  intros Hwait statuses. unfold forInstalled.
  match goal with
  | |- context [forUntilError E ?b statuses tt] => set (body := b)
  end.
  assert (Hbody : forall s (r : State),
    body tt s r =
      if installedTrue (deref (heap r) s)
      then ((tt, fst (wait (ToUnstructured E (st_Resource (deref (heap r) s))) r)),
            snd (wait (ToUnstructured E (st_Resource (deref (heap r) s))) r))
      else ((tt, None), r)).
  { intros s r. unfold body, bind, readStatus, gets, ret.
    destruct (installedTrue (deref (heap r) s)); [|reflexivity].
    by destruct (wait _ r). }
  assert (Hloop : forall (r : State),
    let out := forUntilError E body statuses tt r in
    exists new,
      history (snd out) = history r ++ new /\
      forall q, q ∈ new ->
        exists p, p ∈ statuses /\ installedTrue (deref (heap r) p) = true /\
                  Q (ToUnstructured E (st_Resource (deref (heap r) p))) q).
  { clearbody body.
    induction statuses as [|s statuses IH]; intros r; cbv zeta.
    - rewrite forUntilError_nil. simpl. exists []. rewrite app_nil_r.
      split; [reflexivity|]. intros q Hq. by apply elem_of_nil in Hq.
    - rewrite forUntilError_cons, Hbody.
      destruct (installedTrue (deref (heap r) s)) eqn:Hs.
      + destruct (Hwait (ToUnstructured E (st_Resource (deref (heap r) s))) r)
          as [Hh (new1 & Hn1 & Hq1)].
        assert (Hfirst : forall q, q ∈ new1 ->
                  exists p, p ∈ s :: statuses /\
                            installedTrue (deref (heap r) p) = true /\
                            Q (ToUnstructured E (st_Resource (deref (heap r) p))) q).
        { intros q Hq. exists s. split_and!; [apply elem_of_cons; by left | done | auto]. }
        destruct (wait _ r) as [[e|] r1]; simpl in *.
        * exists new1. split; [exact Hn1 | exact Hfirst].
        * destruct (IH r1) as (new2 & Hn2 & Hq2). cbv zeta in *.
          exists (new1 ++ new2). split; [by rewrite Hn2, Hn1, app_assoc|].
          intros q Hq. apply elem_of_app in Hq as [Hq|Hq]; [by apply Hfirst|].
          destruct (Hq2 q Hq) as (p & Hp & Hinst & HQ). rewrite Hh in *.
          exists p. split_and!; [apply elem_of_cons; by right | done | done].
      + destruct (IH r) as (new2 & Hn2 & Hq2). cbv zeta in *.
        exists new2. split; [exact Hn2|].
        intros q Hq. destruct (Hq2 q Hq) as (p & Hp & Hinst & HQ).
        exists p. split_and!; [apply elem_of_cons; by right | done | done]. }
  intros r. specialize (Hloop r). cbv zeta in *.
  unfold bind, ret.
  destruct (forUntilError E body statuses tt r) as [[[] err] r1]. simpl in *.
  exact Hloop.
Qed.

(** The check of the installed workloads of one kind. *)
Lemma forInstalled_kind (status : ComponentStatus) (kind : string) (h : list StatusType)
    (r : State) :
  heap r = h ->
  let out := forInstalled E (FindResourcesOfKind E h status kind) (waitForDeployment E) r in
  heap (snd out) = h /\
  exists new,
    history (snd out) = history r ++ new /\
    (forall q, q ∈ new ->
       exists p, p ∈ cs_Resources status /\ installedTrue (deref h p) = true /\
                 KeyKind E (st_Resource (deref h p)) = kind /\
                 fst q = deploymentLookup (ToUnstructured E (st_Resource (deref h p)))) /\
    (fst out = None ->
     forall p, p ∈ cs_Resources status -> installedTrue (deref h p) = true ->
               KeyKind E (st_Resource (deref h p)) = kind ->
               (deploymentLookup (ToUnstructured E (st_Resource (deref h p))), None) ∈ new).
Proof.
  intros <-. cbv zeta.
  set (statuses := FindResourcesOfKind E (heap r) status kind).
  assert (Hmem : forall p, p ∈ statuses <->
            p ∈ cs_Resources status /\ KeyKind E (st_Resource (deref (heap r) p)) = kind).
  { intros p. subst statuses. unfold FindResourcesOfKind.
    rewrite !list_elem_of_In, filter_In. apply and_iff_compat_l.
    split; [apply String.eqb_eq | intros ->; apply String.eqb_refl]. }
  destruct (forInstalled_nil (waitForDeployment E)
              (fun o q => q = (deploymentLookup o, None))) with
    (statuses := statuses) (r := r) as [Hh (new & Hn & Hnil)].
  { intros o r0. destruct (waitForDeployment_history o r0) as [Hh (err & Hhist & Herr)].
    split; [exact Hh|]. exists [(deploymentLookup o, err)].
    split; [exact Hhist|]. intros Hnone. rewrite (Herr Hnone).
    eexists. split; [apply elem_of_cons; by left | reflexivity]. }
  destruct (forInstalled_only (waitForDeployment E)
              (fun o q => fst q = deploymentLookup o)) with
    (statuses := statuses) (r := r) as (new' & Hn' & Honly).
  { intros o r0. destruct (waitForDeployment_history o r0) as [Hh0 (err & Hhist & _)].
    split; [exact Hh0|]. exists [(deploymentLookup o, err)].
    split; [exact Hhist|]. intros q Hq. apply elem_of_cons in Hq as [->|Hq]; [done|].
    by apply elem_of_nil in Hq. }
  cbv zeta in *. rewrite Hn in Hn'. apply app_inv_head in Hn'. subst new'.
  split; [exact Hh|]. exists new. split_and!; [exact Hn | |].
  - intros q Hq. destruct (Honly q Hq) as (p & Hp & Hinst & Hcall).
    apply Hmem in Hp as [Hp Hkind]. by exists p.
  - intros Hnone p Hp Hinst Hkind.
    destruct (Hnil Hnone p) as (q & Hq & ->); [by apply Hmem | done | done].
Qed.

(** X9.  For a component other than galley and the sidecar injector the
    hook is the check of the workloads.  It fetches nothing but workloads
    that the component status records as installed: StatefulSets,
    Deployments and DeploymentConfigs.  When it answers nil, every such
    workload has been fetched, without error.  It changes no status. *)
Theorem default_hook_fetches_installed_workloads
    (name : string) (status : ComponentStatus) (r : State) :
  name <> "istio/charts/galley" ->
  name <> "istio/charts/sidecarInjectorWebhook" ->
  let out := postProcessNewComponent E name status r in
  let key p := st_Resource (deref (heap r) p) in
  out = waitForDeployments E status r /\
  heap (snd out) = heap r /\
  exists new,
    history (snd out) = history r ++ new /\
    (forall q, q ∈ new ->
       exists p, p ∈ cs_Resources status /\ installedTrue (deref (heap r) p) = true /\
                 KeyKind E (key p) ∈ workloadKinds /\
                 fst q = deploymentLookup (ToUnstructured E (key p))) /\
    (fst out = None ->
     forall p, p ∈ cs_Resources status -> installedTrue (deref (heap r) p) = true ->
               KeyKind E (key p) ∈ workloadKinds ->
               (deploymentLookup (ToUnstructured E (key p)), None) ∈ new).
Proof.
  intros Hg Hs. cbv zeta.
  assert (Hout : postProcessNewComponent E name status r = waitForDeployments E status r).
  { unfold postProcessNewComponent.
    apply String.eqb_neq in Hg, Hs. rewrite Hg, Hs. unfold bind, ret.
    by destruct (waitForDeployments E status r) as [[e|] r1]. }
  rewrite Hout. split; [reflexivity|]. clear Hout.
  assert (Hrun : waitForDeployments E status r =
    (let o1 := forInstalled E (FindResourcesOfKind E (heap r) status "StatefulSet")
                 (waitForDeployment E) r in
     match fst o1 with
     | Some e => (Some e, snd o1)
     | None =>
         let o2 := forInstalled E
                     (FindResourcesOfKind E (heap (snd o1)) status "Deployment")
                     (waitForDeployment E) (snd o1) in
         match fst o2 with
         | Some e => (Some e, snd o2)
         | None =>
             let o3 := forInstalled E
                         (FindResourcesOfKind E (heap (snd o2)) status "DeploymentConfig")
                         (waitForDeployment E) (snd o2) in
             match fst o3 with
             | Some e => (Some e, snd o3)
             | None => (None, snd o3)
             end
         end
     end)).
  { unfold waitForDeployments, bind, gets, ret. cbv zeta.
    destruct (forInstalled E _ (waitForDeployment E) r) as [[e1|] r1]; [reflexivity|].
    simpl.
    destruct (forInstalled E _ (waitForDeployment E) r1) as [[e2|] r2]; [reflexivity|].
    simpl.
    by destruct (forInstalled E _ (waitForDeployment E) r2) as [[e3|] r3]. }
  rewrite Hrun. clear Hrun. cbv zeta. unfold workloadKinds.
  destruct (forInstalled_kind status "StatefulSet" (heap r) r eq_refl)
    as [Hh1 (n1 & Hn1 & Ho1 & Hnil1)].
  cbv zeta in *.
  destruct (forInstalled E _ (waitForDeployment E) r) as [[e1|] r1]; simpl in *.
  { split; [exact Hh1|]. exists n1. split_and!; [done| |done].
    intros q Hq. destruct (Ho1 q Hq) as (p & ? & ? & Hk & ?). exists p.
    rewrite Hk. split_and!; try done. apply elem_of_cons. by left. }
  rewrite Hh1.
  destruct (forInstalled_kind status "Deployment" (heap r) r1 Hh1)
    as [Hh2 (n2 & Hn2 & Ho2 & Hnil2)].
  cbv zeta in *.
  destruct (forInstalled E _ (waitForDeployment E) r1) as [[e2|] r2]; simpl in *.
  { split; [exact Hh2|]. exists (n1 ++ n2).
    split_and!; [by rewrite Hn2, Hn1, app_assoc| |done].
    intros q Hq. apply elem_of_app in Hq as [Hq|Hq].
    - destruct (Ho1 q Hq) as (p & ? & ? & Hk & ?). exists p.
      rewrite Hk. split_and!; try done. apply elem_of_cons. by left.
    - destruct (Ho2 q Hq) as (p & ? & ? & Hk & ?). exists p.
      rewrite Hk. split_and!; try done. apply elem_of_cons. right.
      apply elem_of_cons. by left. }
  rewrite Hh2.
  destruct (forInstalled_kind status "DeploymentConfig" (heap r) r2 Hh2)
    as [Hh3 (n3 & Hn3 & Ho3 & Hnil3)].
  cbv zeta in *.
  assert (Hall : forall q, q ∈ n1 ++ n2 ++ n3 ->
            exists p, p ∈ cs_Resources status /\ installedTrue (deref (heap r) p) = true /\
                      KeyKind E (st_Resource (deref (heap r) p))
                        ∈ ["StatefulSet"; "Deployment"; "DeploymentConfig"] /\
                      fst q = deploymentLookup
                                (ToUnstructured E (st_Resource (deref (heap r) p)))).
  { intros q Hq. apply elem_of_app in Hq as [Hq|Hq]; [|apply elem_of_app in Hq as [Hq|Hq]].
    - destruct (Ho1 q Hq) as (p & ? & ? & Hk & ?). exists p.
      rewrite Hk. split_and!; try done. apply elem_of_cons. by left.
    - destruct (Ho2 q Hq) as (p & ? & ? & Hk & ?). exists p.
      rewrite Hk. split_and!; try done. apply elem_of_cons. right.
      apply elem_of_cons. by left.
    - destruct (Ho3 q Hq) as (p & ? & ? & Hk & ?). exists p.
      rewrite Hk. split_and!; try done. apply elem_of_cons. right.
      apply elem_of_cons. right. apply elem_of_cons. by left. }
  destruct (forInstalled E _ (waitForDeployment E) r2) as [[e3|] r3]; simpl in *.
  { split; [exact Hh3|]. exists (n1 ++ n2 ++ n3).
    split_and!; [by rewrite Hn3, Hn2, Hn1, <- !app_assoc | exact Hall | done]. }
  split; [exact Hh3|]. exists (n1 ++ n2 ++ n3).
  split_and!; [by rewrite Hn3, Hn2, Hn1, <- !app_assoc | exact Hall |].
  intros _ p Hp Hinst Hkind.
  apply elem_of_cons in Hkind as [Hk|Hkind];
    [|apply elem_of_cons in Hkind as [Hk|Hkind];
      [|apply elem_of_cons in Hkind as [Hk|Hkind]; [|by apply elem_of_nil in Hkind]]].
  - apply elem_of_app. left. by apply Hnil1.
  - apply elem_of_app. right. apply elem_of_app. left. by apply Hnil2.
  - apply elem_of_app. right. apply elem_of_app. right. by apply Hnil3.
Qed.

(** X10.  For the sidecar injector the hook checks the
    MutatingWebhookConfigurations first, each recorded as installed being
    fetched by name alone.  When that check returns an error, the error is
    the hook's answer and no workload is fetched.  When it returns nil,
    every such configuration has been fetched without error, and the hook
    goes on with the check of the workloads, which gives its answer. *)
Theorem sidecar_injector_checks_webhooks_before_deployments
    (status : ComponentStatus) (r : State) :
  let webhooks :=
    FindResourcesOfKind E (heap r) status "MutatingWebhookConfiguration" in
  let key p := st_Resource (deref (heap r) p) in
  let wh := forInstalled E webhooks (waitForWebhookCABundleInitialization E) r in
  let out := postProcessNewComponent E "istio/charts/sidecarInjectorWebhook" status r in
  exists new,
    history (snd wh) = history r ++ new /\
    (forall q, q ∈ new ->
       exists p, p ∈ webhooks /\ installedTrue (deref (heap r) p) = true /\
                 fst q = webhookLookup (ToUnstructured E (key p))) /\
    match fst wh with
    | Some e => out = (Some e, snd wh)
    | None =>
        out = waitForDeployments E status (snd wh) /\
        heap (snd wh) = heap r /\
        forall p, p ∈ webhooks -> installedTrue (deref (heap r) p) = true ->
                  (webhookLookup (ToUnstructured E (key p)), None) ∈ new
    end.
Proof.
  cbv zeta.
  set (webhooks := FindResourcesOfKind E (heap r) status "MutatingWebhookConfiguration").
  assert (Hout :
    postProcessNewComponent E "istio/charts/sidecarInjectorWebhook" status r =
      let o := forInstalled E webhooks (waitForWebhookCABundleInitialization E) r in
      match fst o with
      | Some e => (Some e, snd o)
      | None => waitForDeployments E status (snd o)
      end).
  { unfold postProcessNewComponent.
    change (String.eqb "istio/charts/sidecarInjectorWebhook" "istio/charts/galley")
      with false.
    change (String.eqb "istio/charts/sidecarInjectorWebhook"
              "istio/charts/sidecarInjectorWebhook") with true.
    cbv iota. unfold bind at 1, gets at 1. unfold bind at 1. fold webhooks. cbv zeta.
    destruct (forInstalled E webhooks _ r) as [[e|] r1]; [reflexivity|].
    unfold bind, ret. simpl.
    by destruct (waitForDeployments E status r1) as [[e|] r2]. }
  rewrite Hout. clear Hout. cbv zeta.
  destruct (forInstalled_nil (waitForWebhookCABundleInitialization E)
              (fun o q => q = (webhookLookup o, None))) with
    (statuses := webhooks) (r := r) as [Hh (new & Hn & Hnil)].
  { intros o r0.
    destruct (waitForWebhookCABundleInitialization_history o r0)
      as [Hh (err & Hhist & Herr)].
    split; [exact Hh|]. exists [(webhookLookup o, err)].
    split; [exact Hhist|]. intros Hnone. rewrite (Herr Hnone).
    eexists. split; [apply elem_of_cons; by left | reflexivity]. }
  destruct (forInstalled_only (waitForWebhookCABundleInitialization E)
              (fun o q => fst q = webhookLookup o)) with
    (statuses := webhooks) (r := r) as (new' & Hn' & Honly).
  { intros o r0.
    destruct (waitForWebhookCABundleInitialization_history o r0)
      as [Hh0 (err & Hhist & _)].
    split; [exact Hh0|]. exists [(webhookLookup o, err)].
    split; [exact Hhist|]. intros q Hq. apply elem_of_cons in Hq as [->|Hq]; [done|].
    by apply elem_of_nil in Hq. }
  cbv zeta in *. rewrite Hn in Hn'. apply app_inv_head in Hn'. subst new'.
  exists new. split_and!; [exact Hn | exact Honly |].
  destruct (forInstalled E webhooks _ r) as [[e|] r1]; simpl in *; [reflexivity|].
  split_and!; [reflexivity | exact Hh |].
  intros p Hp Hinst. destruct (Hnil eq_refl p Hp Hinst) as (q & Hq & ->). exact Hq.
Qed.

End Readiness.

(** ** The start of a pass: rendering and the labels of the namespace *)

Section Start.

Context {E : Env}.

Local Abbreviation State := (ControlPlaneReconciler E).

(** X11.  [renderCharts] renders the charts of istio and, only when the
    instance enables 3scale, those of 3scale.  When both renderings
    succeed, the renderings of the reconciler become the merged ones, an
    entry of 3scale taking the place of an entry of istio of the same name.
    When one fails, the errors are returned as an aggregate, istio's first,
    and the renderings of the reconciler stay what they were.  The cluster
    is not asked for anything. *)
Theorem renderCharts_merges_or_fails (r : State) :
  let istio := istioCharts E (Instance r) in
  let threeScale := threeScaleCharts E (Instance r) in
  let out := renderCharts E r in
  history (snd out) = history r /\ Client (snd out) = Client r /\
  Instance (snd out) = Instance r /\
  (snd istio = None -> snd threeScale = None ->
   fst out = None /\
   forall key,
     renderings (snd out) !! key =
       match fst threeScale !! key with
       | Some ms => Some ms
       | None => fst istio !! key
       end) /\
  (snd istio <> None \/ snd threeScale <> None ->
   fst out = Some (aggregate (option_list (snd istio) ++ option_list (snd threeScale))) /\
   renderings (snd out) = renderings r).
Proof.
  cbv zeta. unfold renderCharts, istioCharts, threeScaleCharts.
  unfold logV2, logWith, bind, gets, modify, ret. state_simpl.
  destruct (RenderHelmChart E (pathJoin (ChartPath E) "istio") _ _) as [istio e1].
  destruct (isEnabled (spec_ThreeScale (smcp_Spec (Instance r)))).
  - destruct (RenderHelmChart E (pathJoin (ChartPath E) "maistra-threescale") _ _)
      as [threeScale e2].
    destruct e1 as [e1|], e2 as [e2|]; simpl; split_and!; try done.
    + intros _ _. split; [done|]. intros key. rewrite lookup_union.
      by destruct (threeScale !! key), (istio !! key).
    + intros [?|?]; done.
  - destruct e1 as [e1|]; simpl; split_and!; try done.
    + intros _ _. split; [done|]. intros key. rewrite lookup_union, lookup_empty.
      by destruct (istio !! key).
    + intros [?|?]; done.
Qed.

(** What [renderCharts] leaves alone. *)
Lemma renderCharts_frame (r : State) :
  let out := renderCharts E r in
  history (snd out) = history r /\ Client (snd out) = Client r /\
  Instance (snd out) = Instance r /\ Status (snd out) = Status r /\
  heap (snd out) = heap r /\
  (fst out <> None -> renderings (snd out) = renderings r).
Proof.
  cbv zeta. unfold renderCharts, logV2, logWith, bind, gets, modify, ret. state_simpl.
  destruct (RenderHelmChart E (pathJoin (ChartPath E) "istio") _ _) as [istio e1].
  destruct (isEnabled (spec_ThreeScale (smcp_Spec (Instance r)))).
  - destruct (RenderHelmChart E (pathJoin (ChartPath E) "maistra-threescale") _ _)
      as [threeScale e2].
    by destruct e1 as [e1|], e2 as [e2|]; simpl; split_and!.
  - by destruct e1 as [e1|]; simpl; split_and!.
Qed.

(** [Reconcile], up to the rendering of the charts. *)
Lemma Reconcile_rendering (r : State) :
  Reconcile E r =
    (let '(err, r1) := renderCharts E (startPass E r) in
     match err with
     | Some e =>
         let s := smcp_Status (Instance r1) in
         let r2 :=
           setInstance E
             (smcp_setStatus (Instance r1)
                (cps_setStatusType s
                   (updateReconcileStatus E (cps_StatusType s) (Some e)))) r1 in
         let '(updateErr, w) := clientStatusUpdate E (Instance r2) (heap r2) (Client r2) in
         ((emptyResult, Some e),
          setHistory E (history r2 ++ [(CallUpdateStatus (Instance r2), updateErr)])
            (setClient E w r2))
     | None =>
         let name := smcp_Namespace (Instance r1) in
         let '((namespace, gerr), w) :=
           clientGetNamespace E name (namespaceReceiver name) (Client r1) in
         let r2 :=
           setHistory E (history r1 ++ [(CallGetNamespace name, gerr)])
             (setClient E w r1) in
         match gerr with
         | Some e => handleError E (Some e) r2
         | None =>
             let '((namespace1, update1), r3) :=
               ensureLabel E namespace false "maistra.io/ignore-namespace" "ignore"
                 "Adding maistra.io/ignore-namespace=ignore label to Request.Namespace"
                 r2 in
             let '((namespace2, update2), r4) :=
               ensureLabel E namespace1 update1 (MemberOfKey E) (ns_Name namespace1)
                 ("Adding " +:+ MemberOfKey E +:+ " label to Request.Namespace") r3 in
             if update2
             then reconcileComponents E (snd (UpdateNamespace E namespace2 r4))
             else reconcileComponents E r4
         end
     end).
Proof.
  unfold Reconcile, startPass, StatusUpdate, GetNamespace, namespaceReceiver,
    record, liftWorld, bind, gets, modify, ret.
  cbn [id]. state_simpl.
  destruct (renderCharts E _) as [[e|] r1]; state_simpl.
  - by destruct (clientStatusUpdate E _ _ _) as [updateErr w].
  - destruct (clientGetNamespace E _ _ _) as [[namespace [e|]] w]; state_simpl;
      [reflexivity|].
    destruct (ensureLabel E namespace false _ _ _ _) as [[namespace1 update1] r3].
    destruct (ensureLabel E namespace1 update1 _ _ _ _) as [[namespace2 update2] r4].
    destruct update2; [|reflexivity].
    by destruct (UpdateNamespace E namespace2 r4).
Qed.

(** X12.  When the rendering of the charts fails, [Reconcile] returns the
    error of the rendering with the empty result: it does not go through
    [handleError] and never asks for a requeue.  Its one call to the
    cluster is the update of the status of the instance, in which the
    Reconciled condition has been renewed with the error; the component
    statuses of the instance and the new status [r.Status] are left as
    they were, and so are the renderings. *)
Theorem failed_rendering_ends_the_pass (r : State) (e : error) :
  fst (renderCharts E (startPass E r)) = Some e ->
  let out := Reconcile E r in
  fst out = (emptyResult, Some e) /\
  (exists updateErr,
      history (snd out)
      = history r ++ [(CallUpdateStatus (Instance (snd out)), updateErr)]) /\
  cps_StatusType (smcp_Status (Instance (snd out)))
  = updateReconcileStatus E
      (RemoveCondition (cps_StatusType (smcp_Status (Instance r))) ConditionTypeReconciled)
      (Some e) /\
  cps_ComponentStatus (smcp_Status (Instance (snd out)))
  = cps_ComponentStatus (smcp_Status (Instance r)) /\
  Status (snd out) = Status r /\
  renderings (snd out) = renderings r.
Proof.
  intros Hrender. cbv zeta. rewrite Reconcile_rendering.
  destruct (renderCharts_frame (startPass E r)) as (Hh & _ & Hi & Hs & _ & Hr).
  cbv zeta in *.
  destruct (renderCharts E (startPass E r)) as [err r1]. simpl in *. subst err.
  destruct (clientStatusUpdate E _ _ _) as [updateErr w]. state_simpl.
  rewrite Hh, Hi, Hs, Hr by done. simpl.
  split_and!; try done. by exists updateErr.
Qed.

(** X13.  When the charts are rendered and the lookup of the namespace of
    the control plane fails, [Reconcile] hands the error to [handleError]:
    the pass asks the cluster for nothing but that lookup and the update of
    the status, no component is processed, and the status that is
    persisted carries the component statuses of [r.Status] as they were. *)
Theorem failed_namespace_lookup_is_handled (r : State) (e : error) :
  let name := smcp_Namespace (Instance r) in
  fst (renderCharts E (startPass E r)) = None ->
  snd (fst (clientGetNamespace E name (namespaceReceiver name) (Client r))) = Some e ->
  let out := Reconcile E r in
  fst out = (if isComponentNotReadyError e
             then (requeueSoon, None) else (emptyResult, Some e)) /\
  (exists updateErr,
      history (snd out)
      = history r ++ [(CallGetNamespace name, Some e);
                      (CallUpdateStatus (Instance (snd out)), updateErr)]) /\
  cps_ComponentStatus (smcp_Status (Instance (snd out)))
  = cps_ComponentStatus (Status r).
Proof.
  intros name Hrender Hget. cbv zeta. rewrite Reconcile_rendering.
  destruct (renderCharts_frame (startPass E r)) as (Hh & Hc & Hi & Hs & _).
  cbv zeta in *.
  destruct (renderCharts E (startPass E r)) as [err r1]. simpl in *. subst err.
  rewrite Hi, Hc. simpl. fold name.
  destruct (clientGetNamespace E name (namespaceReceiver name) (Client r))
    as [[namespace gerr] w].
  simpl in Hget. subst gerr.
  split; [apply handleError_result|].
  match goal with |- context [handleError E ?x ?s] =>
    destruct (handleError_persists x s) as [u [H1 [H2 H3]]] end.
  cbv zeta in *. state_simpl. split.
  - exists u. rewrite H1, Hh, <- app_assoc. reflexivity.
  - rewrite H2, H3. by rewrite Hs.
Qed.

(** X14.  When the charts are rendered and the namespace of the control
    plane is found, [Reconcile] goes on to the components in any case.
    A namespace that carries both labels is not updated.  Otherwise the
    namespace is updated once, with both labels set and its other labels
    kept, and the outcome of that update is not looked at. *)
Theorem namespace_labels_are_ensured (r : State) (ns : Namespace) (w : World E) :
  let name := smcp_Namespace (Instance r) in
  let r1 := snd (renderCharts E (startPass E r)) in
  fst (renderCharts E (startPass E r)) = None ->
  clientGetNamespace E name (namespaceReceiver name) (Client r) = ((ns, None), w) ->
  exists r2,
    Reconcile E r = reconcileComponents E r2 /\
    Instance r2 = Instance r1 /\ renderings r2 = renderings r1 /\
    Status r2 = Status r /\ heap r2 = heap r /\
    (labelled E ns ->
     history r2 = history r ++ [(CallGetNamespace name, None)] /\ Client r2 = w) /\
    (~ labelled E ns ->
     history r2
     = history r ++ [(CallGetNamespace name, None);
                     (CallUpdateNamespace (withLabels E ns),
                      fst (clientUpdateNamespace E (withLabels E ns) w))] /\
     Client r2 = snd (clientUpdateNamespace E (withLabels E ns) w)).
Proof.
  intros name r1 Hrender Hget. subst r1. rewrite Reconcile_rendering.
  destruct (renderCharts_frame (startPass E r)) as (Hh & Hc & Hi & Hs & Hheap & _).
  cbv zeta in *.
  destruct (renderCharts E (startPass E r)) as [err r1]. simpl in *. subst err.
  rewrite Hi, Hc. simpl. fold name. rewrite Hget.
  unfold ensureLabel, UpdateNamespace, labelled, withLabels, logInfo, logWith,
    record, liftWorld, bind, modify, ret.
  destruct ns as [nsName labels]. simpl.
  destruct (bool_decide (labels !! "maistra.io/ignore-namespace" = Some "ignore"))
    eqn:Hignore; simpl.
  - apply bool_decide_eq_true in Hignore.
    destruct (bool_decide (labels !! MemberOfKey E = Some nsName)) eqn:Hmember; simpl.
    + apply bool_decide_eq_true in Hmember.
      eexists. split; [reflexivity|]. state_simpl. rewrite Hh.
      split_and!; try done. intros Hnot. destruct Hnot. by split.
    + apply bool_decide_eq_false in Hmember.
      rewrite (insert_id labels "maistra.io/ignore-namespace" "ignore") by done.
      destruct (clientUpdateNamespace E _ w) as [uerr w2].
      eexists. split; [reflexivity|]. state_simpl. rewrite Hh, <- app_assoc.
      split_and!; try done. intros [_ Hm]. done.
  - apply bool_decide_eq_false in Hignore.
    destruct (bool_decide
                (<["maistra.io/ignore-namespace" := "ignore"]> labels !! MemberOfKey E
                 = Some nsName)) eqn:Hmember; simpl.
    + apply bool_decide_eq_true in Hmember.
      rewrite (insert_id _ (MemberOfKey E) nsName) by done.
      destruct (clientUpdateNamespace E _ w) as [uerr w2].
      eexists. split; [reflexivity|]. state_simpl. rewrite Hh, <- app_assoc.
      split_and!; try done. intros [Hi' _]. done.
    + destruct (clientUpdateNamespace E _ w) as [uerr w2].
      eexists. split; [reflexivity|]. state_simpl. rewrite Hh, <- app_assoc.
      split_and!; try done. intros [Hi' _]. done.
Qed.

End Start.

(** ** The end of a pass *)

Section Finish.

Context {E : Env}.

Local Abbreviation State := (ControlPlaneReconciler E).

(** X15.  At the end of a walk without error, a failure of [prune] is
    handed to [handleError].  When [prune] and the update of the status
    succeed, the pass returns the empty result and nil; the status that
    was handed to [UpdateStatus] is [r.Status] with the generation of the
    instance as observed generation and a renewed Reconciled condition, it
    has become the status of the instance, and the last record of the log
    says that the reconciliation is complete. *)
Theorem end_of_a_walk_without_error (r : State) :
  let generation := smcp_Generation (Instance r) in
  let pruned := prune E generation (Instance r) (heap r) (Client r) in
  let published :=
    cps_setStatusType (Status r)
      (updateReconcileStatus E
         (setObservedGeneration (cps_StatusType (Status r)) generation) None) in
  let instance := smcp_setStatus (Instance r) published in
  let out := finishReconcile E r in
  (forall e, fst pruned = Some e ->
             out = handleError E (Some e) (setClient E (snd pruned) r)) /\
  (forall w, fst pruned = None ->
             UpdateStatus E instance (heap r) (snd pruned) = (None, w) ->
             fst out = (emptyResult, None) /\
             Instance (snd out) = instance /\ Status (snd out) = published /\
             Client (snd out) = w /\
             history (snd out) = history r ++ [(CallUpdateStatus instance, None)] /\
             exists entry,
               last (logged (snd out)) = Some entry /\
               le_Message entry = "reconciliation complete").
Proof.
  cbv zeta.
  unfold finishReconcile, callPrune, callUpdateStatus, stampObservedGeneration,
    updateReconcileStatusOfStatus, publishStatus, logError, logInfo, logWith,
    record, liftWorld, gets, modify, bind, ret.
  cbn [id]. state_simpl.
  destruct (prune E _ _ _ _) as [[e|] w1]; state_simpl.
  - split; [|discriminate]. intros e' He. by inversion He; subst.
  - split; [discriminate|]. intros w _ Hupdate. simpl in Hupdate.
    match type of Hupdate with
    | ?lhs = _ =>
        match goal with
        | |- context [UpdateStatus E ?i ?h ?w'] =>
            change (UpdateStatus E i h w') with lhs
        end
    end.
    rewrite Hupdate. state_simpl. split_and!; try done.
    eexists. split; [apply last_snoc | reflexivity].
Qed.

Lemma finishReconcile_ends (r : State) :
  let out := finishReconcile E r in
  exists before updateErr,
    history (snd out) = before ++ [(CallUpdateStatus (Instance (snd out)), updateErr)].
Proof.
  cbv zeta.
  destruct (prune E (smcp_Generation (Instance r)) (Instance r) (heap r) (Client r))
    as [perr w1] eqn:Hprune.
  destruct perr as [e|].
  - assert (Hout : finishReconcile E r = handleError E (Some e) (setClient E w1 r)).
    { unfold finishReconcile, callPrune, liftWorld, gets, bind. cbn [id].
      by rewrite Hprune. }
    rewrite Hout.
    destruct (handleError_persists (Some e) (setClient E w1 r)) as [u [H1 _]].
    cbv zeta in H1. eauto.
  - unfold finishReconcile, callPrune, callUpdateStatus, stampObservedGeneration,
      updateReconcileStatusOfStatus, publishStatus, logError, logInfo, logWith,
      record, liftWorld, gets, modify, bind, ret.
    cbn [id]. state_simpl. rewrite Hprune. state_simpl.
    destruct (UpdateStatus E _ _ w1) as [[ue|] w2]; state_simpl; eauto.
Qed.

(** X16.  Whatever path a pass takes, the last thing that [Reconcile] asks
    of the cluster is the update of the status of the instance, in the
    state in which the instance is left. *)
Theorem every_pass_ends_with_the_status_update (r : State) :
  let out := Reconcile E r in
  exists before updateErr,
    history (snd out) = before ++ [(CallUpdateStatus (Instance (snd out)), updateErr)].
Proof.
  cbv zeta.
  assert (Hhandle : forall err (r0 : State),
            exists before updateErr,
              history (snd (handleError E err r0))
              = before ++ [(CallUpdateStatus (Instance (snd (handleError E err r0))),
                            updateErr)]).
  { intros err r0. destruct (handleError_persists err r0) as [u [H1 _]].
    cbv zeta in H1. eauto. }
  assert (Hwalk : forall r0 : State,
            exists before updateErr,
              history (snd (reconcileComponents E r0))
              = before ++ [(CallUpdateStatus (Instance (snd (reconcileComponents E r0))),
                            updateErr)]).
  { intros r0. rewrite reconcileComponents_start. cbv zeta.
    destruct (forUntilError E (installOrdered E) orderedComponents ∅ _)
      as [[cp [e|]] r1]; [apply Hhandle|].
    destruct (forUntilError E (installOther E) _ cp r1) as [[cp' [e|]] r2];
      [apply Hhandle|].
    destruct (processComponentManifests E "maistra-threescale" r2) as [[e|] r3];
      [apply Hhandle | apply finishReconcile_ends]. }
  rewrite Reconcile_rendering.
  destruct (renderCharts E (startPass E r)) as [[e|] r1].
  - cbv zeta. destruct (clientStatusUpdate E _ _ _) as [updateErr w]. state_simpl.
    eauto.
  - cbv zeta. destruct (clientGetNamespace E _ _ _) as [[namespace [e|]] w];
      [apply Hhandle|].
    destruct (ensureLabel E namespace false _ _ _ _) as [[namespace1 update1] r3].
    destruct (ensureLabel E namespace1 update1 _ _ _ _) as [[namespace2 update2] r4].
    destruct update2; apply Hwalk.
Qed.

End Finish.

(** ** The patch of the Kiali resource *)

Section KialiPatch.

Context {E : Env}.

Local Abbreviation State := (ControlPlaneReconciler E).

(** What one detection block asks of the cluster, and what a lookup that
    fails does to the flag that the block returns. *)
Lemma autoDetect_disables (routeName : string) (object : Unstructured)
    (url : string) (enabled : bool) (r : State) :
  let out := autoDetect E routeName object url enabled r in
  exists new,
    history (snd out) = history r ++ new /\
    (new = [] \/
     exists err, new = [(routeLookup object routeName, err)] /\
                 (err <> None -> snd (fst out) = false)) /\
    (new = [] <-> url <> "" \/ enabled = false).
Proof.
  cbv zeta.
  destruct (autoDetect_spec routeName object url enabled r) as (_ & H & _).
  cbv zeta in H.
  destruct url as [|c url]; cbn [String.length Nat.eqb andb] in H.
  - destruct enabled; cbn [andb] in H.
    + destruct H as (err & Hh & Herr). eexists. split; [exact Hh|]. split.
      * right. exists err. split; [done|]. intros Hne. by rewrite (Herr Hne).
      * split; [done|]. by intros [?|?].
    + destruct H as [Hh _]. exists []. rewrite app_nil_r.
      split_and!; [done | by left |]. split; [|done]. intros _. by right.
  - destruct H as [Hh _]. exists []. rewrite app_nil_r.
    split_and!; [done | by left |]. split; [|done]. intros _. by left.
Qed.

(** X17.  The settings that the Kiali patcher arrives at: a service that
    is left enabled has a URL that is not empty, for jaeger and for
    grafana.  A URL that the user has configured is kept, with the flag
    that goes with it.  The patcher asks the cluster for nothing but the
    routes named jaeger and grafana of the namespace of the object, jaeger
    first, each at most once: the route of a service is looked up when, and
    only when, no URL is configured for it and it is not disabled, and a
    lookup that fails, for whatever reason, disables the service. *)
Theorem kiali_enabled_services_have_a_url (object : Unstructured) (r : State) :
  let out := kialiSettings E object r in
  let s := fst out in
  (jaegerEnabled s = true -> jaegerURL s <> "") /\
  (grafanaEnabled s = true -> grafanaURL s <> "") /\
  (configuredURL E object "tracing" <> "" ->
   jaegerURL s = configuredURL E object "tracing" /\
   jaegerEnabled s = configuredEnabled E object "tracing") /\
  (configuredURL E object "grafana" <> "" ->
   grafanaURL s = configuredURL E object "grafana" /\
   grafanaEnabled s = configuredEnabled E object "grafana") /\
  exists jaeger grafana,
    history (snd out) = history r ++ jaeger ++ grafana /\
    (jaeger = [] \/
     exists err, jaeger = [(routeLookup object "jaeger", err)] /\
                 (err <> None -> jaegerEnabled s = false)) /\
    (grafana = [] \/
     exists err, grafana = [(routeLookup object "grafana", err)] /\
                 (err <> None -> grafanaEnabled s = false)) /\
    (jaeger = [] <->
     configuredURL E object "tracing" <> "" \/
     configuredEnabled E object "tracing" = false) /\
    (grafana = [] <->
     configuredURL E object "grafana" <> "" \/
     configuredEnabled E object "grafana" = false).
Proof.
  cbv zeta.
  destruct (kialiSettings_run object r) as (r3 & Hrun & Hh3). cbv zeta in Hrun.
  rewrite Hrun. clear Hrun.
  match goal with
  | |- context [autoDetect E "jaeger" object ?u ?e ?s] =>
      assert (Hh0 : history s = history r) by done;
      generalize dependent s; intros r0 Hh0
  end.
  pose proof (autoDetect_spec "jaeger" object
                (configuredURL E object "tracing")
                (configuredEnabled E object "tracing") r0) as (Hj1 & _ & Hj3).
  pose proof (autoDetect_disables "jaeger" object
                (configuredURL E object "tracing")
                (configuredEnabled E object "tracing") r0)
    as (jaeger & Hhj & Hj & Hjc).
  cbv zeta in *.
  destruct (autoDetect E "jaeger" object _ _ r0) as [[jurl jen] r1].
  simpl in Hj1, Hj3, Hhj, Hj.
  pose proof (autoDetect_spec "grafana" object
                (configuredURL E object "grafana")
                (configuredEnabled E object "grafana") r1) as (Hg1 & _ & Hg3).
  pose proof (autoDetect_disables "grafana" object
                (configuredURL E object "grafana")
                (configuredEnabled E object "grafana") r1)
    as (grafana & Hhg & Hg & Hgc).
  cbv zeta in *.
  destruct (autoDetect E "grafana" object _ _ r1) as [[gurl gen] r2].
  simpl in Hg1, Hg3, Hhg, Hg. simpl. rewrite Hh3.
  split_and!.
  - exact Hj1.
  - exact Hg1.
  - intros Hne. specialize (Hj3 Hne). by inversion Hj3.
  - intros Hne. specialize (Hg3 Hne). by inversion Hg3.
  - exists jaeger, grafana. rewrite Hhg, Hhj, Hh0, <- app_assoc. by split_and!.
Qed.

(** X18.  The Kiali patcher fails only when a field cannot be written: a
    route that cannot be looked up never makes it fail.  Its error, if
    any, wraps the error of the write that failed, and is never a
    [ComponentNotReadyError]; when no write fails it returns nil. *)
Theorem kiali_patch_fails_only_on_a_write (object : Unstructured) (r : State) :
  let out := patchKialiConfig E object r in
  ((forall o v fields, snd (SetNestedField E o v fields) = None) -> snd (fst out) = None) /\
  (forall e, snd (fst out) = Some e ->
     exists o v fields o' err what,
       SetNestedField E o v fields = (o', Some err) /\
       e = errorString ("could not set " +:+ what +:+ " in kiali CR: " +:+ Error err)) /\
  isComponentNotReady (snd (fst out)) = false.
Proof.
  cbv zeta. unfold patchKialiConfig, bind, ret.
  destruct (kialiSettings E object r) as [s r1].
  simpl fst. unfold writeKialiSettings, setOrFail.
  repeat match goal with
         | |- context [SetNestedField E ?o ?v ?f] =>
             let H := fresh "Hset" in
             destruct (SetNestedField E o v f) as [? [?|]] eqn:H; simpl
         end.
  all: split_and!; try done.
  all: first
         [ intros e0 He; inversion He; subst; eauto 10; fail
         | intros Hnever;
           match goal with
           | H : SetNestedField E ?o ?v ?f = (_, Some _) |- _ =>
               pose proof (Hnever o v f) as Hn; rewrite H in Hn; discriminate Hn
           end ].
Qed.

End KialiPatch.

(** ** The status of a component after [processManifests] *)

Section ComponentHeader.

Context {E : Env}.

Local Abbreviation State := (ControlPlaneReconciler E).

(** X19.  The component status that [processManifests] returns carries
    the name, the observed generation and the conditions of the prior
    status, renewed with the outcome of the pass: as a reconciliation when
    there are manifests, as a deletion when there are none.  The error
    returned is nil exactly when no object and no deletion added an error. *)
Theorem component_status_is_carried_over
    (ms : list Manifest) (old : ComponentStatus) (r : State) :
  let objs :=
    foldM E (processManifest E (Log r) old) ms (∅, initialStatus old, []) r in
  let objectErrors := snd (fst objs) in
  let out := processManifests E ms old r in
  let err := snd (fst out) in
  cs_StatusType (fst (fst out))
  = (if Nat.ltb 0 (length ms)
     then updateReconcileStatus E (cs_StatusType old) err
     else updateDeleteStatus E (cs_StatusType old) err) /\
  exists deleted,
    history (snd out) = history (snd objs) ++ deleted /\
    Forall isDeleteCall deleted /\
    err = NewAggregate (objectErrors ++ omap deleteFailure deleted) /\
    (err = None <-> objectErrors = [] /\ omap deleteFailure deleted = []).
Proof.
  cbv zeta. rewrite processManifests_passes. cbv zeta.
  destruct (processManifests_tracks (Log r) old ms (∅, initialStatus old, []) r)
    as (_ & Hst & _).
  destruct (foldM E (processManifest E (Log r) old) ms _ r) as [[[rp ns1] errs1] r1].
  simpl in Hst. state_simpl.
  destruct (deletions_spec (Log r) rp (rev (cs_Resources old)) ns1 errs1 r1)
    as (carried & deleted & Hst2 & _ & Hh & Herrs & Hdel & _).
  cbv zeta in *.
  destruct (foldM E (deleteUnprocessed E (Log r) rp) _ (ns1, errs1) r1)
    as [[ns2 errs2] r2].
  state_simpl.
  assert (Hold : cs_StatusType ns2 = cs_StatusType old).
  { rewrite Hst2, Hst. unfold initialStatus. simpl.
    by destruct (cs_StatusType old). }
  split.
  - destruct (0 <? length ms)%nat; simpl; by rewrite Hold.
  - exists deleted. split_and!; [done | done | by rewrite Herrs |].
    rewrite Herrs. unfold NewAggregate.
    destruct (errs1 ++ omap deleteFailure deleted) eqn:Happ.
    + apply app_eq_nil in Happ. by split.
    + split; [done|]. intros [-> Hd]. by rewrite Hd in Happ.
Qed.

End ComponentHeader.

(** ** The stamp, over a whole pass *)

Section PassStamp.

Context {E : Env}.

Local Abbreviation State := (ControlPlaneReconciler E).

Variable r0 : State.

#[local] Instance stampedRun_preorder from : PreOrder (stampedRun r0 from).
Proof.
  split.
  - intros r Hctx. split; [exact Hctx|]. exists []. rewrite app_nil_r.
    split; [reflexivity|]. intros q sent Hq. by apply elem_of_nil in Hq.
  - intros a b c Hab Hbc Hctx.
    destruct (Hab Hctx) as (Hb & n1 & Hh1 & Hs1).
    destruct (Hbc Hb) as (Hc & n2 & Hh2 & Hs2).
    split; [exact Hc|]. exists (n1 ++ n2). split; [by rewrite Hh2, Hh1, app_assoc|].
    intros q sent Hq. apply elem_of_app in Hq as [Hq|Hq]; eauto.
Qed.

(** A step that sends nothing and leaves alone what the pass reads. *)
Lemma stampedRun_quiet from (r r' : State) (new : list Request) :
  passContext r' = passContext r ->
  history r' = history r ++ new ->
  Forall (fun q => sentObject q = None) new ->
  stampedRun r0 from r r'.
Proof.
  intros Hctx Hh Hnew Hr. split; [congruence|]. exists new. split; [exact Hh|].
  intros q sent Hq Hsent. rewrite Forall_forall in Hnew.
  rewrite (Hnew q Hq) in Hsent. discriminate.
Qed.

(** The objects of a stretch may be looked for in a larger collection. *)
Lemma stampedRun_weaken (from from' : Unstructured -> Prop) {A} (m : M E A) :
  (forall input, from input -> from' input) ->
  frames (stampedRun r0 from) m -> frames (stampedRun r0 from') m.
Proof.
  intros Hsub Hm r Hctx. destruct (Hm r Hctx) as (Hctx' & new & Hh & Hs).
  split; [exact Hctx'|]. exists new. split; [exact Hh|].
  intros q sent Hq Hsent. destruct (Hs q sent Hq Hsent) as (input & Hin & Hst).
  exists input. auto.
Qed.

Ltac quiet_step :=
  intros; eapply (stampedRun_quiet _ _ _ []);
  [ reflexivity | by rewrite app_nil_r | constructor ].

#[local] Instance stampedRun_client from : TolClient (stampedRun r0 from).
Proof. intros r w. quiet_step. Qed.

#[local] Instance stampedRun_logged from : TolLogged (stampedRun r0 from).
Proof. intros r e. quiet_step. Qed.

#[local] Instance stampedRun_log from : TolLog (stampedRun r0 from).
Proof. intros r l. quiet_step. Qed.

#[local] Instance stampedRun_heap from : TolHeap (stampedRun r0 from).
Proof. intros r h. quiet_step. Qed.

Lemma stampedRun_record from (c : Call) (err : option error) :
  sentObject (c, err) = None -> frames (stampedRun r0 from) (record E c err).
Proof.
  intros Hc r. eapply (stampedRun_quiet _ _ _ [(c, err)]); [reflexivity | reflexivity |].
  by repeat constructor.
Qed.

Lemma stampedRun_Get from key receiver :
  frames (stampedRun r0 from) (Get E key receiver).
Proof.
  unfold Get. pose proof (stampedRun_record from) as Hrec.
  apply (frames_bind (R:=stampedRun r0 from));
    [apply (frames_liftWorld (R:=stampedRun r0 from))|].
  intros [obj err]. apply (frames_bind (R:=stampedRun r0 from)); [by apply Hrec|].
  intros _. apply (frames_ret (R:=stampedRun r0 from)).
Qed.

Lemma stampedRun_Delete from obj : frames (stampedRun r0 from) (Delete E obj).
Proof.
  unfold Delete. pose proof (stampedRun_record from) as Hrec.
  apply (frames_bind (R:=stampedRun r0 from));
    [apply (frames_liftWorld (R:=stampedRun r0 from))|].
  intros err. apply (frames_bind (R:=stampedRun r0 from)); [by apply Hrec|].
  intros _. apply (frames_ret (R:=stampedRun r0 from)).
Qed.

Lemma stampedRun_modify from (f : State -> State) :
  (forall r, passContext (f r) = passContext r) ->
  (forall r, history (f r) = history r) ->
  frames (stampedRun r0 from) (modify E f).
Proof.
  intros Hctx Hh. apply (frames_modify (R:=stampedRun r0 from)). intros r.
  eapply (stampedRun_quiet _ _ _ []); [apply Hctx | by rewrite app_nil_r, Hh | constructor].
Qed.

Lemma stampedRun_waitForDeployment from o :
  frames (stampedRun r0 from) (waitForDeployment E o).
Proof. unfold waitForDeployment. pose proof (stampedRun_Get from). frames_tac. Qed.

Lemma stampedRun_waitForWebhook from o :
  frames (stampedRun r0 from) (waitForWebhookCABundleInitialization E o).
Proof.
  unfold waitForWebhookCABundleInitialization. pose proof (stampedRun_Get from).
  frames_tac.
Qed.

Lemma stampedRun_postProcessNewComponent from name status :
  frames (stampedRun r0 from) (postProcessNewComponent E name status).
Proof.
  unfold postProcessNewComponent, waitForDeployments, forInstalled.
  pose proof (stampedRun_waitForDeployment from).
  pose proof (stampedRun_waitForWebhook from).
  frames_tac.
Qed.

Ltac stamped_step :=
  cbv beta;
  first
    [ match goal with
      | |- frames _ (foldM _ _ _ _) => solve [ eauto with frames ]
      end
    | frames_step
    | solve [ eauto with frames ]
    | match goal with
      | |- frames _ (modify _ _) =>
          apply stampedRun_modify; intros; reflexivity
      | |- frames _ (let '(_, _) := ?x in _) => destruct x
      | |- frames _ ((let '(_, _) := ?x in _) _) => destruct x
      end ].

(** A loop whose turns reconcile the objects [f x] reconciles the objects
    of all the turns. *)
Lemma stampedRun_foldM_Forall {A S} (f : A -> list Unstructured)
    (body : S -> A -> M E S) (l : list A) :
  Forall (fun x =>
            forall acc, frames (stampedRun r0 (fun input => input ∈ f x)) (body acc x)) l ->
  forall acc,
    frames (stampedRun r0 (fun input => input ∈ flat_map f l)) (foldM E body l acc).
Proof.
  intros Hbody. apply frames_foldM_Forall; [apply _|].
  apply Forall_forall. intros x Hx acc.
  apply (stampedRun_weaken (fun input => input ∈ f x)).
  - intros input Hin. apply list_elem_of_In, in_flat_map. exists x.
    split; by apply list_elem_of_In.
  - rewrite Forall_forall in Hbody. by apply Hbody.
Qed.

Lemma stampedRun_foldM {A S} (f : A -> list Unstructured) (body : S -> A -> M E S)
    (l : list A) :
  (forall acc x, frames (stampedRun r0 (fun input => input ∈ f x)) (body acc x)) ->
  forall acc,
    frames (stampedRun r0 (fun input => input ∈ flat_map f l)) (foldM E body l acc).
Proof.
  intros Hbody. apply stampedRun_foldM_Forall. apply Forall_forall. auto.
Qed.

Hypothesis Hhooks : hooksKeepStamp E.

Lemma stampedRun_processObject (obj : Unstructured) :
  forall rp old ns,
    frames (stampedRun r0 (fun input => input ∈ leaves obj))
      (processObject E obj rp old ns).
Proof.
  induction obj as [a k n m o l an items err rr wh IH] using Unstructured_nested_ind.
  intros rp old ns.
  destruct (String.eqb k "List") eqn:Hk.
  - destruct err as [e|].
    + simpl processObject. rewrite Hk. repeat stamped_step.
    + apply (stampedRun_weaken (fun input => input ∈ flat_map leaves items)).
      { intros input Hin. by rewrite leaves_List. }
      simpl processObject. rewrite Hk.
      repeat (cbv beta;
        first
          [ match goal with
            | |- frames _ (foldM _ _ items _) =>
                apply (stampedRun_foldM_Forall leaves);
                eapply Forall_impl; [exact IH |];
                intros ? ? [[? ?] ?]; simpl
            end
          | stamped_step ]).
  - intros r Hctx.
    assert (Hstamp : stampContext r = stampContext r0) by exact (f_equal fst Hctx).
    split.
    + rewrite <- Hctx. unfold passContext. f_equal.
      * apply processObject_keeps_stampContext.
      * apply (frames_processObject (R:=keeps renderings)).
    + destruct (processObject_leaf_stamped Hhooks a k n m o l an items err rr wh
                  rp old ns r Hk) as (new & Hn & Hs).
      cbv zeta in *. exists new. split; [exact Hn|].
      intros q sent Hq Hsent. eexists. split.
      * simpl. rewrite Hk. by apply list_elem_of_singleton.
      * apply (stamped_context r0 r); [done|]. eapply Hs; eauto.
Qed.

Lemma stampedRun_processRaw old acc raw :
  frames (stampedRun r0 (fun input => input ∈ decoded E raw)) (processRaw E old acc raw).
Proof.
  unfold processRaw, decoded. destruct acc as [[rp ns] errs].
  destruct (YAMLToJSON E raw) as [rawJSON [e1|]]; [repeat stamped_step|].
  destruct (Decode E rawJSON) as [obj [e2|]]; [repeat stamped_step|].
  pose proof (stampedRun_processObject obj).
  repeat stamped_step.
Qed.

Lemma stampedRun_processManifest origLogger old acc (m : Manifest) :
  frames
    (stampedRun r0
       (fun input =>
          input ∈ (if HasSuffix (m_Name m) ".yaml"
                   then flat_map (decoded E) (SplitManifests E (m_Content m))
                   else [])))
    (processManifest E origLogger old acc m).
Proof.
  unfold processManifest.
  destruct (HasSuffix (m_Name m) ".yaml"); simpl negb; cbv iota.
  - pose proof (stampedRun_foldM (decoded E) (processRaw E old)
                  (SplitManifests E (m_Content m))
                  (fun acc raw => stampedRun_processRaw old acc raw)).
    repeat stamped_step.
  - repeat stamped_step.
Qed.

(** [processManifests] sends stamped forms of the objects of its
    manifests; the deletion pass sends none. *)
Lemma stampedRun_processManifests ms old :
  frames (stampedRun r0 (fun input => input ∈ renderedObjects E ms))
    (processManifests E ms old).
Proof.
  unfold processManifests, renderedObjects, deleteUnprocessed, processDeletedObject,
    logIfError.
  pose proof (fun origLogger =>
                stampedRun_foldM _ (processManifest E origLogger old) ms
                  (fun acc m => stampedRun_processManifest origLogger old acc m))
    as Hloop.
  pose proof stampedRun_Delete.
  apply (frames_bind (R:=stampedRun r0 _)); [repeat stamped_step|].
  intros origLogger.
  apply (frames_bind (R:=stampedRun r0 _)); [apply Hloop|].
  intros [[rp ns] errs].
  repeat stamped_step.
Qed.

(** What a component reads of the renderings is what [r0] holds. *)
Lemma stampedRun_renderings from {B} (name : string)
    (k : option (list Manifest) -> M E B) :
  frames (stampedRun r0 from) (k (renderings r0 !! name)) ->
  frames (stampedRun r0 from)
    (bind E (gets E (fun r => renderings r !! name)) k).
Proof.
  intros Hk r Hctx. unfold bind, gets. cbn [fst snd].
  assert (Hren : renderings r = renderings r0) by exact (f_equal snd Hctx).
  rewrite Hren. by apply Hk.
Qed.

Lemma stampedRun_processComponentManifests name :
  frames (stampedRun r0 (renderedIn r0)) (processComponentManifests E name).
Proof.
  unfold processComponentManifests.
  apply (frames_bind (R:=stampedRun r0 _)); [repeat stamped_step|].
  intros origLogger.
  apply (frames_bind (R:=stampedRun r0 _)); [repeat stamped_step|].
  intros _. apply stampedRun_renderings.
  pose proof (stampedRun_postProcessNewComponent (renderedIn r0)).
  destruct (renderings r0 !! name) as [ms|] eqn:Hms.
  - assert (Hms' : forall old,
              frames (stampedRun r0 (renderedIn r0)) (processManifests E ms old)).
    { intros old.
      apply (stampedRun_weaken (fun input => input ∈ renderedObjects E ms));
        [|apply stampedRun_processManifests].
      intros input Hin. by exists name, ms. }
    repeat stamped_step.
  - repeat stamped_step.
Qed.

Lemma stampedRun_callUpdateStatus from : frames (stampedRun r0 from) (callUpdateStatus E).
Proof.
  unfold callUpdateStatus. pose proof (stampedRun_record from) as Hrec.
  repeat stamped_step.
Qed.

Lemma stampedRun_handleError from err : frames (stampedRun r0 from) (handleError E err).
Proof.
  unfold handleError, logIfError. pose proof (stampedRun_callUpdateStatus from).
  repeat stamped_step.
Qed.

Lemma stampedRun_finishReconcile from : frames (stampedRun r0 from) (finishReconcile E).
Proof.
  unfold finishReconcile, callPrune.
  pose proof (stampedRun_callUpdateStatus from). pose proof (stampedRun_handleError from).
  repeat stamped_step.
Qed.

(** The walk over the components, from the state in which [r.ownerRefs]
    and [r.meshGeneration] are set. *)
Lemma stampedRun_walk :
  frames (stampedRun r0 (renderedIn r0))
    (bind E (forUntilError E (installOrdered E) orderedComponents ∅)
       (fun '(componentsProcessed, err) =>
          match err with
          | Some _ => handleError E err
          | None =>
              bind E (gets E (fun r => rangeKeys E (renderings r)))
                (fun keys =>
                   bind E (forUntilError E (installOther E) keys componentsProcessed)
                     (fun '(componentsProcessed, err) =>
                        match err with
                        | Some _ => handleError E err
                        | None =>
                            bind E (processComponentManifests E "maistra-threescale")
                              (fun err =>
                                 match err with
                                 | Some _ => handleError E err
                                 | None => finishReconcile E
                                 end)
                        end))
          end)).
Proof.
  unfold installOrdered, installOther.
  pose proof stampedRun_processComponentManifests.
  pose proof (stampedRun_handleError (renderedIn r0)).
  pose proof (stampedRun_finishReconcile (renderedIn r0)).
  repeat stamped_step.
Qed.

End PassStamp.

Section PassStampTheorem.

Context {E : Env}.

Local Abbreviation State := (ControlPlaneReconciler E).

(** X20.  Every object that a pass sends to the cluster, through [Create]
    or through a patch, whatever the component and the manifest it comes
    from, is the stamped form of a rendered object: of one of the objects
    that the documents of a [*.yaml] manifest of [r.renderings], as the
    pass leaves them, decode to.  It carries the owner label with the
    namespace of the instance and the generation annotation with the
    generation of the instance in decimal; its owner references are the
    one reference to the instance when that rendered object is in the
    namespace of the instance, and those of the rendered object otherwise.
    The writes of the Kiali patcher under [spec.external_services], the two
    other object patchers and [CreateApplyAnnotation] are taken not to
    touch these three. *)
Theorem pass_stamps_every_object (r : State) :
  hooksKeepStamp E ->
  let out := Reconcile E r in
  exists new,
    history (snd out) = history r ++ new /\
    forall q sent,
      q ∈ new -> sentObject q = Some sent ->
      exists input,
        renderedIn (snd out) input /\
        u_Labels sent !! OwnerKey E = Some (smcp_Namespace (Instance r)) /\
        u_Annotations sent !! MeshGenerationKey E
        = Some (FormatInt (smcp_Generation (Instance r))) /\
        u_OwnerReferences sent
        = (if String.eqb (u_Namespace input) (smcp_Namespace (Instance r))
           then [NewOwnerRef E (Instance (startPass E r))]
           else u_OwnerReferences input).
Proof.
  intros Hhooks. cbv zeta.
  assert (Hquiet : forall (h : list Request) (rendered : Unstructured -> Prop) new,
            h = history r ++ new ->
            Forall (fun q => sentObject q = None) new ->
            exists new,
              h = history r ++ new /\
              forall q sent,
                q ∈ new -> sentObject q = Some sent ->
                exists input,
                  rendered input /\
                  u_Labels sent !! OwnerKey E = Some (smcp_Namespace (Instance r)) /\
                  u_Annotations sent !! MeshGenerationKey E
                  = Some (FormatInt (smcp_Generation (Instance r))) /\
                  u_OwnerReferences sent
                  = (if String.eqb (u_Namespace input) (smcp_Namespace (Instance r))
                     then [NewOwnerRef E (Instance (startPass E r))]
                     else u_OwnerReferences input)).
  { intros h rendered new Hh Hnew. exists new. split; [exact Hh|].
    intros q sent Hq Hsent. rewrite Forall_forall in Hnew.
    rewrite (Hnew q Hq) in Hsent. discriminate. }
  assert (Hwalk : forall (r2 : State) pre,
            Instance r2 = Instance (startPass E r) ->
            history r2 = history r ++ pre ->
            Forall (fun q => sentObject q = None) pre ->
            exists new,
              history (snd (reconcileComponents E r2)) = history r ++ new /\
              forall q sent,
                q ∈ new -> sentObject q = Some sent ->
                exists input,
                  renderedIn (snd (reconcileComponents E r2)) input /\
                  u_Labels sent !! OwnerKey E = Some (smcp_Namespace (Instance r)) /\
                  u_Annotations sent !! MeshGenerationKey E
                  = Some (FormatInt (smcp_Generation (Instance r))) /\
                  u_OwnerReferences sent
                  = (if String.eqb (u_Namespace input) (smcp_Namespace (Instance r))
                     then [NewOwnerRef E (Instance (startPass E r))]
                     else u_OwnerReferences input)).
  { intros r2 pre Hi Hh Hpre.
    set (r3 := setMeshGeneration E (FormatInt (smcp_Generation (Instance r2)))
                 (setOwnerRefs E [NewOwnerRef E (Instance r2)] r2)).
    assert (Hrun : reconcileComponents E r2 =
              bind E (forUntilError E (installOrdered E) orderedComponents ∅)
                (fun '(componentsProcessed, err) =>
                   match err with
                   | Some _ => handleError E err
                   | None =>
                       bind E (gets E (fun r => rangeKeys E (renderings r)))
                         (fun keys =>
                            bind E
                              (forUntilError E (installOther E) keys componentsProcessed)
                              (fun '(componentsProcessed, err) =>
                                 match err with
                                 | Some _ => handleError E err
                                 | None =>
                                     bind E
                                       (processComponentManifests E "maistra-threescale")
                                       (fun err =>
                                          match err with
                                          | Some _ => handleError E err
                                          | None => finishReconcile E
                                          end)
                                 end))
                   end) r3) by reflexivity.
    rewrite Hrun.
    destruct (stampedRun_walk r3 Hhooks r3 eq_refl) as (Hctx & new & Hn & Hs).
    assert (Hren : renderings (snd (bind E
                     (forUntilError E (installOrdered E) orderedComponents ∅) _ r3))
                   = renderings r3) by exact (f_equal snd Hctx).
    exists (pre ++ new). split.
    - rewrite Hn. subst r3. state_simpl. by rewrite Hh, app_assoc.
    - intros q sent Hq Hsent. apply elem_of_app in Hq as [Hq|Hq].
      + rewrite Forall_forall in Hpre. rewrite (Hpre q Hq) in Hsent. discriminate.
      + destruct (Hs q sent Hq Hsent) as (input & Hin & H1 & H2 & H3).
        exists input. split.
        * unfold renderedIn in *. by rewrite Hren.
        * subst r3. state_simpl. rewrite Hi in *. simpl in *.
          by split_and!. }
  rewrite Reconcile_rendering.
  destruct (renderCharts_frame (startPass E r)) as (Hh & _ & Hi & _).
  cbv zeta in *.
  destruct (renderCharts E (startPass E r)) as [[e|] r1]; cbn [fst snd] in Hh, Hi.
  - destruct (clientStatusUpdate E _ _ _) as [updateErr w]. state_simpl.
    eapply Hquiet; [by rewrite Hh | by repeat constructor].
  - destruct (clientGetNamespace E _ _ _) as [[namespace [e|]] w].
    + match goal with |- context [handleError E ?x ?s] =>
        destruct (handleError_persists x s) as [u [H1 _]] end.
      cbv zeta in H1. state_simpl.
      eapply Hquiet; [by rewrite H1, Hh, <- app_assoc | by repeat constructor].
    + unfold ensureLabel, UpdateNamespace, logInfo, logWith, record, liftWorld,
        bind, modify, ret.
      repeat match goal with
             | |- context [bool_decide ?P] => destruct (bool_decide P)
             end; state_simpl.
      all: try match goal with
               | |- context [clientUpdateNamespace E ?n ?w0] =>
                   destruct (clientUpdateNamespace E n w0) as [uerr w2]
               end; state_simpl.
      all: eapply Hwalk; state_simpl;
        [ exact Hi
        | rewrite Hh, <- ?app_assoc; reflexivity
        | by repeat constructor ].
Qed.

End PassStampTheorem.

(** ** The components of the fixed order and the loop over the renderings *)

Section Twice.

Context {E : Env}.

Local Abbreviation State := (ControlPlaneReconciler E).

Lemma installOrdered_marks (l : list string) :
  forall (cp : gset string) (r : State),
    let out := forUntilError E (installOrdered E) l cp r in
    snd (fst out) = None -> fst (fst out) = list_to_set l ∪ cp.
Proof.
  induction l as [|c l IH]; intros cp r; cbv zeta.
  - rewrite forUntilError_nil. intros _. simpl. by rewrite union_empty_l_L.
  - rewrite forUntilError_cons.
    assert (Hstep : fst (fst (installOrdered E cp c r)) = {[c]} ∪ cp).
    { unfold installOrdered, logInfo, logWith, bind, modify, ret.
      by destruct (processComponentManifests E c _). }
    destruct (installOrdered E cp c r) as [[cp1 [e|]] r1]; simpl in Hstep.
    + discriminate.
    + intros Hnone. rewrite (IH cp1 r1 Hnone), Hstep. simpl.
      apply set_eq. intros x. rewrite !elem_of_union. tauto.
Qed.

(** The set of the processed components only grows in a turn of the loop
    over the renderings. *)
Lemma installOther_grows (cp : gset string) (key : string) (r : State) :
  cp ⊆ fst (fst (installOther E cp key r)).
Proof.
  rewrite installOther_step.
  destruct (HasPrefix key "istio/" && negb (bool_decide (key ∈ cp))); simpl.
  - apply union_subseteq_r.
  - done.
Qed.

(** A turn of the loop over the renderings for a key that is already
    marked does nothing. *)
Lemma installOther_marked (cp : gset string) (key : string) (r : State) :
  key ∈ cp -> installOther E cp key r = ((cp, None), r).
Proof.
  intros Hkey. rewrite installOther_step.
  rewrite (bool_decide_eq_true_2 _ Hkey). by rewrite andb_false_r.
Qed.

(** The loop over the renderings may leave out the keys that are marked
    when it starts. *)
Lemma installOther_skips (marked : list string) (keys : list string) :
  forall (cp : gset string) (r : State),
    (forall key, key ∈ marked -> key ∈ cp) ->
    forUntilError E (installOther E) keys cp r =
    forUntilError E (installOther E) (filter (fun key => key ∉ marked) keys) cp r.
Proof.
  induction keys as [|k keys IH]; intros cp r Hcp; [reflexivity|].
  destruct (decide (k ∈ marked)) as [Hk|Hk].
  - rewrite filter_cons_False by (intros Hn; by apply Hn).
    rewrite forUntilError_cons, (installOther_marked cp k r (Hcp k Hk)).
    by apply IH.
  - rewrite filter_cons_True by done. rewrite !forUntilError_cons.
    pose proof (installOther_grows cp k r) as Hgrows.
    destruct (installOther E cp k r) as [[cp1 [e|]] r1]; [reflexivity|].
    apply IH. intros key Hkey. apply Hgrows. by apply Hcp.
Qed.

(** X22.  When the walk over the fixed order ends without error, the
    components marked as processed are exactly those of the fixed order.
    From then on, and whatever else gets marked, the loop over the
    renderings passes the components of the fixed order over: a turn for
    one of them does nothing, in any state, and the whole loop runs as it
    would over the keys that are not of the fixed order.  So a component of
    the fixed order is not processed a second time in the pass. *)
Theorem ordered_components_are_not_processed_again (r : State) :
  let walked := forUntilError E (installOrdered E) orderedComponents ∅ r in
  snd (fst walked) = None ->
  (forall key, key ∈ fst (fst walked) <-> key ∈ orderedComponents) /\
  (forall (cp : gset string) key (r' : State),
      fst (fst walked) ⊆ cp -> key ∈ orderedComponents ->
      installOther E cp key r' = ((cp, None), r')) /\
  (forall (cp : gset string) keys (r' : State),
      fst (fst walked) ⊆ cp ->
      forUntilError E (installOther E) keys cp r' =
      forUntilError E (installOther E)
        (filter (fun key => key ∉ orderedComponents) keys) cp r').
Proof.
  intros walked Hnone.
  pose proof (installOrdered_marks orderedComponents ∅ r Hnone) as Hcp.
  fold walked in Hcp. rewrite union_empty_r_L in Hcp.
  assert (Hmem : forall key, key ∈ fst (fst walked) <-> key ∈ orderedComponents).
  { intros key. rewrite Hcp. apply elem_of_list_to_set. }
  split_and!; [exact Hmem | |].
  - intros cp key r' Hsub Hkey. apply installOther_marked, Hsub, Hmem, Hkey.
  - intros cp keys r' Hsub. apply installOther_skips.
    intros key Hkey. apply Hsub, Hmem, Hkey.
Qed.

End Twice.

(** * The further properties on the small cluster *)


(** X3, witnessed on the same run: the ConfigMap gets a fresh status, the
    first of the heap. *)
Lemma object_is_tracked_whatever_happens_witness :
  let E := Fake.env Scenario.mixedCharts in
  let out := processObject E Example.securityConfigMap ∅ NewComponentStatus
               NewComponentStatus Scenario.mixedInstall in
  fst (fst (fst out)) = {[NewResourceKey E Example.securityConfigMap]} ∪ ∅ /\
  snd (fst (fst out)) = cs_appendResource NewComponentStatus 0.
Proof.
  destruct (@object_is_tracked_whatever_happens (Fake.env Scenario.mixedCharts)
              Example.securityConfigMap ∅ NewComponentStatus NewComponentStatus
              Scenario.mixedInstall eq_refl) as (H1 & H2 & _).
  split; [exact H1 | exact H2].
Defined.

(** X5, witnessed: a List whose items cannot be listed. *)
Lemma list_without_reconciled_items_witness :
  let E := Fake.env Scenario.mixedCharts in
  let out := processObject E Example.brokenList ∅ NewComponentStatus NewComponentStatus
               Scenario.mixedInstall in
  fst out = (∅, NewComponentStatus, Some (errorString "items field is not a slice")) /\
  history (snd out) = [].
Proof.
  destruct (@list_without_reconciled_items (Fake.env Scenario.mixedCharts)
              Example.brokenList ∅ NewComponentStatus NewComponentStatus
              Scenario.mixedInstall eq_refl) as (H1 & _ & H3).
  split; [by apply H1 | apply H3; by left].
Defined.

(** X9, witnessed: for pilot the hook is the check of the workloads, also
    on a status that records a webhook configuration. *)
Lemma default_hook_fetches_installed_workloads_witness :
  postProcessNewComponent (Fake.env Scenario.galleyCharts) "istio/charts/pilot"
    Scenario.galleyStatus Scenario.galleyWaiting
  = waitForDeployments (Fake.env Scenario.galleyCharts) Scenario.galleyStatus
      Scenario.galleyWaiting.
Proof.
  destruct (@default_hook_fetches_installed_workloads (Fake.env Scenario.galleyCharts)
              "istio/charts/pilot" Scenario.galleyStatus Scenario.galleyWaiting)
    as (H & _).
  - discriminate.
  - discriminate.
  - exact H.
Defined.

(** X12, witnessed: the chart renderer fails. *)
Lemma failed_rendering_ends_the_pass_witness :
  let out := Reconcile Example.brokenRenderer Example.unrendered in
  fst out = (emptyResult, Some (aggregate [Example.chartNotFound])) /\
  exists updateErr,
    history (snd out) = [(CallUpdateStatus (Instance (snd out)), updateErr)].
Proof.
  destruct (@failed_rendering_ends_the_pass Example.brokenRenderer Example.unrendered
              (aggregate [Example.chartNotFound]) eq_refl) as (H1 & H2 & _).
  split; [exact H1 | exact H2].
Defined.

(** X13, witnessed: the namespace of the control plane does not exist. *)
Lemma failed_namespace_lookup_is_handled_witness :
  let out := Reconcile (Fake.env []) Example.homeless in
  fst out = (emptyResult, Some Fake.notFound) /\
  exists updateErr,
    history (snd out)
    = [(CallGetNamespace "istio-system", Some Fake.notFound);
       (CallUpdateStatus (Instance (snd out)), updateErr)].
Proof.
  destruct (@failed_namespace_lookup_is_handled (Fake.env []) Example.homeless
              Fake.notFound eq_refl eq_refl) as (H1 & H2 & _).
  split; [exact H1 | exact H2].
Defined.

(** X14, witnessed: the namespace exists and carries no label. *)
Lemma namespace_labels_are_ensured_witness :
  exists r2,
    Reconcile (Fake.env []) Example.idle = reconcileComponents (Fake.env []) r2 /\
    map fst (history r2)
    = [CallGetNamespace "istio-system";
       CallUpdateNamespace
         (withLabels (Fake.env []) (namespaceReceiver "istio-system"))].
Proof.
  destruct (@namespace_labels_are_ensured (Fake.env []) Example.idle
              (namespaceReceiver "istio-system") (Fake.cluster []) eq_refl eq_refl)
    as (r2 & Hrun & _ & _ & _ & _ & _ & Hlabels).
  exists r2. split; [exact Hrun|].
  destruct Hlabels as [Hh _].
  - intros [H _]. discriminate H.
  - rewrite Hh. reflexivity.
Defined.

(** X20, witnessed: a pass over the chart that renders a ConfigMap of the
    control plane's namespace and a Service of another one. *)
Lemma pass_stamps_every_object_witness :
  let E := Fake.env Scenario.mixedCharts in
  let r := Fake.reconciler Scenario.mixedCharts (Fake.cluster []) Fake.emptyStatus [] in
  let out := Reconcile E r in
  exists new,
    history (snd out) = history r ++ new /\
    forall q sent,
      q ∈ new -> sentObject q = Some sent ->
      exists input,
        renderedIn (snd out) input /\
        u_Labels sent !! OwnerKey E = Some (smcp_Namespace (Instance r)) /\
        u_Annotations sent !! MeshGenerationKey E
        = Some (FormatInt (smcp_Generation (Instance r))) /\
        u_OwnerReferences sent
        = (if String.eqb (u_Namespace input) (smcp_Namespace (Instance r))
           then [NewOwnerRef E (Instance (startPass E r))]
           else u_OwnerReferences input).
Proof.
  apply (@pass_stamps_every_object (Fake.env Scenario.mixedCharts)
           (Fake.reconciler Scenario.mixedCharts (Fake.cluster []) Fake.emptyStatus [])).
  apply Fake_hooksKeepStamp.
Defined.

(** X21, witnessed: the jaeger ConfigMap is in the cluster and recorded in
    the prior status behind pointer 0; it is patched, and that status is
    renewed. *)
Lemma object_status_records_the_outcome_witness :
  let E := Fake.env Scenario.tracingServiceCharts in
  let r := Scenario.tracingReinstall in
  let out := processObject E Scenario.jaegerConfigMap ∅ Scenario.tracingStatus
               NewComponentStatus r in
  exists routes new,
    history (snd out) = history r ++ routes ++ new /\
    kialiLookups Scenario.jaegerConfigMap routes /\
    (String.eqb (u_Kind Scenario.jaegerConfigMap) "Kiali" = false -> routes = []) /\
    objectProtocol E Scenario.jaegerConfigMap new (snd (fst out)) /\
    deref (heap (snd out)) 0
    = updateReconcileStatus E (prepared (deref (heap r) 0) new) (snd (fst out)).
Proof.
  apply (@object_status_records_the_outcome (Fake.env Scenario.tracingServiceCharts)
           Scenario.jaegerConfigMap ∅ Scenario.tracingStatus NewComponentStatus
           Scenario.tracingReinstall eq_refl).
  intros p Hp. vm_compute in Hp. injection Hp as <-. simpl. lia.
Defined.

(** X22, witnessed: only a component outside the fixed order is rendered,
    the walk over the fixed order ends without error, and galley is passed
    over by the loop over the renderings, also once a further component,
    here [istio/charts/certmanager], is marked. *)
Lemma ordered_components_are_not_processed_again_witness :
  let E := Fake.env Scenario.addonCharts in
  let walked := forUntilError E (installOrdered E) orderedComponents ∅
                  Scenario.addonInstall in
  let cp : gset string := {["istio/charts/certmanager"]} ∪ fst (fst walked) in
  installOther E cp "istio/charts/galley" Scenario.addonInstall
  = ((cp, None), Scenario.addonInstall).
Proof.
  destruct (@ordered_components_are_not_processed_again (Fake.env Scenario.addonCharts)
              Scenario.addonInstall eq_refl) as (_ & H & _).
  apply H.
  - apply union_subseteq_r.
  - unfold orderedComponents. repeat (apply elem_of_cons; first [by left | right]).
Defined.
